(** * Data-lake medallion pipeline: ledger, cleaning and aggregation

    A shallow embedding of [storage/local_storage.py],
    [pipeline/bronze_to_silver.py] and [pipeline/silver_to_gold.py].

    Conventions of the embedding.
    - A [pathlib.Path] is the list of its parts, taken relative to
      [BASE_DIR]; [str] joins the parts with a slash.
    - The file system is explicit state: a directory is a finite map from
      the files below it to their contents, a missing directory is a missing
      key.  Logging is not modelled.
    - A pandas cell that is NaN / None / NaT is [None].  A DataFrame is the
      list of its rows, one record type per domain (the schema documented in
      the generators).
    - Numbers are exact rationals ([Q]); binary floating-point rounding
      error is not modelled.  An inventory [quantity] cell is a number or
      text that is no number ([Inventory.cell]), since the code coerces it
      with [pd.to_numeric].
    - The clock is an argument: functions that call [_utcnow()] or
      [datetime.now] receive the value read.
    - [pd.to_datetime(..., errors="coerce")] is an argument of the
      processors, [to_datetime : string → option Z]: the parsed timestamp
      in nanoseconds since the epoch, [None] (NaT) for a string it rejects. *)

From Stdlib Require Import ZArith QArith Qround Qabs Ascii.
From stdpp Require Import base option list gmap sets strings sorting.

Local Open Scope Z_scope.
Local Open Scope stdpp_scope.

(** ** Exceptions *)

Inductive exn :=
| JSONDecodeError.   (* json.load on content that is not JSON *)

Inductive result (A : Type) :=
| Ok (a : A)
| Raise (e : exn).
Arguments Ok {A} a.
Arguments Raise {A} e.

Global Instance result_ret : MRet result := @Ok.
Global Instance result_bind : MBind result := λ A B k m,
  match m with
  | Ok a => k a
  | Raise e => Raise e
  end.

(** ** Paths *)

Abbreviation Path := (list string).

Fixpoint join (sep : string) (l : list string) : string :=
  match l with
  | [] => ""
  | [a] => a
  | a :: l' => a +:+ sep +:+ join sep l'
  end.

(** [str(path)] *)
Definition str (p : Path) : string := join "/" p.

(** [Path.__lt__]: paths compare part by part, parts by code point. *)
Fixpoint path_leb (p q : Path) : bool :=
  match p, q with
  | [], _ => true
  | _ :: _, [] => false
  | a :: p', b :: q' =>
      match String.compare a b with
      | Lt => true
      | Gt => false
      | Eq => path_leb p' q'
      end
  end.

Definition path_le (p q : Path) : Prop := path_leb p q.

Global Instance path_le_dec : RelDecision path_le.
Proof. intros p q. unfold path_le. apply _. Defined.

(** [sorted(...)] on paths and on strings. *)
Definition sorted_paths : list Path → list Path := merge_sort path_le.
Definition sorted_strings : list string → list string := merge_sort String.le.

Definition BASE_DIR : Path := [].
Definition DATALAKE_DIR : Path := BASE_DIR ++ ["datalake"].
Definition STATE_DIR : Path := BASE_DIR ++ [".state"].
Definition DOMAINS : list string := ["sales"; "customer_events"; "inventory"].

(** ** Wall clock *)

Record datetime := mkDatetime {
  year : Z; month : Z; day : Z;
  hour : Z; minute : Z; second : Z; microsecond : Z
}.

Definition digit (n : Z) : string :=
  String (Ascii.ascii_of_N (Z.to_N (48 + n mod 10))) "".

(** [width] decimal digits of [n], most significant first: [f"{n:0{width}d}"]
    for [0 <= n < 10^width]. *)
Fixpoint zfill (width : nat) (n : Z) : string :=
  match width with
  | O => ""
  | S w => zfill w (n / 10) +:+ digit n
  end.

(** Number of decimal digits of a natural number ([fuel] bounds the loop). *)
Fixpoint ndigits (fuel : nat) (n : Z) : nat :=
  match fuel with
  | O => 1
  | S f => if decide (n < 10) then 1%nat else S (ndigits f (n / 10))
  end.

(** [f"{n}"] for a natural number. *)
Definition fmt_int (n : Z) : string := zfill (ndigits (Z.to_nat n) n) n.

(** [dt.strftime('%Y%m%d_%H%M%S')] *)
Definition strftime_Ymd_HMS (dt : datetime) : string :=
  zfill 4 (year dt) +:+ zfill 2 (month dt) +:+ zfill 2 (day dt) +:+ "_" +:+
  zfill 2 (hour dt) +:+ zfill 2 (minute dt) +:+ zfill 2 (second dt).

(** ** storage/local_storage.py *)

Module Storage.

(** [_hive_path(layer_dir, domain, dt)] *)
Definition _hive_path (layer_dir : Path) (domain : string) (dt : datetime) : Path :=
  layer_dir ++ [domain;
                "year=" +:+ fmt_int (year dt);
                "month=" +:+ zfill 2 (month dt);
                "day=" +:+ zfill 2 (day dt)].

(** Content of a state file [.state/<domain>_processed.json] as [json.load]
    sees it: a JSON array of strings (what [_save_processed_state] writes),
    or bytes that are not JSON. *)
Inductive state_file :=
| JsonArray (l : list string)
| NotJson.

(** The part of the file system the ledger reads and writes. *)
Record ledger_fs := mkFs {
  (** [bronze/<domain>] when it exists: the result of [rglob("*.csv")] *)
  bronze_csv : gmap string (list Path);
  (** [.state/<domain>_processed.json] when it exists *)
  state_files : gmap string state_file
}.

(** [STATE_DIR.mkdir] is not modelled: no function below looks at the
    directory itself. *)
Definition _load_processed_state (fs : ledger_fs) (domain : string)
  : result (gset string) :=
  match state_files fs !! domain with
  | Some (JsonArray l) => Ok (list_to_set l)
  | Some NotJson => Raise JSONDecodeError
  | None => Ok ∅
  end.

Definition _save_processed_state (fs : ledger_fs) (domain : string)
    (processed : gset string) : ledger_fs :=
  mkFs (bronze_csv fs)
       (<[domain := JsonArray (sorted_strings (elements processed))]> (state_files fs)).

Definition get_unprocessed_bronze_files (fs : ledger_fs) (domain : string)
  : result (list Path) :=
  match bronze_csv fs !! domain with
  | None => Ok []
  | Some found =>
      processed ← _load_processed_state fs domain;
      let all_files := sorted_paths found in
      Ok (filter (λ f, str f ∉ processed) all_files)
  end.

Definition mark_bronze_files_processed (fs : ledger_fs) (domain : string)
    (files : list Path) : result ledger_fs :=
  processed ← _load_processed_state fs domain;
  let processed := processed ∪ list_to_set (str <$> files) in
  Ok (_save_processed_state fs domain processed).

(** [fnmatch(name, "*.csv")] *)
Definition is_csv (name : string) : bool :=
  String.prefix (String.rev ".csv") (String.rev name).

(** [save_to_bronze(domain, source_file)].  [is_file source_file] tells
    whether [shutil.copy2] finds a regular file to copy; the result is the
    destination, [None] when the copy raises, and the file system, in which
    [mkdir] has made the domain's bronze directory either way.  A
    destination that exists is replaced. *)
Definition save_to_bronze (is_file : Path → bool) (fs : ledger_fs)
    (domain : string) (dt : datetime) (source_file : Path)
  : option Path * ledger_fs :=
  let dest_dir := _hive_path (DATALAKE_DIR ++ ["bronze"]) domain dt in
  let found := default [] (bronze_csv fs !! domain) in
  match last source_file with
  | Some name =>
      if is_file source_file then
        let dest_file := dest_dir ++ [name] in
        let found' := if is_csv name && bool_decide (dest_file ∉ found)
                      then dest_file :: found else found in
        (Some dest_file, mkFs (<[domain := found']> (bronze_csv fs)) (state_files fs))
      else (None, mkFs (<[domain := found]> (bronze_csv fs)) (state_files fs))
  | None => (None, mkFs (<[domain := found]> (bronze_csv fs)) (state_files fs))
  end.

(** The silver and gold layers are finite maps from the path of a Parquet
    file to the frame it holds; [to_parquet] on a path that exists replaces
    the file. *)

(** [dir.rglob("*.parquet")] *)
Definition rglob {A} (dir : Path) (files : gmap Path A) : list Path :=
  filter (λ f, dir `prefix_of` f) (elements (dom files)).

(** [pd.concat([pd.read_parquet(f) for f in files], ignore_index=True)] *)
Definition concat_frames {R} (files : gmap Path (list R)) (names : list Path) : list R :=
  mjoin (omap (λ f, files !! f) names).

Definition save_to_silver {R} (domain : string) (dt : datetime) (df : list R)
    (files : gmap Path (list R)) : Path * gmap Path (list R) :=
  let dest_dir := _hive_path (DATALAKE_DIR ++ ["silver"]) domain dt in
  let filename := domain +:+ "_" +:+ strftime_Ymd_HMS dt +:+ ".parquet" in
  let dest_file := dest_dir ++ [filename] in
  (dest_file, <[dest_file := df]> files).

(** A silver directory that is missing or holds no Parquet file reads as
    the empty frame. *)
Definition read_from_silver {R} (domain : string) (files : gmap Path (list R)) : list R :=
  let silver_dir := DATALAKE_DIR ++ ["silver"; domain] in
  let parquet_files := sorted_paths (rglob silver_dir files) in
  concat_frames files parquet_files.

Definition gold_file (table_name : string) (dt : datetime) : Path :=
  let dest_dir := DATALAKE_DIR ++ ["gold"; table_name] in
  let filename := table_name +:+ "_" +:+ strftime_Ymd_HMS dt +:+ ".parquet" in
  dest_dir ++ [filename].

Definition save_to_gold {F} (table_name : string) (dt : datetime) (df : F)
    (files : gmap Path F) : Path * gmap Path F :=
  let dest_file := gold_file table_name dt in
  (dest_file, <[dest_file := df]> files).

End Storage.

(** ** pandas primitives used by the pipelines *)

(** [Series.isnull()] on one cell. *)
Definition isnull {A} (c : option A) : bool :=
  match c with
  | None => true
  | Some _ => false
  end.

Definition notna {A} (c : option A) : bool := negb (isnull c).

(** [Series.isin(values)] on one cell (a null cell is in no set). *)
Definition isin (c : option string) (values : list string) : bool :=
  match c with
  | Some v => bool_decide (v ∈ values)
  | None => false
  end.

(** [DataFrame.drop_duplicates(subset=[key])] with the default
    [keep="first"]: a row is dropped when an earlier row has the same key
    (null keys compare equal to each other). *)
Fixpoint drop_duplicates_from {R K} `{EqDecision K}
    (key : R → K) (seen : list K) (df : list R) : list R :=
  match df with
  | [] => []
  | r :: df' =>
      if decide (key r ∈ seen)
      then drop_duplicates_from key seen df'
      else r :: drop_duplicates_from key (key r :: seen) df'
  end.

Definition drop_duplicates {R K} `{EqDecision K} (key : R → K) (df : list R) : list R :=
  drop_duplicates_from key [] df.

(** Round half to even, to an integer. *)
Definition rint (x : Q) : Z :=
  let f := Qfloor x in
  match Qcompare (x - inject_Z f) (1 # 2) with
  | Lt => f
  | Gt => f + 1
  | Eq => if Z.even f then f else f + 1
  end.

(** [.round(2)] *)
Definition round2 (x : Q) : Q := Qred (inject_Z (rint (x * 100)) / 100).

(** [str.strip()] (ASCII white space). *)
Definition is_space (c : Ascii.ascii) : bool :=
  let n := Ascii.N_of_ascii c in
  bool_decide ((9 ≤ n ≤ 13)%N ∨ (28 ≤ n ≤ 32)%N).

Fixpoint lstrip (s : string) : string :=
  match s with
  | String c s' => if is_space c then lstrip s' else s
  | EmptyString => EmptyString
  end.

Definition rstrip (s : string) : string := String.rev (lstrip (String.rev s)).
Definition strip (s : string) : string := rstrip (lstrip s).

(** [errors[mask] += tag] on one row. *)
Definition add_error (mask : bool) (tag : string) (errors : string) : string :=
  if mask then errors +:+ tag else errors.

(** A cleaned record: the domain's columns and the three columns every
    processor appends. *)
Record cleaned (R : Type) := mkCleaned {
  row : R;
  is_valid : bool;
  validation_errors : string;
  processed_at : string
}.
Arguments mkCleaned {R}.
Arguments row {R}.
Arguments is_valid {R}.
Arguments validation_errors {R}.
Arguments processed_at {R}.

(** The last step of every processor, on one row. *)
Definition finalise {R} (now : string) (r : R) (errors : string) : cleaned R :=
  mkCleaned r (bool_decide (strip errors = "")) (strip errors) now.

(** [for col in required_cols: errors[nulls[col]] += f"NULL:{col}; "] on one
    row; a required column is its name and its cell's null test. *)
Definition null_errors {R} (required_cols : list (string * (R → bool))) (r : R) : string :=
  foldl (λ errors col, add_error (col.2 r) ("NULL:" +:+ col.1 +:+ "; ") errors)
        "" required_cols.

(** ** pipeline/bronze_to_silver.py *)

Module BronzeToSilver.

Definition VALID_EVENT_TYPES : list string :=
  ["login"; "browse"; "add_to_cart"; "checkout"; "logout"].
Definition VALID_MOVEMENT_TYPES : list string :=
  ["inbound"; "outbound"; "adjustment"].

(** *** fact_sales *)
Module Sales.

(** One row; [T] is the type of a timestamp cell: [string] as read from
    CSV, [Z] (nanoseconds since the epoch, UTC) once parsed. *)
Record sale (T : Type) := mkSale {
  sale_id : option string;
  timestamp : option T;
  customer_id : option string;
  product_id : option string;
  product_name : option string;
  category : option string;
  quantity : option Q;
  unit_price : option Q;
  total_amount : option Q;
  payment_method : option string;
  status : option string
}.
Arguments mkSale {T}.
Arguments sale_id {T}.
Arguments timestamp {T}.
Arguments customer_id {T}.
Arguments product_id {T}.
Arguments product_name {T}.
Arguments category {T}.
Arguments quantity {T}.
Arguments unit_price {T}.
Arguments total_amount {T}.
Arguments payment_method {T}.
Arguments status {T}.

Definition required_cols {T} : list (string * (sale T → bool)) :=
  [("sale_id", λ r, isnull (sale_id r));
   ("timestamp", λ r, isnull (timestamp r));
   ("customer_id", λ r, isnull (customer_id r));
   ("product_id", λ r, isnull (product_id r));
   ("quantity", λ r, isnull (quantity r));
   ("unit_price", λ r, isnull (unit_price r));
   ("total_amount", λ r, isnull (total_amount r))].

(** Step 1 on one row: [pd.to_datetime(..., utc=True, errors="coerce")]. *)
Definition parse_timestamp (to_datetime : string → option Z)
    (r : sale string) : sale Z :=
  mkSale (sale_id r) (timestamp r ≫= to_datetime) (customer_id r)
         (product_id r) (product_name r) (category r) (quantity r)
         (unit_price r) (total_amount r) (payment_method r) (status r).

Definition set_total_amount {T} (v : option Q) (r : sale T) : sale T :=
  mkSale (sale_id r) (timestamp r) (customer_id r) (product_id r)
         (product_name r) (category r) (quantity r) (unit_price r) v
         (payment_method r) (status r).

(** [expected] of step 4, defined on the computable rows. *)
Definition expected {T} (r : sale T) : option Q :=
  match quantity r, unit_price r with
  | Some q, Some p => Some (round2 (q * p))
  | _, _ => None
  end.

(** [mismatch]: [(total_amount - expected).abs() > 0.01]; a comparison
    with a null total is false.  The comparison is the one of the exact
    numbers: a binary64 difference of one cent can come out just above or
    just below [0.01]. *)
Definition mismatch {T} (r : sale T) : bool :=
  match expected r, total_amount r with
  | Some e, Some t => negb (Qle_bool (Qabs (t - e)) (1 # 100))
  | _, _ => false
  end.

(** Step 4 on one row. *)
Definition fix_total_amount {T} (r : sale T) : sale T :=
  if mismatch r then set_total_amount (expected r) r else r.

(** Steps 3 to 5 on one row. *)
Definition clean_row (now : string) (r : sale Z) : cleaned (sale Z) :=
  let errors := null_errors required_cols r in
  finalise now (fix_total_amount r) errors.

Definition _process_sales (to_datetime : string → option Z) (now : string)
    (df : list (sale string)) : list (cleaned (sale Z)) :=
  let df := parse_timestamp to_datetime <$> df in
  let df := drop_duplicates sale_id df in
  clean_row now <$> df.

End Sales.

(** *** fact_customer_events *)
Module Events.

Record event (T : Type) := mkEvent {
  event_id : option string;
  timestamp : option T;
  customer_id : option string;
  session_id : option string;
  event_type : option string;
  product_id : option string;
  page_url : option string;
  device_type : option string
}.
Arguments mkEvent {T}.
Arguments event_id {T}.
Arguments timestamp {T}.
Arguments customer_id {T}.
Arguments session_id {T}.
Arguments event_type {T}.
Arguments product_id {T}.
Arguments page_url {T}.
Arguments device_type {T}.

Definition required_cols {T} : list (string * (event T → bool)) :=
  [("event_id", λ r, isnull (event_id r));
   ("timestamp", λ r, isnull (timestamp r));
   ("customer_id", λ r, isnull (customer_id r));
   ("session_id", λ r, isnull (session_id r));
   ("event_type", λ r, isnull (event_type r))].

Definition parse_timestamp (to_datetime : string → option Z)
    (r : event string) : event Z :=
  mkEvent (event_id r) (timestamp r ≫= to_datetime) (customer_id r)
          (session_id r) (event_type r) (product_id r) (page_url r)
          (device_type r).

Definition invalid_enum {T} (r : event T) : bool :=
  negb (isin (event_type r) VALID_EVENT_TYPES) && notna (event_type r).

Definition clean_row (now : string) (r : event Z) : cleaned (event Z) :=
  let errors := null_errors required_cols r in
  let errors := add_error (invalid_enum r) "INVALID_EVENT_TYPE; " errors in
  finalise now r errors.

Definition _process_customer_events (to_datetime : string → option Z)
    (now : string) (df : list (event string)) : list (cleaned (event Z)) :=
  let df := parse_timestamp to_datetime <$> df in
  let df := drop_duplicates event_id df in
  clean_row now <$> df.

End Events.

(** *** fact_inventory_movements *)
Module Inventory.

(** A [quantity] cell as the CSV gives it: [Number q] is a cell that
    [pd.to_numeric] reads as the number [q], [Text s] is any other text. *)
Inductive cell :=
| Number (q : Q)
| Text (s : string).

(** [pd.to_numeric(cell, errors="coerce")]: a null stays null and text
    that is no number becomes NaN. *)
Definition to_numeric (c : option cell) : option Q :=
  match c with
  | Some (Number q) => Some q
  | Some (Text _) => None
  | None => None
  end.

Record movement (T : Type) := mkMovement {
  movement_id : option string;
  timestamp : option T;
  product_id : option string;
  product_name : option string;
  warehouse_id : option string;
  movement_type : option string;
  quantity : option cell;
  unit_cost : option Q;
  supplier_id : option string
}.
Arguments mkMovement {T}.
Arguments movement_id {T}.
Arguments timestamp {T}.
Arguments product_id {T}.
Arguments product_name {T}.
Arguments warehouse_id {T}.
Arguments movement_type {T}.
Arguments quantity {T}.
Arguments unit_cost {T}.
Arguments supplier_id {T}.

Definition required_cols {T} : list (string * (movement T → bool)) :=
  [("movement_id", λ r, isnull (movement_id r));
   ("timestamp", λ r, isnull (timestamp r));
   ("product_id", λ r, isnull (product_id r));
   ("warehouse_id", λ r, isnull (warehouse_id r));
   ("movement_type", λ r, isnull (movement_type r));
   ("quantity", λ r, isnull (quantity r))].

Definition parse_timestamp (to_datetime : string → option Z)
    (r : movement string) : movement Z :=
  mkMovement (movement_id r) (timestamp r ≫= to_datetime) (product_id r)
             (product_name r) (warehouse_id r) (movement_type r)
             (quantity r) (unit_cost r) (supplier_id r).

Definition invalid_type {T} (r : movement T) : bool :=
  negb (isin (movement_type r) VALID_MOVEMENT_TYPES) && notna (movement_type r).

(** [df["quantity"].notna() & (pd.to_numeric(df["quantity"],
    errors="coerce") <= 0)]; a comparison with NaN is false. *)
Definition bad_qty {T} (r : movement T) : bool :=
  notna (quantity r) &&
  match to_numeric (quantity r) with
  | Some q => Qle_bool q 0
  | None => false
  end.

Definition clean_row (now : string) (r : movement Z) : cleaned (movement Z) :=
  let errors := null_errors required_cols r in
  let errors := add_error (invalid_type r) "INVALID_MOVEMENT_TYPE; " errors in
  let errors := add_error (bad_qty r) "NON_POSITIVE_QUANTITY; " errors in
  finalise now r errors.

Definition _process_inventory (to_datetime : string → option Z)
    (now : string) (df : list (movement string)) : list (cleaned (movement Z)) :=
  let df := parse_timestamp to_datetime <$> df in
  let df := drop_duplicates movement_id df in
  clean_row now <$> df.

End Inventory.

(** *** The entry point [run] *)

(** The body of [for domain in DOMAINS] for one domain.  [read_csv f] is
    [pd.read_csv(f)], [None] when it raises; [process] is
    [_PROCESSORS[domain]]; [dt] is the clock read by [save_to_silver].  An
    exception of the ledger ends the run. *)
Definition run_domain {Raw Clean} (process : list Raw → list Clean)
    (read_csv : Path → option (list Raw)) (domain : string) (dt : datetime)
    (fs : Storage.ledger_fs) (silver : gmap Path (list Clean))
  : result (Storage.ledger_fs * gmap Path (list Clean)) :=
  files ← Storage.get_unprocessed_bronze_files fs domain;
  match files with
  | [] => Ok (fs, silver)
  | _ :: _ =>
      let dfs := omap read_csv files in
      match dfs with
      | [] => Ok (fs, silver)
      | _ :: _ =>
          let combined := mjoin dfs in
          let cleaned := process combined in
          let silver := (Storage.save_to_silver domain dt cleaned silver).2 in
          fs ← Storage.mark_bronze_files_processed fs domain files;
          Ok (fs, silver)
      end
  end.

(** The frames [run] works on: what [pd.read_csv] makes of each bronze
    file, and the silver layer of each domain. *)
Record bronze_content := mkBronze {
  csv_sales : Path → option (list (Sales.sale string));
  csv_events : Path → option (list (Events.event string));
  csv_inventory : Path → option (list (Inventory.movement string))
}.

Record lake := mkLake {
  ledger : Storage.ledger_fs;
  silver_sales : gmap Path (list (cleaned (Sales.sale Z)));
  silver_events : gmap Path (list (cleaned (Events.event Z)));
  silver_inventory : gmap Path (list (cleaned (Inventory.movement Z)))
}.

(** [clock domain] gives the two clock readings taken while [domain] is
    processed: the ISO string stored in [processed_at] and the time
    [save_to_silver] names the file after. *)
Definition run (to_datetime : string → option Z)
    (clock : string → string * datetime) (csv : bronze_content) (lk : lake)
  : result lake :=
  let now d := (clock d).1 in
  let dt d := (clock d).2 in
  '(fs, s) ← run_domain (Sales._process_sales to_datetime (now "sales"))
               (csv_sales csv) "sales" (dt "sales") (ledger lk) (silver_sales lk);
  '(fs, e) ← run_domain (Events._process_customer_events to_datetime (now "customer_events"))
               (csv_events csv) "customer_events" (dt "customer_events") fs (silver_events lk);
  '(fs, i) ← run_domain (Inventory._process_inventory to_datetime (now "inventory"))
               (csv_inventory csv) "inventory" (dt "inventory") fs (silver_inventory lk);
  Ok (mkLake fs s e i).

End BronzeToSilver.

(** ** Grouped aggregation *)

(** [df.groupby(keys)]: the rows of each group in frame order, by key.  A row
    with a null in a key column is in no group ([dropna=True]).  The groups
    are kept as a finite map; the order of the groups is not modelled. *)
Definition groupby {R K} `{Countable K} (key : R → option K) (df : list R)
  : gmap K (list R) :=
  foldr (λ r groups,
           match key r with
           | Some k => <[k := r :: default [] (groups !! k)]> groups
           | None => groups
           end) ∅ df.

(** The reductions [sum], [mean], [count] and [nunique]; each skips nulls. *)
Definition agg_sum {R} (col : R → option Q) (g : list R) : Q :=
  foldr Qplus 0%Q (omap col g).

Definition agg_count {R A} (col : R → option A) (g : list R) : nat :=
  length (omap col g).

Definition agg_mean {R} (col : R → option Q) (g : list R) : option Q :=
  match omap col g with
  | [] => None
  | _ :: _ => Some (agg_sum col g / inject_Z (Z.of_nat (agg_count col g)))%Q
  end.

Definition agg_nunique {R} (col : R → option string) (g : list R) : nat :=
  size (list_to_set (omap col g) : gset string).

(** ** pipeline/silver_to_gold.py *)

Module SilverToGold.
Import BronzeToSilver.

Definition NS_PER_DAY : Z := 86400000000000.

(** [Series.dt.date] on one UTC timestamp. *)
Definition date_of (ts : Z) : Z := ts / NS_PER_DAY.

(** [df[df["is_valid"] == True]] *)
Definition valid_rows {R} (df : list (cleaned R)) : list (cleaned R) :=
  filter (λ r, is_valid r = true) df.

(** *** Rows of the seven gold tables *)

Record daily_row := mkDaily {
  total_revenue : Q;
  order_count : nat;
  avg_order_value : option Q;
  daily_unique_customers : nat;
  daily_generated_at : string
}.

Record category_row := mkCategory {
  category_revenue : Q;
  category_orders : nat;
  avg_unit_price : option Q;
  category_generated_at : string
}.

Record payment_row := mkPayment {
  payment_revenue : Q;
  payment_count : nat;
  payment_generated_at : string
}.

Record activity_row := mkActivity {
  activity_event_count : nat;
  activity_unique_customers : nat;
  unique_sessions : nat;
  activity_generated_at : string
}.

Record device_row := mkDevice {
  session_count : nat;
  device_event_count : nat;
  device_generated_at : string
}.

Record movement_row := mkMovementRow {
  total_quantity : Q;
  total_cost : Q;
  movement_count : nat;
  movement_generated_at : string
}.

(** A row of [inventory_net_position]: one column per movement type, by
    name, and the derived column. *)
Record net_row := mkNet {
  movement_cols : gmap string Q;
  net_position : Q;
  net_generated_at : string
}.

(** Group keys: (date, product_id, product_name, warehouse_id). *)
Abbreviation net_key := (Z * string * string * string)%type.

(** A gold Parquet file: one of the seven tables, rows by group key. *)
Inductive gold_table :=
| DailySalesSummary (t : gmap Z daily_row)
| CategorySalesSummary (t : gmap (Z * string) category_row)
| PaymentMethodSummary (t : gmap (Z * string) payment_row)
| CustomerActivitySummary (t : gmap (Z * string) activity_row)
| DeviceUsageSummary (t : gmap (Z * string) device_row)
| InventoryMovementSummary (t : gmap (net_key * string) movement_row)
| InventoryNetPosition (t : gmap net_key net_row).

(** [clock table] gives the two clock readings taken for [table]: the ISO
    string stored in [generated_at] and the time [save_to_gold] names the
    file after. *)
Section Builders.
Variable clock : string → string * datetime.

Definition write (table_name : string) (df : gold_table)
    (gold : gmap Path gold_table) : gmap Path gold_table :=
  (Storage.save_to_gold table_name (clock table_name).2 df gold).2.

(** *** Gold table 1: sales *)

Definition sale_date (r : cleaned (Sales.sale Z)) : option Z :=
  date_of <$> Sales.timestamp (row r).

Definition daily (valid : list (cleaned (Sales.sale Z))) : gmap Z daily_row :=
  (λ g, mkDaily (round2 (agg_sum (λ r, Sales.total_amount (row r)) g))
                (agg_nunique (λ r, Sales.sale_id (row r)) g)
                (round2 <$> agg_mean (λ r, Sales.total_amount (row r)) g)
                (agg_nunique (λ r, Sales.customer_id (row r)) g)
                (clock "daily_sales_summary").1)
    <$> groupby sale_date valid.

Definition cat (valid : list (cleaned (Sales.sale Z))) : gmap (Z * string) category_row :=
  (λ g, mkCategory (round2 (agg_sum (λ r, Sales.total_amount (row r)) g))
                   (agg_nunique (λ r, Sales.sale_id (row r)) g)
                   (round2 <$> agg_mean (λ r, Sales.unit_price (row r)) g)
                   (clock "category_sales_summary").1)
    <$> groupby (λ r, d ← sale_date r; c ← Sales.category (row r); Some (d, c)) valid.

Definition pay (valid : list (cleaned (Sales.sale Z))) : gmap (Z * string) payment_row :=
  (λ g, mkPayment (round2 (agg_sum (λ r, Sales.total_amount (row r)) g))
                  (agg_nunique (λ r, Sales.sale_id (row r)) g)
                  (clock "payment_method_summary").1)
    <$> groupby (λ r, d ← sale_date r; m ← Sales.payment_method (row r); Some (d, m)) valid.

(** What the builder does once it has the non-empty frame [valid]. *)
Definition sales_snapshots (valid : list (cleaned (Sales.sale Z)))
    (gold : gmap Path gold_table) : gmap Path gold_table :=
  let gold := write "daily_sales_summary" (DailySalesSummary (daily valid)) gold in
  let gold := write "category_sales_summary" (CategorySalesSummary (cat valid)) gold in
  write "payment_method_summary" (PaymentMethodSummary (pay valid)) gold.

Definition _build_daily_sales_summary (df : list (cleaned (Sales.sale Z)))
    (gold : gmap Path gold_table) : gmap Path gold_table :=
  match df with
  | [] => gold
  | _ :: _ =>
      let valid := valid_rows df in
      match valid with
      | [] => gold
      | _ :: _ => sales_snapshots valid gold
      end
  end.

(** *** Gold table 2: customer events *)

Definition event_date (r : cleaned (Events.event Z)) : option Z :=
  date_of <$> Events.timestamp (row r).

Definition events (valid : list (cleaned (Events.event Z))) : gmap (Z * string) activity_row :=
  (λ g, mkActivity (agg_count (λ r, Events.event_id (row r)) g)
                   (agg_nunique (λ r, Events.customer_id (row r)) g)
                   (agg_nunique (λ r, Events.session_id (row r)) g)
                   (clock "customer_activity_summary").1)
    <$> groupby (λ r, d ← event_date r; t ← Events.event_type (row r); Some (d, t)) valid.

Definition devices (valid : list (cleaned (Events.event Z))) : gmap (Z * string) device_row :=
  (λ g, mkDevice (agg_nunique (λ r, Events.session_id (row r)) g)
                 (agg_count (λ r, Events.event_id (row r)) g)
                 (clock "device_usage_summary").1)
    <$> groupby (λ r, d ← event_date r; t ← Events.device_type (row r); Some (d, t)) valid.

Definition events_snapshots (valid : list (cleaned (Events.event Z)))
    (gold : gmap Path gold_table) : gmap Path gold_table :=
  let gold := write "customer_activity_summary" (CustomerActivitySummary (events valid)) gold in
  write "device_usage_summary" (DeviceUsageSummary (devices valid)) gold.

Definition _build_customer_activity_summary (df : list (cleaned (Events.event Z)))
    (gold : gmap Path gold_table) : gmap Path gold_table :=
  match df with
  | [] => gold
  | _ :: _ =>
      let valid := valid_rows df in
      match valid with
      | [] => gold
      | _ :: _ => events_snapshots valid gold
      end
  end.

(** *** Gold table 3: inventory *)

Definition movement_date (r : cleaned (Inventory.movement Z)) : option Z :=
  date_of <$> Inventory.timestamp (row r).

(** [valid["quantity"] = pd.to_numeric(valid["quantity"], errors="coerce")]
    on one row. *)
Definition numeric_quantity (r : cleaned (Inventory.movement Z)) : option Q :=
  Inventory.to_numeric (Inventory.quantity (row r)).

(** The [index] columns of the pivot. *)
Definition index_key (r : cleaned (Inventory.movement Z)) : option net_key :=
  d ← movement_date r;
  p ← Inventory.product_id (row r);
  n ← Inventory.product_name (row r);
  w ← Inventory.warehouse_id (row r);
  Some (d, p, n, w).

(** The [index] columns and [movement_type]. *)
Definition type_key (r : cleaned (Inventory.movement Z)) : option (net_key * string) :=
  k ← index_key r;
  t ← Inventory.movement_type (row r);
  Some (k, t).

Definition movement (valid : list (cleaned (Inventory.movement Z)))
  : gmap (net_key * string) movement_row :=
  (λ g, mkMovementRow (round2 (agg_sum numeric_quantity g))
                      (round2 (agg_sum (λ r, Inventory.unit_cost (row r)) g))
                      (agg_count (λ r, Inventory.movement_id (row r)) g)
                      (clock "inventory_movement_summary").1)
    <$> groupby type_key valid.

(** [valid.pivot_table(index=[...], columns="movement_type",
    values="quantity", aggfunc="sum", fill_value=0)]: the column names
    and, for every index key, the value of every column. *)
Definition pivot_table (valid : list (cleaned (Inventory.movement Z)))
  : gset string * gmap net_key (gmap string Q) :=
  let cells := agg_sum numeric_quantity <$> groupby type_key valid in
  let index : gset net_key := set_map fst (dom cells) in
  let columns : gset string := set_map snd (dom cells) in
  (columns,
   set_to_map (λ k, (k, set_to_map (λ c, (c, default 0%Q (cells !! (k, c)))) columns))
              index).

(** [if col not in pivot.columns: pivot[col] = 0] *)
Definition ensure_column (col : string)
    (pivot : gset string * gmap net_key (gmap string Q))
  : gset string * gmap net_key (gmap string Q) :=
  if decide (col ∈ pivot.1) then pivot
  else ({[col]} ∪ pivot.1, (λ cols, <[col := 0%Q]> cols) <$> pivot.2).

(** [pivot[col]] on one row; the column is there once it is ensured. *)
Definition column (col : string) (cols : gmap string Q) : Q :=
  default 0%Q (cols !! col).

Definition net_position_table (valid : list (cleaned (Inventory.movement Z)))
  : gmap net_key net_row :=
  let pivot := pivot_table valid in
  let pivot := foldl (λ p col, ensure_column col p) pivot
                     ["inbound"; "outbound"; "adjustment"] in
  (λ cols, mkNet cols (column "inbound" cols - column "outbound" cols)%Q
                 (clock "inventory_net_position").1) <$> pivot.2.

Definition inventory_snapshots (valid : list (cleaned (Inventory.movement Z)))
    (gold : gmap Path gold_table) : gmap Path gold_table :=
  let gold := write "inventory_movement_summary" (InventoryMovementSummary (movement valid)) gold in
  write "inventory_net_position" (InventoryNetPosition (net_position_table valid)) gold.

Definition _build_inventory_summary (df : list (cleaned (Inventory.movement Z)))
    (gold : gmap Path gold_table) : gmap Path gold_table :=
  match df with
  | [] => gold
  | _ :: _ =>
      let valid := valid_rows df in
      match valid with
      | [] => gold
      | _ :: _ => inventory_snapshots valid gold
      end
  end.

(** *** The entry point [run] *)
Definition run (lk : lake) (gold : gmap Path gold_table) : gmap Path gold_table :=
  let sales_df := Storage.read_from_silver "sales" (silver_sales lk) in
  let events_df := Storage.read_from_silver "customer_events" (silver_events lk) in
  let inv_df := Storage.read_from_silver "inventory" (silver_inventory lk) in
  let gold := _build_daily_sales_summary sales_df gold in
  let gold := _build_customer_activity_summary events_df gold in
  _build_inventory_summary inv_df gold.

End Builders.

End SilverToGold.

(** * Vocabulary of the properties

    Definitions the statements below are written with; none of them is part
    of the pipeline. *)

(** The first row of a frame with a given key. *)
Definition first_occurrence {R K} `{EqDecision K} (key : R → K) (k : K) (df : list R)
  : option R :=
  snd <$> list_find (λ r, key r = k) df.

(** Reading a semicolon-joined error string as the list of its tags. *)
Fixpoint split_on (sep : Ascii.ascii) (cur : string) (s : string) : list string :=
  match s with
  | EmptyString => [String.rev cur]
  | String c s' =>
      if decide (c = sep) then String.rev cur :: split_on sep EmptyString s'
      else split_on sep (String c cur) s'
  end.

Definition error_tags (errors : string) : list string :=
  filter (λ t, t ≠ "") (strip <$> split_on ";"%char EmptyString errors).

(** The [NULL] tags of a row, one per required column that is null, in the
    order of the columns. *)
Definition null_tags {R} (required_cols : list (string * (R → bool))) (r : R)
  : list string :=
  (λ col, "NULL:" +:+ col.1) <$> filter (λ col, col.2 r = true) required_cols.

(** The tag of a semantic check, when its mask holds. *)
Definition tag_if (mask : bool) (tag : string) : list string :=
  if mask then [tag] else [].

(** The quantity moved in one group with one movement type: the sum over
    the rows of the frame with that index key and that type (zero when there
    is none). *)
Definition moved_quantity (valid : list (cleaned (BronzeToSilver.Inventory.movement Z)))
    (k : SilverToGold.net_key) (t : string) : Q :=
  agg_sum SilverToGold.numeric_quantity
          (filter (λ r, SilverToGold.type_key r = Some (k, t)) valid).

(** What holds of the pivot before and after each [ensure_column]: every
    movement type of the data is a column, the rows are the index keys, and
    a row has, for each column, the sum of its cell, zero for a cell with no
    movement. *)
Definition pivot_ok (cells : gmap (SilverToGold.net_key * string) Q)
    (index : gset SilverToGold.net_key)
    (pivot : gset string * gmap SilverToGold.net_key (gmap string Q)) : Prop :=
  (∀ k c, is_Some (cells !! (k, c)) → c ∈ pivot.1)
  ∧ ∀ k, if decide (k ∈ index)
         then ∃ cols, pivot.2 !! k = Some cols
                      ∧ ∀ c, cols !! c = if decide (c ∈ pivot.1)
                                         then Some (default 0%Q (cells !! (k, c)))
                                         else None
         else pivot.2 !! k = None.

(** What a builder does with the valid rows of its frame: nothing when
    there is none, else its snapshots. *)
Definition snapshots_of {R}
    (snapshots : list R → gmap Path SilverToGold.gold_table → gmap Path SilverToGold.gold_table)
    (valid : list R) (gold : gmap Path SilverToGold.gold_table)
  : gmap Path SilverToGold.gold_table :=
  match valid with
  | [] => gold
  | _ :: _ => snapshots valid gold
  end.

(** A frame is the concatenation of the partitions of a directory when it
    is the contents, in ascending path order, of the files below the
    directory, each file once. *)
Definition concatenation_of {R} (dir : Path) (files : gmap Path (list R))
    (df : list R) : Prop :=
  ∃ names, StronglySorted path_le names
           ∧ NoDup names
           ∧ (∀ f, f ∈ names ↔ dir `prefix_of` f ∧ is_Some (files !! f))
           ∧ df = mjoin (omap (λ f, files !! f) names).

(** The records of a frame with the group key [k]. *)
Definition group {R K} `{EqDecision K} (key : R → option K) (valid : list R) (k : K)
  : list R :=
  filter (λ r, key r = Some k) valid.

(** A table is the rollup of a frame when it has a row for the group keys
    of the frame's records and for nothing else, and the row of a key
    satisfies [metrics] for the records with that key. *)
Definition rollup {R K Row} `{Countable K} (key : R → option K)
    (metrics : K → list R → Row → Prop) (valid : list R) (table : gmap K Row) : Prop :=
  ∀ k, match group key valid k with
       | [] => table !! k = None
       | _ :: _ => ∃ kpis, table !! k = Some kpis ∧ metrics k (group key valid k) kpis
       end.

(** A group key of two columns; a null in either leaves the record without
    key. *)
Definition key2 {R A B} (a : R → option A) (b : R → option B) (r : R) : option (A * B) :=
  x ← a r; y ← b r; Some (x, y).

(** The metrics of one row of each gold table, as reductions over the
    records [g] of its group. *)
Definition daily_metrics (generated_at : string)
    (g : list (cleaned (BronzeToSilver.Sales.sale Z))) (kpis : SilverToGold.daily_row) : Prop :=
  SilverToGold.total_revenue kpis
  = round2 (agg_sum (λ r, BronzeToSilver.Sales.total_amount (row r)) g)
  ∧ SilverToGold.order_count kpis
    = agg_nunique (λ r, BronzeToSilver.Sales.sale_id (row r)) g
  ∧ SilverToGold.avg_order_value kpis
    = round2 <$> agg_mean (λ r, BronzeToSilver.Sales.total_amount (row r)) g
  ∧ SilverToGold.daily_unique_customers kpis
    = agg_nunique (λ r, BronzeToSilver.Sales.customer_id (row r)) g
  ∧ SilverToGold.daily_generated_at kpis = generated_at.

Definition category_metrics (generated_at : string)
    (g : list (cleaned (BronzeToSilver.Sales.sale Z))) (kpis : SilverToGold.category_row)
  : Prop :=
  SilverToGold.category_revenue kpis
  = round2 (agg_sum (λ r, BronzeToSilver.Sales.total_amount (row r)) g)
  ∧ SilverToGold.category_orders kpis
    = agg_nunique (λ r, BronzeToSilver.Sales.sale_id (row r)) g
  ∧ SilverToGold.avg_unit_price kpis
    = round2 <$> agg_mean (λ r, BronzeToSilver.Sales.unit_price (row r)) g
  ∧ SilverToGold.category_generated_at kpis = generated_at.

Definition payment_metrics (generated_at : string)
    (g : list (cleaned (BronzeToSilver.Sales.sale Z))) (kpis : SilverToGold.payment_row)
  : Prop :=
  SilverToGold.payment_revenue kpis
  = round2 (agg_sum (λ r, BronzeToSilver.Sales.total_amount (row r)) g)
  ∧ SilverToGold.payment_count kpis
    = agg_nunique (λ r, BronzeToSilver.Sales.sale_id (row r)) g
  ∧ SilverToGold.payment_generated_at kpis = generated_at.

Definition activity_metrics (generated_at : string)
    (g : list (cleaned (BronzeToSilver.Events.event Z))) (kpis : SilverToGold.activity_row)
  : Prop :=
  SilverToGold.activity_event_count kpis
  = agg_count (λ r, BronzeToSilver.Events.event_id (row r)) g
  ∧ SilverToGold.activity_unique_customers kpis
    = agg_nunique (λ r, BronzeToSilver.Events.customer_id (row r)) g
  ∧ SilverToGold.unique_sessions kpis
    = agg_nunique (λ r, BronzeToSilver.Events.session_id (row r)) g
  ∧ SilverToGold.activity_generated_at kpis = generated_at.

Definition device_metrics (generated_at : string)
    (g : list (cleaned (BronzeToSilver.Events.event Z))) (kpis : SilverToGold.device_row)
  : Prop :=
  SilverToGold.session_count kpis
  = agg_nunique (λ r, BronzeToSilver.Events.session_id (row r)) g
  ∧ SilverToGold.device_event_count kpis
    = agg_count (λ r, BronzeToSilver.Events.event_id (row r)) g
  ∧ SilverToGold.device_generated_at kpis = generated_at.

Definition movement_metrics (generated_at : string)
    (g : list (cleaned (BronzeToSilver.Inventory.movement Z)))
    (kpis : SilverToGold.movement_row) : Prop :=
  SilverToGold.total_quantity kpis = round2 (agg_sum SilverToGold.numeric_quantity g)
  ∧ SilverToGold.total_cost kpis
    = round2 (agg_sum (λ r, BronzeToSilver.Inventory.unit_cost (row r)) g)
  ∧ SilverToGold.movement_count kpis
    = agg_count (λ r, BronzeToSilver.Inventory.movement_id (row r)) g
  ∧ SilverToGold.movement_generated_at kpis = generated_at.

(** The row of the net-position table for the index key [k]: the three
    known columns hold the quantity moved with that type in the frame
    [valid]. *)
Definition net_metrics (generated_at : string)
    (valid : list (cleaned (BronzeToSilver.Inventory.movement Z)))
    (k : SilverToGold.net_key) (kpis : SilverToGold.net_row) : Prop :=
  SilverToGold.movement_cols kpis !! "inbound" = Some (moved_quantity valid k "inbound")
  ∧ SilverToGold.movement_cols kpis !! "outbound" = Some (moved_quantity valid k "outbound")
  ∧ SilverToGold.movement_cols kpis !! "adjustment"
    = Some (moved_quantity valid k "adjustment")
  ∧ SilverToGold.net_position kpis
    = (moved_quantity valid k "inbound" - moved_quantity valid k "outbound")%Q
  ∧ SilverToGold.net_generated_at kpis = generated_at.

(** * Concrete inputs

    Small lakes and frames the properties below are evaluated on. *)

(** A lake with two raw sales batches and no state file. *)
Definition batch_a : Path :=
  ["datalake"; "bronze"; "sales"; "year=2025"; "month=01"; "day=01";
   "sales_20250101_000000.csv"].
Definition batch_b : Path :=
  ["datalake"; "bronze"; "sales"; "year=2025"; "month=01"; "day=01";
   "sales_20250101_000500.csv"].
Definition two_batches : Storage.ledger_fs :=
  Storage.mkFs {["sales" := [batch_b; batch_a]]} ∅.

(** A lake whose sales state file is not JSON. *)
Definition corrupt_state : Storage.ledger_fs :=
  Storage.mkFs {["sales" := [batch_a]]} {["sales" := Storage.NotJson]}.

(** What [pd.read_csv] makes of the two batches: the first parses to one
    sale, the second is malformed. *)
Definition sale_1 : BronzeToSilver.Sales.sale string :=
  BronzeToSilver.Sales.mkSale (Some "s-1") (Some "2025-01-01T00:00:00+00:00")
    (Some "CUST-1000") (Some "PROD-101") (Some "Laptop") (Some "Electronics")
    (Some 3%Q) (Some 10%Q) (Some 35%Q) (Some "paypal") (Some "completed").

Definition csv_a_ok_b_malformed (f : Path) : option (list (BronzeToSilver.Sales.sale string)) :=
  if decide (f = batch_a) then Some [sale_1] else None.

(** A parser that accepts every string. *)
Definition parse_any (s : string) : option Z := Some 1735689600000000000.

Definition noon : datetime := mkDatetime 2025 1 1 12 0 0 0.
Definition noon_later_same_second : datetime := mkDatetime 2025 1 1 12 0 0 900000.

(** A silver layer with one partition holding one valid sale. *)
Definition cleaned_sale_1 : cleaned (BronzeToSilver.Sales.sale Z) :=
  BronzeToSilver.Sales.clean_row "2025-01-01T11:30:00+00:00"
    (BronzeToSilver.Sales.parse_timestamp parse_any sale_1).

Definition lake_one_sale : BronzeToSilver.lake :=
  BronzeToSilver.mkLake two_batches
    {[ ["datalake"; "silver"; "sales"; "year=2025"; "month=01"; "day=01";
        "sales_20250101_113000.parquet"] := [cleaned_sale_1] ]}
    ∅ ∅.

(** Two aggregation runs whose clock readings fall in the same second. *)
Definition clock_noon (table : string) : string * datetime :=
  ("2025-01-01T12:00:00+00:00", noon).
Definition clock_noon_later (table : string) : string * datetime :=
  ("2025-01-01T12:00:00.900000+00:00", noon_later_same_second).

(** A later sale that repeats the key of [sale_1] with other contents. *)
Definition sale_1_again : BronzeToSilver.Sales.sale string :=
  BronzeToSilver.Sales.mkSale (Some "s-1") (Some "2025-01-01T00:05:00+00:00")
    (Some "CUST-2000") (Some "PROD-102") (Some "Smartphone") (Some "Electronics")
    (Some 1%Q) (Some 99%Q) (Some 99%Q) (Some "crypto") (Some "pending").

(** A sale whose timestamp does not parse and whose quantity is missing. *)
Definition sale_bad_timestamp_no_quantity : BronzeToSilver.Sales.sale string :=
  BronzeToSilver.Sales.mkSale (Some "s-2") (Some "yesterday-ish")
    (Some "CUST-1000") (Some "PROD-101") (Some "Laptop") (Some "Electronics")
    None (Some 10%Q) (Some 30%Q) (Some "paypal") (Some "completed").

(** A parser that rejects every string. *)
Definition parse_none (s : string) : option Z := None.




(** The silver layer of [lake_one_sale] with an invalid sale added to the
    partition. *)
Definition cleaned_sale_invalid : cleaned (BronzeToSilver.Sales.sale Z) :=
  BronzeToSilver.Sales.clean_row "2025-01-01T11:30:00+00:00"
    (BronzeToSilver.Sales.parse_timestamp parse_none sale_bad_timestamp_no_quantity).

Definition lake_one_valid_one_invalid : BronzeToSilver.lake :=
  BronzeToSilver.mkLake two_batches
    {[ ["datalake"; "silver"; "sales"; "year=2025"; "month=01"; "day=01";
        "sales_20250101_113000.parquet"] := [cleaned_sale_invalid; cleaned_sale_1] ]}
    ∅ ∅.

(** The lake of [two_batches] as [rglob] might list it the other way
    round. *)
Definition two_batches_listed_otherwise : Storage.ledger_fs :=
  Storage.mkFs {["sales" := [batch_a; batch_b]]} ∅.

(** A generator output file, and a local file system that has it. *)
Definition local_sales_file : Path := ["local_output"; "sales"; "sales_20250101_001000.csv"].
Definition only_local_sales_file (f : Path) : bool := bool_decide (f = local_sales_file).

(** A frame of two sales with different keys. *)
Definition two_distinct_sales : list (BronzeToSilver.Sales.sale string) :=
  [sale_1; sale_bad_timestamp_no_quantity].

(** What [pd.read_csv] makes of the bronze files of the three domains: the
    sales batches as in [csv_a_ok_b_malformed], nothing else parses. *)
Definition bronze_two_batches : BronzeToSilver.bronze_content :=
  BronzeToSilver.mkBronze csv_a_ok_b_malformed (λ _, None) (λ _, None).

(** A lake with the two raw sales batches and empty silver layers. *)
Definition lake_two_batches : BronzeToSilver.lake :=
  BronzeToSilver.mkLake two_batches ∅ ∅ ∅.

Definition clock_domains_noon (domain : string) : string * datetime :=
  ("2025-01-01T12:00:00+00:00", noon).
Definition clock_domains_later (domain : string) : string * datetime :=
  ("2025-01-01T12:30:00+00:00", mkDatetime 2025 1 1 12 30 0 0).

(** The names of the seven gold tables. *)
Definition GOLD_TABLES : list string :=
  ["daily_sales_summary"; "category_sales_summary"; "payment_method_summary";
   "customer_activity_summary"; "device_usage_summary";
   "inventory_movement_summary"; "inventory_net_position"].

(** A silver layer whose only record is invalid. *)
Definition lake_one_invalid : BronzeToSilver.lake :=
  BronzeToSilver.mkLake two_batches
    {[ ["datalake"; "silver"; "sales"; "year=2025"; "month=01"; "day=01";
        "sales_20250101_113000.parquet"] := [cleaned_sale_invalid] ]}
    ∅ ∅.

(** The values a Python [datetime] can hold, from the year 1000 on, where
    [%Y] has four digits on every platform. *)
Definition datetime_ok (dt : datetime) : Prop :=
  1000 ≤ year dt ≤ 9999 ∧ 1 ≤ month dt ≤ 12 ∧ 1 ≤ day dt ≤ 31
  ∧ 0 ≤ hour dt ≤ 23 ∧ 0 ≤ minute dt ≤ 59 ∧ 0 ≤ second dt ≤ 59
  ∧ 0 ≤ microsecond dt ≤ 999999.

(** A [datetime] without its microseconds. *)
Definition to_second (dt : datetime) : Z * Z * Z * Z * Z * Z :=
  (year dt, month dt, day dt, hour dt, minute dt, second dt).

(** A clock one second after [clock_noon]. *)
Definition clock_noon_next_second (table : string) : string * datetime :=
  ("2025-01-01T12:00:01+00:00", mkDatetime 2025 1 1 12 0 1 0).

(** * Properties *)

(** ** The ingestion ledger *)

Section ledger_facts.
Import Storage.

Lemma elem_of_sorted_strings (x : string) (l : list string) :
  x ∈ sorted_strings l ↔ x ∈ l.
Proof. unfold sorted_strings. by rewrite merge_sort_Permutation. Qed.

Lemma elem_of_sorted_paths (p : Path) (l : list Path) :
  p ∈ sorted_paths l ↔ p ∈ l.
Proof. unfold sorted_paths. by rewrite merge_sort_Permutation. Qed.

(** What was saved is what is loaded. *)
Lemma load_after_save fs domain (processed : gset string) :
  ∃ loaded, _load_processed_state (_save_processed_state fs domain processed) domain
            = Ok loaded
            ∧ ∀ x, x ∈ loaded ↔ x ∈ processed.
Proof.
  unfold _load_processed_state, _save_processed_state; simpl.
  rewrite lookup_insert_eq. eexists; split; [done|].
  intros x. by rewrite elem_of_list_to_set, elem_of_sorted_strings, elem_of_elements.
Qed.

Lemma bronze_csv_save fs domain processed :
  bronze_csv (_save_processed_state fs domain processed) = bronze_csv fs.
Proof. reflexivity. Qed.

Lemma load_cases fs domain :
  (∃ processed, _load_processed_state fs domain = Ok processed)
  ∨ _load_processed_state fs domain = Raise JSONDecodeError.
Proof.
  unfold _load_processed_state.
  destruct (state_files fs !! domain) as [[l|]|]; eauto.
Qed.

(** A commit leaves every committed file, and every file committed
    before, in the saved set. *)
Lemma mark_bronze_files_processed_spec fs domain files fs' :
  mark_bronze_files_processed fs domain files = Ok fs' →
  ∃ before,
    _load_processed_state fs domain = Ok before
    ∧ fs' = _save_processed_state fs domain (before ∪ list_to_set (str <$> files)).
Proof.
  unfold mark_bronze_files_processed.
  destruct (_load_processed_state fs domain) as [before|e] eqn:Hload; simpl.
  - intros [= <-]. eauto.
  - discriminate.
Qed.

End ledger_facts.

(** C1. Right after [mark_bronze_files_processed(D, S)] returns,
    [get_unprocessed_bronze_files(D)] returns a list, and no file of [S] is
    in it. *)
Theorem unprocessed_after_commit_disjoint
    (fs fs' : Storage.ledger_fs) (D : string) (S : list Path) :
  Storage.mark_bronze_files_processed fs D S = Ok fs' →
  ∃ l, Storage.get_unprocessed_bronze_files fs' D = Ok l
       ∧ ∀ f, f ∈ S → f ∉ l.
Proof.
  intros (before & _ & ->)%mark_bronze_files_processed_spec.
  unfold Storage.get_unprocessed_bronze_files.
  destruct (load_after_save fs D (before ∪ list_to_set (str <$> S)))
    as (loaded & -> & Hloaded).
  simpl. destruct (Storage.bronze_csv fs !! D) as [found|]; simpl.
  - eexists; split; [done|]. intros f Hf [Hnot _]%list_elem_of_filter.
    apply Hnot, Hloaded, elem_of_union_r, elem_of_list_to_set.
    by apply list_elem_of_fmap_2.
  - eexists; split; [done|]. intros f _ ?%elem_of_nil. done.
Qed.

Lemma unprocessed_after_commit_disjoint_witness :
  ∃ fs', Storage.mark_bronze_files_processed two_batches "sales" [batch_a] = Ok fs'
         ∧ ∃ l, Storage.get_unprocessed_bronze_files fs' "sales" = Ok l
                ∧ ∀ f, f ∈ [batch_a] → f ∉ l.
Proof.
  eexists; split; [reflexivity|].
  apply (unprocessed_after_commit_disjoint two_batches _ "sales" [batch_a]).
  reflexivity.
Defined.

(** C3, as the code has it: a missing state file loads as the empty set; a
    state file whose content is not JSON makes the load raise. *)
Theorem load_processed_state_missing_or_corrupt (fs : Storage.ledger_fs) (D : string) :
  (Storage.state_files fs !! D = None →
   Storage._load_processed_state fs D = Ok ∅)
  ∧ (Storage.state_files fs !! D = Some Storage.NotJson →
     Storage._load_processed_state fs D = Raise JSONDecodeError).
Proof.
  unfold Storage._load_processed_state. split; intros ->; reflexivity.
Qed.

Lemma load_processed_state_missing_or_corrupt_witness :
  Storage._load_processed_state two_batches "sales" = Ok ∅
  ∧ Storage._load_processed_state corrupt_state "sales" = Raise JSONDecodeError.
Proof.
  split.
  - apply (proj1 (load_processed_state_missing_or_corrupt two_batches "sales")).
    reflexivity.
  - apply (proj2 (load_processed_state_missing_or_corrupt corrupt_state "sales")).
    reflexivity.
Defined.

(** C3 as stated fails: loading a corrupt state file does not return the
    empty set, it raises. *)
Lemma load_corrupt_state_not_empty :
  Storage._load_processed_state corrupt_state "sales" ≠ Ok ∅.
Proof. discriminate. Qed.

(** ** The cleaning run and the ledger *)

(** When at least one batch of a run parses, the run commits every file the
    ledger listed, so nothing is left unprocessed, whether it parsed or not. *)
Lemma run_domain_commits_every_listed_file {Raw Clean}
    (process : list Raw → list Clean) (read_csv : Path → option (list Raw))
    domain dt fs silver fs' silver' files :
  Storage.get_unprocessed_bronze_files fs domain = Ok files →
  omap read_csv files ≠ [] →
  BronzeToSilver.run_domain process read_csv domain dt fs silver = Ok (fs', silver') →
  Storage.mark_bronze_files_processed fs domain files = Ok fs'
  ∧ Storage.get_unprocessed_bronze_files fs' domain = Ok [].
Proof.
  intros Hfiles Hsome. unfold BronzeToSilver.run_domain. rewrite Hfiles. simpl.
  destruct files as [|f files]; [done|].
  destruct (omap read_csv (f :: files)) as [|df dfs] eqn:Hdfs; [done|].
  destruct (Storage.mark_bronze_files_processed fs domain (f :: files))
    as [fs1|e] eqn:Hmark; simpl; [|discriminate].
  intros [= <- <-]. split; [done|].
  apply mark_bronze_files_processed_spec in Hmark as (before & Hbefore & ->).
  destruct (load_after_save fs domain (before ∪ list_to_set (str <$> f :: files)))
    as (loaded & Hload & Hloaded).
  revert Hfiles. unfold Storage.get_unprocessed_bronze_files.
  rewrite bronze_csv_save, Hload, Hbefore.
  destruct (Storage.bronze_csv fs !! domain) as [found|]; [|done].
  intros [= Hfiles]. cbn [mbind result_bind]. f_equal.
  destruct (filter _ (sorted_paths found)) as [|g gs] eqn:Hleft in |- *; [done|].
  assert (g ∈ filter (λ f0, str f0 ∉ loaded) (sorted_paths found)) as Hg
    by (rewrite Hleft; left).
  apply list_elem_of_filter in Hg as [Hg1 Hg2]. exfalso. apply Hg1, Hloaded.
  destruct (decide (str g ∈ before)) as [?|Hnew]; [by apply elem_of_union_l|].
  apply elem_of_union_r, elem_of_list_to_set, list_elem_of_fmap_2.
  rewrite <- Hfiles. by apply list_elem_of_filter.
Qed.

(** When no batch of a run parses, the run writes nothing and commits
    nothing. *)
Lemma run_domain_nothing_parsed {Raw Clean}
    (process : list Raw → list Clean) (read_csv : Path → option (list Raw))
    domain dt fs silver files :
  Storage.get_unprocessed_bronze_files fs domain = Ok files →
  omap read_csv files = [] →
  BronzeToSilver.run_domain process read_csv domain dt fs silver = Ok (fs, silver).
Proof.
  intros Hfiles Hnone. unfold BronzeToSilver.run_domain. rewrite Hfiles. simpl.
  destruct files; [done|]. by rewrite Hnone.
Qed.

(** When some batch of a run parses, the run writes the cleaned
    concatenation of the batches that parsed and commits the listed files. *)
Lemma run_domain_some_parsed {Raw Clean}
    (process : list Raw → list Clean) (read_csv : Path → option (list Raw))
    domain dt fs silver files df dfs :
  Storage.get_unprocessed_bronze_files fs domain = Ok files →
  omap read_csv files = df :: dfs →
  ∃ fs', Storage.mark_bronze_files_processed fs domain files = Ok fs'
         ∧ BronzeToSilver.run_domain process read_csv domain dt fs silver
           = Ok (fs', (Storage.save_to_silver domain dt (process (mjoin (df :: dfs))) silver).2).
Proof.
  intros Hfiles Hdfs. unfold BronzeToSilver.run_domain. rewrite Hfiles.
  cbn [mbind result_bind]. rewrite Hdfs.
  destruct files as [|f files]; [done|].
  unfold Storage.mark_bronze_files_processed.
  revert Hfiles. unfold Storage.get_unprocessed_bronze_files.
  destruct (Storage.bronze_csv fs !! domain) as [found|]; [|done].
  destruct (Storage._load_processed_state fs domain) as [before|e]; [|done].
  intros _. cbn [mbind result_bind]. eauto.
Qed.

(** C2 on a run over one batch that parses and one that does not: the
    malformed batch is listed, is committed with the other, and the next call
    of [get_unprocessed_bronze_files] does not return it. *)
Lemma run_marks_unparsable_batch_processed :
  csv_a_ok_b_malformed batch_b = None
  ∧ Storage.get_unprocessed_bronze_files two_batches "sales" = Ok [batch_a; batch_b]
  ∧ ∃ fs' silver',
      BronzeToSilver.run_domain
        (BronzeToSilver.Sales._process_sales parse_any "2025-01-01T12:00:00+00:00")
        csv_a_ok_b_malformed "sales" noon two_batches ∅ = Ok (fs', silver')
      ∧ (∃ processed, Storage._load_processed_state fs' "sales" = Ok processed
                      ∧ str batch_b ∈ processed)
      ∧ Storage.get_unprocessed_bronze_files fs' "sales" = Ok [].
Proof.
  split; [reflexivity|].
  assert (Storage.get_unprocessed_bronze_files two_batches "sales"
          = Ok [batch_a; batch_b]) as Hfiles by (vm_compute; reflexivity).
  split; [done|].
  assert (omap csv_a_ok_b_malformed [batch_a; batch_b] = [[sale_1]]) as Hdfs
    by reflexivity.
  destruct (run_domain_some_parsed
              (BronzeToSilver.Sales._process_sales parse_any "2025-01-01T12:00:00+00:00")
              csv_a_ok_b_malformed "sales" noon two_batches ∅ _ _ _ Hfiles Hdfs)
    as (fs' & Hmark & Hrun).
  eexists fs', _. split; [exact Hrun|]. split.
  - apply mark_bronze_files_processed_spec in Hmark as (before & _ & ->).
    destruct (load_after_save two_batches "sales"
                (before ∪ list_to_set (str <$> [batch_a; batch_b])))
      as (loaded & Hload & Hloaded).
    exists loaded. split; [done|].
    apply Hloaded, elem_of_union_r, elem_of_list_to_set, list_elem_of_fmap_2.
    right; left.
  - eapply run_domain_commits_every_listed_file; [exact Hfiles| |exact Hrun].
    by rewrite Hdfs.
Qed.

(** ** Gold snapshots *)

(** The name of a gold file has the clock reading to the second only. *)
Lemma gold_file_same_second (table : string) (y mo d h mi s us1 us2 : Z) :
  Storage.gold_file table (mkDatetime y mo d h mi s us1)
  = Storage.gold_file table (mkDatetime y mo d h mi s us2).
Proof. reflexivity. Qed.

(** A snapshot stays readable as long as no later call of [save_to_gold]
    computes its file name. *)
Lemma save_to_gold_keeps_other_files {F} (table : string) (dt : datetime)
    (df : F) (gold : gmap Path F) (f : Path) :
  Storage.gold_file table dt ≠ f →
  (Storage.save_to_gold table dt df gold).2 !! f = gold !! f.
Proof. intros Hne. unfold Storage.save_to_gold. simpl. by rewrite lookup_insert_ne. Qed.

(** Two calls of [save_to_gold] for one table within one second write the
    same file: the second frame replaces the first. *)
Lemma save_to_gold_same_second_replaces {F} (table : string)
    (y mo d h mi s us1 us2 : Z) (df1 df2 : F) (gold : gmap Path F) :
  let save1 := Storage.save_to_gold table (mkDatetime y mo d h mi s us1) df1 gold in
  let save2 := Storage.save_to_gold table (mkDatetime y mo d h mi s us2) df2 save1.2 in
  save2.1 = save1.1
  ∧ save2.2 !! save1.1 = Some df2
  ∧ dom save2.2 = dom save1.2.
Proof.
  unfold Storage.save_to_gold; simpl.
  rewrite (gold_file_same_second table y mo d h mi s us2 us1).
  split; [done|]. split; [by rewrite lookup_insert_eq|].
  by rewrite insert_insert_eq, !dom_insert_L.
Qed.

Lemma run_unfold clock lk gold :
  SilverToGold.run clock lk gold
  = SilverToGold._build_inventory_summary clock
      (Storage.read_from_silver "inventory" (BronzeToSilver.silver_inventory lk))
      (SilverToGold._build_customer_activity_summary clock
         (Storage.read_from_silver "customer_events" (BronzeToSilver.silver_events lk))
         (SilverToGold._build_daily_sales_summary clock
            (Storage.read_from_silver "sales" (BronzeToSilver.silver_sales lk)) gold)).
Proof. reflexivity. Qed.

Lemma run_lake_one_sale clock gold :
  SilverToGold.run clock lake_one_sale gold
  = SilverToGold.sales_snapshots clock [cleaned_sale_1] gold.
Proof.
  rewrite run_unfold.
  assert (Storage.read_from_silver "sales" (BronzeToSilver.silver_sales lake_one_sale)
          = [cleaned_sale_1]) as -> by (vm_compute; reflexivity).
  assert (Storage.read_from_silver "customer_events"
            (BronzeToSilver.silver_events lake_one_sale) = []) as ->
    by (vm_compute; reflexivity).
  assert (Storage.read_from_silver "inventory"
            (BronzeToSilver.silver_inventory lake_one_sale) = []) as ->
    by (vm_compute; reflexivity).
  reflexivity.
Qed.

Lemma sales_snapshots_lookup_daily clock valid gold :
  SilverToGold.sales_snapshots clock valid gold
    !! Storage.gold_file "daily_sales_summary" (clock "daily_sales_summary").2
  = Some (SilverToGold.DailySalesSummary (SilverToGold.daily clock valid)).
Proof.
  unfold SilverToGold.sales_snapshots, SilverToGold.write, Storage.save_to_gold.
  cbn [snd].
  rewrite !lookup_insert_ne by (unfold Storage.gold_file; intros [=]).
  by rewrite lookup_insert_eq.
Qed.

Lemma sales_snapshots_dom clock valid gold :
  dom (SilverToGold.sales_snapshots clock valid gold)
  = {[ Storage.gold_file "daily_sales_summary" (clock "daily_sales_summary").2;
       Storage.gold_file "category_sales_summary" (clock "category_sales_summary").2;
       Storage.gold_file "payment_method_summary" (clock "payment_method_summary").2 ]}
    ∪ dom gold.
Proof.
  unfold SilverToGold.sales_snapshots, SilverToGold.write, Storage.save_to_gold.
  cbn [snd]. rewrite !dom_insert_L.
  apply set_eq. intros x. rewrite !elem_of_union. tauto.
Qed.

(** C8 on two aggregation runs within one second over the same silver
    layer: the second run writes no new file, and the daily summary written
    by the first run is replaced by the second's. *)
Lemma aggregation_twice_same_second_overwrites :
  let gold1 := SilverToGold.run clock_noon lake_one_sale ∅ in
  let gold2 := SilverToGold.run clock_noon_later lake_one_sale gold1 in
  let file := Storage.gold_file "daily_sales_summary" noon in
  dom gold2 = dom gold1
  ∧ (∃ t1, gold1 !! file = Some (SilverToGold.DailySalesSummary t1)
           ∧ SilverToGold.daily_generated_at <$> t1 !! 20089
             = Some "2025-01-01T12:00:00+00:00")
  ∧ (∃ t2, gold2 !! file = Some (SilverToGold.DailySalesSummary t2)
           ∧ SilverToGold.daily_generated_at <$> t2 !! 20089
             = Some "2025-01-01T12:00:00.900000+00:00").
Proof.
  cbv zeta. rewrite !run_lake_one_sale. split; [|split].
  - rewrite !sales_snapshots_dom.
    change (clock_noon_later ?t).2 with noon_later_same_second.
    change (clock_noon ?t).2 with noon.
    unfold noon_later_same_second, noon.
    rewrite !(gold_file_same_second _ _ _ _ _ _ _ 900000 0).
    apply set_eq. intros x. rewrite !elem_of_union. tauto.
  - eexists. split; [apply (sales_snapshots_lookup_daily clock_noon)|].
    vm_compute. reflexivity.
  - eexists. split.
    + change (Storage.gold_file "daily_sales_summary" noon)
        with (Storage.gold_file "daily_sales_summary"
                (clock_noon_later "daily_sales_summary").2).
      apply sales_snapshots_lookup_daily.
    + vm_compute. reflexivity.
Qed.

(** ** Deduplication *)

Section dedup_facts.
Context {R K : Type} `{EqDecision K}.
Implicit Types (key : R → K) (df : list R) (seen : list K).

Lemma first_occurrence_cons key k r df :
  first_occurrence key k (r :: df)
  = if decide (key r = k) then Some r else first_occurrence key k df.
Proof.
  unfold first_occurrence. simpl. destruct (decide (key r = k)); [done|].
  by destruct (list_find _ df) as [[i x]|].
Qed.

Lemma first_occurrence_Some key k df r0 :
  first_occurrence key k df = Some r0 → r0 ∈ df ∧ key r0 = k.
Proof.
  induction df as [|r df IH]; [done|].
  rewrite first_occurrence_cons. destruct (decide (key r = k)).
  - intros [= <-]. split; [left|done].
  - intros [? ?]%IH. split; [by right|done].
Qed.


(** The rows with key [k] that survive: none when [k] was seen before the
    frame started, else the first row of the frame with that key. *)
Lemma filter_drop_duplicates_from key seen df k :
  filter (λ r, key r = k) (drop_duplicates_from key seen df)
  = if decide (k ∈ seen) then [] else option_list (first_occurrence key k df).
Proof.
  revert seen. induction df as [|r df IH]; intros seen; simpl.
  { by destruct (decide (k ∈ seen)). }
  rewrite first_occurrence_cons.
  destruct (decide (key r ∈ seen)) as [Hseen|Hnew].
  - rewrite IH. destruct (decide (k ∈ seen)) as [|Hk]; [done|].
    rewrite decide_False; [done|]. congruence.
  - rewrite filter_cons. destruct (decide (key r = k)) as [<-|Hne].
    + rewrite IH, decide_True by left. by rewrite decide_False.
    + rewrite IH. destruct (decide (k ∈ seen)) as [Hk|Hk].
      * rewrite decide_True; [done|by right].
      * rewrite decide_False; [done|]. by intros [->|?]%elem_of_cons.
Qed.

Lemma filter_drop_duplicates key df k :
  filter (λ r, key r = k) (drop_duplicates key df)
  = option_list (first_occurrence key k df).
Proof.
  unfold drop_duplicates. rewrite filter_drop_duplicates_from.
  rewrite decide_False; [done|]. apply not_elem_of_nil.
Qed.

(** A row survives exactly when no earlier row of the frame has its key. *)
Lemma elem_of_drop_duplicates key df r :
  r ∈ drop_duplicates key df ↔ first_occurrence key (key r) df = Some r.
Proof.
  split.
  - intros Hin.
    assert (r ∈ filter (λ r', key r' = key r) (drop_duplicates key df)) as Hf
      by (by apply list_elem_of_filter).
    rewrite filter_drop_duplicates in Hf.
    destruct (first_occurrence key (key r) df); simpl in Hf.
    + by apply list_elem_of_singleton in Hf as ->.
    + by apply elem_of_nil in Hf.
  - intros Hfirst.
    assert (r ∈ filter (λ r', key r' = key r) (drop_duplicates key df)) as Hf.
    { rewrite filter_drop_duplicates, Hfirst. left. }
    by apply list_elem_of_filter in Hf as [_ ?].
Qed.

End dedup_facts.






(** On that frame the record kept for the key is the first sale, not the
    second. *)
Lemma dedup_example :
  BronzeToSilver.Sales._process_sales parse_any "2025-01-01T12:00:00+00:00"
    [sale_1; sale_1_again]
  = [BronzeToSilver.Sales.clean_row "2025-01-01T12:00:00+00:00"
       (BronzeToSilver.Sales.parse_timestamp parse_any sale_1)].
Proof. reflexivity. Qed.

(** ** Validation tags *)

Lemma NoDup_null_tags {R} (required_cols : list (string * (R → bool))) r :
  NoDup required_cols.*1 → NoDup (null_tags required_cols r).
Proof.
  intros Hcols. unfold null_tags.
  induction required_cols as [|[col null] cols IH]; [constructor|].
  apply NoDup_cons in Hcols as [Hcol Hcols]. rewrite filter_cons. simpl.
  destruct (decide (null r = true)); [|by apply IH].
  rewrite fmap_cons. apply NoDup_cons. split; [|by apply IH].
  intros ((col' & null') & Heq & [_ Hin]%list_elem_of_filter)%list_elem_of_fmap.
  simpl in Heq. apply (inj (String.app "NULL:")) in Heq as <-.
  apply Hcol. by apply (list_elem_of_fmap_2 fst _ (col, null')).
Qed.

Lemma elem_of_null_tags {R} (required_cols : list (string * (R → bool))) r col null :
  (col, null) ∈ required_cols → null r = true →
  "NULL:" +:+ col ∈ null_tags required_cols r.
Proof.
  intros Hin Hnull. unfold null_tags.
  apply (list_elem_of_fmap_2 (λ c, "NULL:" +:+ c.1) _ (col, null)).
  by apply list_elem_of_filter.
Qed.

(** The error string of a sale reads as its [NULL] tags, and the sale is
    valid exactly when there is none. *)
Lemma sales_error_tags now (r : BronzeToSilver.Sales.sale Z) :
  error_tags (validation_errors (BronzeToSilver.Sales.clean_row now r))
  = null_tags BronzeToSilver.Sales.required_cols r
  ∧ is_valid (BronzeToSilver.Sales.clean_row now r)
    = bool_decide (null_tags BronzeToSilver.Sales.required_cols r = []).
Proof.
  unfold BronzeToSilver.Sales.clean_row, finalise. cbn [validation_errors is_valid].
  destruct r as [sid ts cid pid pn ca q up ta pm st].
  destruct sid, ts, cid, pid, q, up, ta; split; vm_compute; reflexivity.
Qed.

Lemma events_error_tags now (r : BronzeToSilver.Events.event Z) :
  error_tags (validation_errors (BronzeToSilver.Events.clean_row now r))
  = null_tags BronzeToSilver.Events.required_cols r
    ++ tag_if (BronzeToSilver.Events.invalid_enum r) "INVALID_EVENT_TYPE"
  ∧ is_valid (BronzeToSilver.Events.clean_row now r)
    = bool_decide (error_tags (validation_errors (BronzeToSilver.Events.clean_row now r)) = [])
  ∧ bool_decide (NoDup (error_tags (validation_errors (BronzeToSilver.Events.clean_row now r))))
    = true.
Proof.
  unfold BronzeToSilver.Events.clean_row, finalise. cbn [validation_errors is_valid].
  generalize (BronzeToSilver.Events.invalid_enum r). intros invalid.
  destruct r as [eid ts cid sid ty pid url dev].
  destruct eid, ts, cid, sid, ty, invalid; repeat split; vm_compute; reflexivity.
Qed.

Lemma inventory_error_tags now (r : BronzeToSilver.Inventory.movement Z) :
  error_tags (validation_errors (BronzeToSilver.Inventory.clean_row now r))
  = null_tags BronzeToSilver.Inventory.required_cols r
    ++ tag_if (BronzeToSilver.Inventory.invalid_type r) "INVALID_MOVEMENT_TYPE"
    ++ tag_if (BronzeToSilver.Inventory.bad_qty r) "NON_POSITIVE_QUANTITY"
  ∧ is_valid (BronzeToSilver.Inventory.clean_row now r)
    = bool_decide (error_tags (validation_errors (BronzeToSilver.Inventory.clean_row now r)) = [])
  ∧ bool_decide (NoDup (error_tags (validation_errors (BronzeToSilver.Inventory.clean_row now r))))
    = true.
Proof.
  unfold BronzeToSilver.Inventory.clean_row, finalise. cbn [validation_errors is_valid].
  generalize (BronzeToSilver.Inventory.invalid_type r). intros invalid.
  generalize (BronzeToSilver.Inventory.bad_qty r). intros bad.
  destruct r as [mid ts pid pn wid ty q uc sup].
  destruct mid, ts, pid, wid, ty, q, invalid, bad; repeat split; vm_compute; reflexivity.
Qed.

(** C5. Every required column that is null adds its own [NULL:<column>]
    tag to the record's error list, the tags of a record are distinct, and
    [is_valid] holds exactly when the error list is empty. *)
Theorem error_tags_accumulate (now : string) :
  (∀ r : BronzeToSilver.Sales.sale Z,
     let c := BronzeToSilver.Sales.clean_row now r in
     error_tags (validation_errors c) = null_tags BronzeToSilver.Sales.required_cols r
     ∧ (∀ col null, (col, null) ∈ BronzeToSilver.Sales.required_cols →
                    null r = true → "NULL:" +:+ col ∈ error_tags (validation_errors c))
     ∧ NoDup (error_tags (validation_errors c))
     ∧ (is_valid c = true ↔ error_tags (validation_errors c) = []))
  ∧ (∀ r : BronzeToSilver.Events.event Z,
     let c := BronzeToSilver.Events.clean_row now r in
     error_tags (validation_errors c)
     = null_tags BronzeToSilver.Events.required_cols r
       ++ tag_if (BronzeToSilver.Events.invalid_enum r) "INVALID_EVENT_TYPE"
     ∧ (∀ col null, (col, null) ∈ BronzeToSilver.Events.required_cols →
                    null r = true → "NULL:" +:+ col ∈ error_tags (validation_errors c))
     ∧ NoDup (error_tags (validation_errors c))
     ∧ (is_valid c = true ↔ error_tags (validation_errors c) = []))
  ∧ (∀ r : BronzeToSilver.Inventory.movement Z,
     let c := BronzeToSilver.Inventory.clean_row now r in
     error_tags (validation_errors c)
     = null_tags BronzeToSilver.Inventory.required_cols r
       ++ tag_if (BronzeToSilver.Inventory.invalid_type r) "INVALID_MOVEMENT_TYPE"
       ++ tag_if (BronzeToSilver.Inventory.bad_qty r) "NON_POSITIVE_QUANTITY"
     ∧ (∀ col null, (col, null) ∈ BronzeToSilver.Inventory.required_cols →
                    null r = true → "NULL:" +:+ col ∈ error_tags (validation_errors c))
     ∧ NoDup (error_tags (validation_errors c))
     ∧ (is_valid c = true ↔ error_tags (validation_errors c) = [])).
Proof.
  split; [|split].
  - intros r c. destruct (sales_error_tags now r) as [Htags Hvalid].
    fold c in Htags, Hvalid. rewrite Htags, Hvalid. split; [done|]. split; [|split].
    + intros col null. apply elem_of_null_tags.
    + apply NoDup_null_tags. apply (bool_decide_unpack _). by vm_compute.
    + apply bool_decide_eq_true.
  - intros r c. destruct (events_error_tags now r) as (Htags & Hvalid & Hnodup).
    fold c in Htags, Hvalid, Hnodup. rewrite Hvalid. split; [done|]. split; [|split].
    + intros col null Hcol Hnull. rewrite Htags. apply elem_of_app. left.
      by eapply elem_of_null_tags.
    + by apply bool_decide_eq_true in Hnodup.
    + apply bool_decide_eq_true.
  - intros r c. destruct (inventory_error_tags now r) as (Htags & Hvalid & Hnodup).
    fold c in Htags, Hvalid, Hnodup. rewrite Hvalid. split; [done|]. split; [|split].
    + intros col null Hcol Hnull. rewrite Htags. apply elem_of_app. left.
      by eapply elem_of_null_tags.
    + by apply bool_decide_eq_true in Hnodup.
    + apply bool_decide_eq_true.
Qed.

(** A sale missing two required columns carries both tags and is invalid. *)
Lemma error_tags_accumulate_witness :
  let r := BronzeToSilver.Sales.parse_timestamp parse_none sale_bad_timestamp_no_quantity in
  let c := BronzeToSilver.Sales.clean_row "2025-01-01T12:00:00+00:00" r in
  "NULL:timestamp" ∈ error_tags (validation_errors c)
  ∧ "NULL:quantity" ∈ error_tags (validation_errors c)
  ∧ ¬ (is_valid c = true).
Proof.
  intros r c.
  destruct (proj1 (error_tags_accumulate "2025-01-01T12:00:00+00:00") r)
    as (Htags & Hnull & _ & Hvalid).
  split; [|split].
  - apply (Hnull "timestamp" (λ r, isnull (BronzeToSilver.Sales.timestamp r)));
      [right; left|reflexivity].
  - apply (Hnull "quantity" (λ r, isnull (BronzeToSilver.Sales.quantity r)));
      [do 4 right; left|reflexivity].
  - intros Hc. apply Hvalid in Hc. rewrite Htags in Hc. discriminate Hc.
Defined.

(** ** Timestamps that do not parse *)

Lemma drop_duplicates_from_fmap {A B K} `{EqDecision K} (f : A → B)
    (key : B → K) (key' : A → K) seen (df : list A) :
  (∀ a, key (f a) = key' a) →
  drop_duplicates_from key seen (f <$> df) = f <$> drop_duplicates_from key' seen df.
Proof.
  intros Hkey. revert seen. induction df as [|a df IH]; intros seen; [done|].
  rewrite fmap_cons. simpl. rewrite Hkey.
  destruct (decide (key' a ∈ seen)); [apply IH|].
  rewrite fmap_cons. f_equal. apply IH.
Qed.

Lemma drop_duplicates_fmap {A B K} `{EqDecision K} (f : A → B)
    (key : B → K) (key' : A → K) (df : list A) :
  (∀ a, key (f a) = key' a) →
  drop_duplicates key (f <$> df) = f <$> drop_duplicates key' df.
Proof. apply drop_duplicates_from_fmap. Qed.

Lemma is_valid_false_of_tag {R} (c : cleaned R) tag :
  is_valid c = bool_decide (error_tags (validation_errors c) = []) →
  tag ∈ error_tags (validation_errors c) →
  is_valid c = false.
Proof.
  intros -> Hin. apply bool_decide_eq_false. intros Hnil.
  rewrite Hnil in Hin. by apply elem_of_nil in Hin.
Qed.

(** C10. A timestamp cell that is present and does not parse is coerced to
    null before validation: the cleaned record has a null timestamp, carries
    [NULL:timestamp], is invalid, carries no tag beyond those of the null
    and semantic checks, and is in the processor's output whenever its row
    survives deduplication. *)
Theorem unparseable_timestamp_flagged_null (to_datetime : string → option Z) (now : string) :
  (∀ (r : BronzeToSilver.Sales.sale string) s,
     BronzeToSilver.Sales.timestamp r = Some s → to_datetime s = None →
     let r' := BronzeToSilver.Sales.parse_timestamp to_datetime r in
     let c := BronzeToSilver.Sales.clean_row now r' in
     BronzeToSilver.Sales.timestamp (row c) = None
     ∧ "NULL:timestamp" ∈ error_tags (validation_errors c)
     ∧ is_valid c = false
     ∧ error_tags (validation_errors c) = null_tags BronzeToSilver.Sales.required_cols r'
     ∧ ∀ df, r ∈ drop_duplicates BronzeToSilver.Sales.sale_id df →
             c ∈ BronzeToSilver.Sales._process_sales to_datetime now df)
  ∧ (∀ (r : BronzeToSilver.Events.event string) s,
     BronzeToSilver.Events.timestamp r = Some s → to_datetime s = None →
     let r' := BronzeToSilver.Events.parse_timestamp to_datetime r in
     let c := BronzeToSilver.Events.clean_row now r' in
     BronzeToSilver.Events.timestamp (row c) = None
     ∧ "NULL:timestamp" ∈ error_tags (validation_errors c)
     ∧ is_valid c = false
     ∧ error_tags (validation_errors c)
       = null_tags BronzeToSilver.Events.required_cols r'
         ++ tag_if (BronzeToSilver.Events.invalid_enum r') "INVALID_EVENT_TYPE"
     ∧ ∀ df, r ∈ drop_duplicates BronzeToSilver.Events.event_id df →
             c ∈ BronzeToSilver.Events._process_customer_events to_datetime now df)
  ∧ (∀ (r : BronzeToSilver.Inventory.movement string) s,
     BronzeToSilver.Inventory.timestamp r = Some s → to_datetime s = None →
     let r' := BronzeToSilver.Inventory.parse_timestamp to_datetime r in
     let c := BronzeToSilver.Inventory.clean_row now r' in
     BronzeToSilver.Inventory.timestamp (row c) = None
     ∧ "NULL:timestamp" ∈ error_tags (validation_errors c)
     ∧ is_valid c = false
     ∧ error_tags (validation_errors c)
       = null_tags BronzeToSilver.Inventory.required_cols r'
         ++ tag_if (BronzeToSilver.Inventory.invalid_type r') "INVALID_MOVEMENT_TYPE"
         ++ tag_if (BronzeToSilver.Inventory.bad_qty r') "NON_POSITIVE_QUANTITY"
     ∧ ∀ df, r ∈ drop_duplicates BronzeToSilver.Inventory.movement_id df →
             c ∈ BronzeToSilver.Inventory._process_inventory to_datetime now df).
Proof.
  split; [|split].
  - intros r s Hts Hparse r' c.
    assert (BronzeToSilver.Sales.timestamp r' = None) as Hnull
      by (unfold r'; simpl; by rewrite Hts).
    destruct (sales_error_tags now r') as [Htags Hvalid]. fold c in Htags, Hvalid.
    assert ("NULL:timestamp" ∈ error_tags (validation_errors c)) as Htag.
    { rewrite Htags.
      apply (elem_of_null_tags _ _ "timestamp"
               (λ r, isnull (BronzeToSilver.Sales.timestamp r))); [right; left|].
      by rewrite Hnull. }
    split; [|split; [done|split; [|split; [done|]]]].
    + unfold c, BronzeToSilver.Sales.clean_row, finalise,
        BronzeToSilver.Sales.fix_total_amount. simpl.
      destruct (BronzeToSilver.Sales.mismatch _); simpl; by rewrite Hts.
    + apply (is_valid_false_of_tag c "NULL:timestamp"); [|done].
      by rewrite Hvalid, Htags.
    + intros df Hin. unfold BronzeToSilver.Sales._process_sales.
      rewrite (drop_duplicates_fmap _ _ BronzeToSilver.Sales.sale_id) by done.
      by apply list_elem_of_fmap_2, list_elem_of_fmap_2.
  - intros r s Hts Hparse r' c.
    assert (BronzeToSilver.Events.timestamp r' = None) as Hnull
      by (unfold r'; simpl; by rewrite Hts).
    destruct (events_error_tags now r') as (Htags & Hvalid & _).
    fold c in Htags, Hvalid.
    assert ("NULL:timestamp" ∈ error_tags (validation_errors c)) as Htag.
    { rewrite Htags. apply elem_of_app. left.
      apply (elem_of_null_tags _ _ "timestamp"
               (λ r, isnull (BronzeToSilver.Events.timestamp r))); [right; left|].
      by rewrite Hnull. }
    split; [done|split; [done|split; [|split; [done|]]]].
    + by apply (is_valid_false_of_tag c "NULL:timestamp").
    + intros df Hin. unfold BronzeToSilver.Events._process_customer_events.
      rewrite (drop_duplicates_fmap _ _ BronzeToSilver.Events.event_id) by done.
      by apply list_elem_of_fmap_2, list_elem_of_fmap_2.
  - intros r s Hts Hparse r' c.
    assert (BronzeToSilver.Inventory.timestamp r' = None) as Hnull
      by (unfold r'; simpl; by rewrite Hts).
    destruct (inventory_error_tags now r') as (Htags & Hvalid & _).
    fold c in Htags, Hvalid.
    assert ("NULL:timestamp" ∈ error_tags (validation_errors c)) as Htag.
    { rewrite Htags. apply elem_of_app. left.
      apply (elem_of_null_tags _ _ "timestamp"
               (λ r, isnull (BronzeToSilver.Inventory.timestamp r))); [right; left|].
      by rewrite Hnull. }
    split; [done|split; [done|split; [|split; [done|]]]].
    + by apply (is_valid_false_of_tag c "NULL:timestamp").
    + intros df Hin. unfold BronzeToSilver.Inventory._process_inventory.
      rewrite (drop_duplicates_fmap _ _ BronzeToSilver.Inventory.movement_id) by done.
      by apply list_elem_of_fmap_2, list_elem_of_fmap_2.
Qed.

Lemma unparseable_timestamp_flagged_null_witness :
  let r' := BronzeToSilver.Sales.parse_timestamp parse_none sale_bad_timestamp_no_quantity in
  let c := BronzeToSilver.Sales.clean_row "2025-01-01T12:00:00+00:00" r' in
  BronzeToSilver.Sales.timestamp (row c) = None
  ∧ "NULL:timestamp" ∈ error_tags (validation_errors c)
  ∧ is_valid c = false.
Proof.
  intros r' c.
  destruct (proj1 (unparseable_timestamp_flagged_null parse_none "2025-01-01T12:00:00+00:00")
              sale_bad_timestamp_no_quantity "yesterday-ish" eq_refl eq_refl)
    as (Hts & Htag & Hvalid & _).
  auto.
Defined.

(** ** Repair of [total_amount] *)

Lemma mismatch_true {T} (r : BronzeToSilver.Sales.sale T) (q p t : Q) :
  BronzeToSilver.Sales.quantity r = Some q →
  BronzeToSilver.Sales.unit_price r = Some p →
  BronzeToSilver.Sales.total_amount r = Some t →
  (1 # 100 < Qabs (t - round2 (q * p)))%Q →
  BronzeToSilver.Sales.expected r = Some (round2 (q * p))
  ∧ BronzeToSilver.Sales.mismatch r = true.
Proof.
  intros Hq Hp Ht Hfar.
  unfold BronzeToSilver.Sales.mismatch, BronzeToSilver.Sales.expected.
  rewrite Hq, Hp, Ht. split; [done|].
  apply negb_true_iff, not_true_is_false. intros Hle%Qle_bool_iff.
  by apply Qlt_not_le in Hfar.
Qed.

(** The error string does not depend on the value of a total that is
    there. *)
Lemma null_errors_set_total_amount {T} (r : BronzeToSilver.Sales.sale T) (t : Q) v :
  BronzeToSilver.Sales.total_amount r = Some t →
  null_errors BronzeToSilver.Sales.required_cols
    (BronzeToSilver.Sales.set_total_amount (Some v) r)
  = null_errors BronzeToSilver.Sales.required_cols r.
Proof.
  intros Ht. unfold null_errors, BronzeToSilver.Sales.required_cols. simpl.
  by rewrite Ht.
Qed.

Lemma no_null_tag_for_present_total (r : BronzeToSilver.Sales.sale Z) (t : Q) :
  BronzeToSilver.Sales.total_amount r = Some t →
  "NULL:total_amount" ∉ null_tags BronzeToSilver.Sales.required_cols r.
Proof.
  destruct r as [sid ts cid pid pn ca q up ta pm st]. simpl. intros ->.
  destruct sid, ts, cid, pid, q, up; apply (bool_decide_unpack _); by vm_compute.
Qed.

(** C6. When quantity and unit price are present and the total is further
    than 0.01 from their rounded product, the cleaned total is that product;
    the error string, the tags and the verdict are those of the same row
    with the right total, and no tag names [total_amount]. *)
Theorem total_amount_repaired_silently (now : string)
    (r : BronzeToSilver.Sales.sale Z) (q p t : Q) :
  BronzeToSilver.Sales.quantity r = Some q →
  BronzeToSilver.Sales.unit_price r = Some p →
  BronzeToSilver.Sales.total_amount r = Some t →
  (1 # 100 < Qabs (t - round2 (q * p)))%Q →
  let c := BronzeToSilver.Sales.clean_row now r in
  let right := BronzeToSilver.Sales.clean_row now
                 (BronzeToSilver.Sales.set_total_amount (Some (round2 (q * p))) r) in
  BronzeToSilver.Sales.total_amount (row c) = Some (round2 (q * p))
  ∧ validation_errors c = validation_errors right
  ∧ is_valid c = is_valid right
  ∧ error_tags (validation_errors c) = null_tags BronzeToSilver.Sales.required_cols r
  ∧ "NULL:total_amount" ∉ error_tags (validation_errors c).
Proof.
  intros Hq Hp Ht Hfar c right.
  destruct (mismatch_true r q p t Hq Hp Ht Hfar) as [Hexp Hmis].
  destruct (sales_error_tags now r) as [Htags _]. fold c in Htags.
  split; [|split; [|split; [|split; [done|]]]].
  - unfold c, BronzeToSilver.Sales.clean_row, finalise,
      BronzeToSilver.Sales.fix_total_amount. simpl. by rewrite Hmis, Hexp.
  - unfold c, right, BronzeToSilver.Sales.clean_row, finalise. simpl.
    by rewrite (null_errors_set_total_amount r t).
  - unfold c, right, BronzeToSilver.Sales.clean_row, finalise. simpl.
    by rewrite (null_errors_set_total_amount r t).
  - rewrite Htags. by apply (no_null_tag_for_present_total r t).
Qed.

(** Quantity 3, unit price 10.00 and total 35.00: the cleaned total is
    30.00, and the record carries no tag. *)
Lemma total_amount_repaired_silently_witness :
  BronzeToSilver.Sales.total_amount (row cleaned_sale_1) = Some 30%Q
  ∧ error_tags (validation_errors cleaned_sale_1) = []
  ∧ "NULL:total_amount" ∉ error_tags (validation_errors cleaned_sale_1).
Proof.
  destruct (total_amount_repaired_silently "2025-01-01T11:30:00+00:00"
              (BronzeToSilver.Sales.parse_timestamp parse_any sale_1)
              3%Q 10%Q 35%Q eq_refl eq_refl eq_refl eq_refl)
    as (Htotal & _ & _ & Htags & Hno).
  split; [exact Htotal|]. split; [exact Htags|exact Hno].
Defined.

(** ** Grouping *)

Section groupby_facts.
Context {R K : Type} `{Countable K}.
Implicit Types (key : R → option K) (df : list R).

(** The group of a key is the sub-frame of the rows with that key; a key no
    row has is not a group. *)
Lemma groupby_lookup key df k :
  groupby key df !! k
  = match filter (λ r, key r = Some k) df with
    | [] => None
    | g => Some g
    end.
Proof.
  induction df as [|r df IH]; [done|].
  simpl. rewrite filter_cons. destruct (key r) as [k'|] eqn:Hkey.
  - destruct (decide (Some k' = Some k)) as [[= ->]|Hne].
    + rewrite lookup_insert_eq, IH.
      by destruct (filter (λ r0, key r0 = Some k) df).
    + rewrite lookup_insert_ne, IH by congruence. done.
  - rewrite decide_False by done. apply IH.
Qed.

Lemma groupby_lookup_Some key df k g :
  groupby key df !! k = Some g ↔ g = filter (λ r, key r = Some k) df ∧ g ≠ [].
Proof.
  rewrite groupby_lookup.
  destruct (filter (λ r, key r = Some k) df) as [|r g'].
  - split; [discriminate|]. by intros [-> ?].
  - split; [by intros [= <-]|]. by intros [-> _].
Qed.

Lemma groupby_is_Some key df k :
  is_Some (groupby key df !! k) ↔ ∃ r, r ∈ df ∧ key r = Some k.
Proof.
  rewrite groupby_lookup. split.
  - destruct (filter (λ r, key r = Some k) df) as [|r g] eqn:Hf.
    { by intros [? ?]. }
    intros _. exists r.
    assert (r ∈ filter (λ r, key r = Some k) df) as Hr by (rewrite Hf; left).
    by apply list_elem_of_filter in Hr as [? ?].
  - intros (r & Hin & Hkey).
    assert (r ∈ filter (λ r, key r = Some k) df) as Hr
      by (by apply list_elem_of_filter).
    destruct (filter (λ r, key r = Some k) df); [by apply elem_of_nil in Hr|eauto].
Qed.

End groupby_facts.

(** ** The net-position pivot *)

Lemma lookup_set_to_map_key {K V} `{Countable K} (g : K → V) (X : gset K) k :
  (set_to_map (λ x, (x, g x)) X : gmap K V) !! k
  = if decide (k ∈ X) then Some (g k) else None.
Proof.
  destruct (decide (k ∈ X)) as [Hin|Hout].
  - apply lookup_set_to_map; [by intros y y' _ _ ?|]. by exists k.
  - apply eq_None_not_Some. intros [v Hv].
    apply lookup_set_to_map in Hv as (y & Hy & [= -> _]); [done|].
    by intros y y' _ _ ?.
Qed.

Section pivot_facts.
Variable clock : string → string * datetime.
Variable valid : list (cleaned (BronzeToSilver.Inventory.movement Z)).

Let cells : gmap (SilverToGold.net_key * string) Q :=
  agg_sum SilverToGold.numeric_quantity
    <$> groupby SilverToGold.type_key valid.
Let index : gset SilverToGold.net_key := set_map fst (dom cells).

Lemma cells_is_Some k t :
  is_Some (cells !! (k, t)) ↔ ∃ r, r ∈ valid ∧ SilverToGold.type_key r = Some (k, t).
Proof. unfold cells. by rewrite lookup_fmap, fmap_is_Some, groupby_is_Some. Qed.

Lemma cells_default k t : default 0%Q (cells !! (k, t)) = moved_quantity valid k t.
Proof.
  unfold cells, moved_quantity. rewrite lookup_fmap, groupby_lookup.
  by destruct (filter _ valid).
Qed.

Lemma elem_of_index k :
  k ∈ index ↔ ∃ r t, r ∈ valid ∧ SilverToGold.type_key r = Some (k, t).
Proof.
  unfold index. rewrite elem_of_map. split.
  - intros ([k' t] & -> & Hdom). apply elem_of_dom, cells_is_Some in Hdom
      as (r & ? & ?). eauto.
  - intros (r & t & Hr & Hkey). exists (k, t). split; [done|].
    apply elem_of_dom, cells_is_Some. eauto.
Qed.

Lemma pivot_table_ok : pivot_ok cells index (SilverToGold.pivot_table valid).
Proof.
  unfold SilverToGold.pivot_table. fold cells. fold index. split; simpl.
  - intros k c Hsome. apply elem_of_map. exists (k, c). split; [done|].
    by apply elem_of_dom.
  - intros k. rewrite lookup_set_to_map_key.
    destruct (decide (k ∈ index)); [|done].
    eexists. split; [done|]. intros c.
    apply (lookup_set_to_map_key (λ c, default 0%Q (cells !! (k, c)))).
Qed.

Lemma ensure_column_ok col pivot :
  pivot_ok cells index pivot →
  pivot_ok cells index (SilverToGold.ensure_column col pivot)
  ∧ col ∈ (SilverToGold.ensure_column col pivot).1
  ∧ pivot.1 ⊆ (SilverToGold.ensure_column col pivot).1.
Proof.
  intros [Hcols Hrows]. unfold SilverToGold.ensure_column.
  destruct (decide (col ∈ pivot.1)) as [Hin|Hout]; [done|].
  split; [split|split]; simpl.
  - intros k c Hc. apply elem_of_union_r. eauto.
  - intros k. specialize (Hrows k). rewrite lookup_fmap.
    destruct (decide (k ∈ index)); [|by rewrite Hrows].
    destruct Hrows as (cols & -> & Hcells). eexists. split; [done|].
    intros c. destruct (decide (c = col)) as [->|Hne].
    + rewrite lookup_insert_eq, decide_True by (by apply elem_of_union_l, elem_of_singleton).
      f_equal. destruct (cells !! (k, col)) eqn:Hcell; [|done].
      exfalso. apply Hout. eapply Hcols. by rewrite Hcell.
    + rewrite lookup_insert_ne, Hcells by done.
      destruct (decide (c ∈ pivot.1)) as [Hc|Hc].
      * by rewrite decide_True by (by apply elem_of_union_r).
      * rewrite decide_False; [done|].
        intros [?%elem_of_singleton|?]%elem_of_union; done.
  - by apply elem_of_union_l, elem_of_singleton.
  - intros c ?. by apply elem_of_union_r.
Qed.

(** The row of an index key after the three known columns are ensured. *)
Lemma net_position_table_lookup k :
  k ∈ index →
  ∃ cols,
    SilverToGold.net_position_table clock valid !! k
    = Some (SilverToGold.mkNet cols
              (SilverToGold.column "inbound" cols - SilverToGold.column "outbound" cols)%Q
              (clock "inventory_net_position").1)
    ∧ cols !! "inbound" = Some (moved_quantity valid k "inbound")
    ∧ cols !! "outbound" = Some (moved_quantity valid k "outbound")
    ∧ cols !! "adjustment" = Some (moved_quantity valid k "adjustment").
Proof.
  intros Hk. unfold SilverToGold.net_position_table. cbn [foldl].
  destruct (ensure_column_ok "inbound" _ pivot_table_ok) as (Hok1 & Hin1 & _).
  destruct (ensure_column_ok "outbound" _ Hok1) as (Hok2 & Hin2 & Hsub2).
  destruct (ensure_column_ok "adjustment" _ Hok2) as ([_ Hrows] & Hin3 & Hsub3).
  specialize (Hrows k). rewrite decide_True in Hrows by done.
  destruct Hrows as (cols & Hlookup & Hcells).
  exists cols. rewrite lookup_fmap, Hlookup. split; [done|].
  rewrite !Hcells, !decide_True, !cells_default; auto.
Qed.

End pivot_facts.




(** ** Aggregation reads every partition and only valid records *)

(** A record is read from silver exactly when some Parquet file below the
    domain's directory holds it. *)
Lemma elem_of_read_from_silver {R} (domain : string)
    (files : gmap Path (list R)) (c : R) :
  c ∈ Storage.read_from_silver domain files
  ↔ ∃ f part, (DATALAKE_DIR ++ ["silver"; domain]) `prefix_of` f
              ∧ files !! f = Some part ∧ c ∈ part.
Proof.
  unfold Storage.read_from_silver, Storage.concat_frames, Storage.rglob.
  rewrite list_elem_of_join. split.
  - intros (part & Hc & (f & Hf & Hpart)%list_elem_of_omap).
    apply elem_of_sorted_paths, list_elem_of_filter in Hf as [Hprefix _]. eauto.
  - intros (f & part & Hprefix & Hpart & Hc). exists part. split; [done|].
    apply list_elem_of_omap. exists f. split; [|done].
    apply elem_of_sorted_paths, list_elem_of_filter. split; [done|].
    apply elem_of_elements, elem_of_dom. eauto.
Qed.

Lemma build_sales_valid_only clock df gold :
  SilverToGold._build_daily_sales_summary clock df gold
  = snapshots_of (SilverToGold.sales_snapshots clock) (SilverToGold.valid_rows df) gold.
Proof. by destruct df. Qed.

Lemma build_events_valid_only clock df gold :
  SilverToGold._build_customer_activity_summary clock df gold
  = snapshots_of (SilverToGold.events_snapshots clock) (SilverToGold.valid_rows df) gold.
Proof. by destruct df. Qed.

Lemma build_inventory_valid_only clock df gold :
  SilverToGold._build_inventory_summary clock df gold
  = snapshots_of (SilverToGold.inventory_snapshots clock) (SilverToGold.valid_rows df) gold.
Proof. by destruct df. Qed.

Lemma elem_of_valid_rows {R} (df : list (cleaned R)) c :
  c ∈ SilverToGold.valid_rows df ↔ is_valid c = true ∧ c ∈ df.
Proof. unfold SilverToGold.valid_rows. by rewrite list_elem_of_filter. Qed.

(** A metric of a daily row is a reduction over the valid sales of that
    day. *)
Lemma daily_total_revenue clock valid d kpis :
  SilverToGold.daily clock valid !! d = Some kpis →
  SilverToGold.total_revenue kpis
  = round2 (agg_sum (λ r, BronzeToSilver.Sales.total_amount (row r))
              (filter (λ r, SilverToGold.sale_date r = Some d) valid)).
Proof.
  unfold SilverToGold.daily. rewrite lookup_fmap.
  destruct (groupby SilverToGold.sale_date valid !! d) as [g|] eqn:Hg; [|done].
  apply groupby_lookup_Some in Hg as [-> _]. by intros [= <-].
Qed.

(** * Further properties of the code *)

(** ** Path order *)

Lemma string_compare_refl (a : string) : String.compare a a = Eq.
Proof.
  induction a as [|c a IH]; simpl; [done|].
  unfold Ascii.compare. by rewrite N.compare_refl.
Qed.

Lemma string_compare_Lt_Gt (a b : string) :
  String.compare a b = Lt ↔ String.compare b a = Gt.
Proof.
  rewrite (String.compare_antisym b a).
  destruct (String.compare a b); simpl; split; congruence.
Qed.

Lemma string_compare_Lt_trans (a b c : string) :
  String.compare a b = Lt → String.compare b c = Lt → String.compare a c = Lt.
Proof.
  intros Hab Hbc.
  assert (String.le a c) as Hac.
  { transitivity b; unfold String.le, String.leb; [by rewrite Hab|by rewrite Hbc]. }
  unfold String.le, String.leb in Hac.
  destruct (String.compare a c) eqn:Hcmp; [|done|done].
  apply String.compare_eq_iff in Hcmp as ->.
  apply string_compare_Lt_Gt in Hab. congruence.
Qed.

Global Instance path_le_total : Total path_le.
Proof.
  intros p. unfold path_le. induction p as [|a p IH]; intros [|b q]; simpl; auto.
  rewrite (String.compare_antisym b a).
  destruct (String.compare a b); simpl; auto.
Qed.

Global Instance path_le_trans : Transitive path_le.
Proof.
  intros p. unfold path_le. induction p as [|a p IH]; intros [|b q] [|c r]; simpl; try done.
  destruct (String.compare a b) eqn:Hab; [|clear IH|done].
  - apply String.compare_eq_iff in Hab as ->.
    destruct (String.compare b c); [apply IH|done|done].
  - destruct (String.compare b c) eqn:Hbc; [| |done].
    + apply String.compare_eq_iff in Hbc as <-. by rewrite Hab.
    + by rewrite (string_compare_Lt_trans a b c).
Qed.

Global Instance path_le_antisym : AntiSymm (=) path_le.
Proof.
  intros p. unfold path_le. induction p as [|a p IH]; intros [|b q]; simpl; try done.
  rewrite (String.compare_antisym b a).
  destruct (String.compare a b) eqn:Hab; simpl; try done.
  apply String.compare_eq_iff in Hab as ->. intros ? ?. f_equal. by apply IH.
Qed.

(** [sorted] does not depend on the order of its input. *)
Lemma sorted_paths_Permutation (l1 l2 : list Path) :
  l1 ≡ₚ l2 → sorted_paths l1 = sorted_paths l2.
Proof.
  intros Hperm. unfold sorted_paths.
  apply (Sorted_unique path_le); [apply Sorted_merge_sort, _..|].
  by rewrite !merge_sort_Permutation.
Qed.

Lemma StronglySorted_filter {A} (R : relation A) (P : A → Prop)
    `{∀ x, Decision (P x)} (l : list A) :
  StronglySorted R l → StronglySorted R (filter P l).
Proof.
  induction 1 as [|x l Hl IH Hx]; [constructor|].
  rewrite filter_cons. destruct (decide (P x)); [|done].
  constructor; [done|].
  apply Forall_forall. intros y [_ Hy]%list_elem_of_filter.
  by eapply Forall_forall in Hx.
Qed.

(** ** The ledger: commits *)

Lemma load_after_commit (fs fs' : Storage.ledger_fs) (D : string) (S : list Path) :
  Storage.mark_bronze_files_processed fs D S = Ok fs' →
  ∃ before,
    Storage._load_processed_state fs D = Ok before
    ∧ Storage._load_processed_state fs' D = Ok (before ∪ list_to_set (str <$> S)).
Proof.
  intros (before & Hbefore & ->)%mark_bronze_files_processed_spec.
  exists before. split; [done|].
  destruct (load_after_save fs D (before ∪ list_to_set (str <$> S)))
    as (loaded & -> & Hloaded).
  f_equal. by apply set_eq.
Qed.

(** X1. A commit that returns turns the set loaded for the domain into its
    union with the strings of the committed files: what was recorded stays
    recorded. *)
Theorem commit_extends_ledger (fs fs' : Storage.ledger_fs) (D : string) (S : list Path) :
  Storage.mark_bronze_files_processed fs D S = Ok fs' →
  ∃ before,
    Storage._load_processed_state fs D = Ok before
    ∧ Storage._load_processed_state fs' D = Ok (before ∪ list_to_set (str <$> S)).
Proof. apply load_after_commit. Qed.

Lemma commit_extends_ledger_witness :
  ∃ fs', Storage.mark_bronze_files_processed two_batches "sales" [batch_a] = Ok fs'
         ∧ ∃ before,
             Storage._load_processed_state two_batches "sales" = Ok before
             ∧ Storage._load_processed_state fs' "sales"
               = Ok (before ∪ list_to_set (str <$> [batch_a])).
Proof.
  eexists; split; [reflexivity|].
  apply (commit_extends_ledger two_batches _ "sales" [batch_a]). reflexivity.
Defined.

(** X2. After a commit of [S], the unprocessed files are those that were
    unprocessed before, in the same order, less the files whose string is
    the string of a file of [S]. *)
Theorem commit_removes_exactly_committed
    (fs fs' : Storage.ledger_fs) (D : string) (S l : list Path) :
  Storage.get_unprocessed_bronze_files fs D = Ok l →
  Storage.mark_bronze_files_processed fs D S = Ok fs' →
  Storage.get_unprocessed_bronze_files fs' D
  = Ok (filter (λ f, str f ∉ str <$> S) l).
Proof.
  intros Hl Hmark.
  destruct (load_after_commit fs fs' D S Hmark) as (before & Hbefore & Hafter).
  apply mark_bronze_files_processed_spec in Hmark as (? & _ & Hfs').
  revert Hl. unfold Storage.get_unprocessed_bronze_files.
  rewrite Hafter, Hbefore, Hfs', bronze_csv_save.
  destruct (Storage.bronze_csv fs !! D) as [found|]; cbn [mbind result_bind].
  - intros [= <-]. f_equal. rewrite list_filter_filter. apply list_filter_iff.
    intros f. rewrite elem_of_union, elem_of_list_to_set. tauto.
  - by intros [= <-].
Qed.

Lemma commit_removes_exactly_committed_witness :
  ∃ l fs',
    Storage.get_unprocessed_bronze_files two_batches "sales" = Ok l
    ∧ Storage.mark_bronze_files_processed two_batches "sales" [batch_a] = Ok fs'
    ∧ Storage.get_unprocessed_bronze_files fs' "sales"
      = Ok (filter (λ f, str f ∉ str <$> [batch_a]) l).
Proof.
  eexists _, _. split; [reflexivity|]. split; [reflexivity|].
  apply (commit_removes_exactly_committed two_batches _ "sales" [batch_a]);
    reflexivity.
Defined.

(** X3. Two commits in a row leave the ledger as one commit of both lists
    does; committing the same files again changes nothing. *)
Theorem commit_twice (fs fs1 fs2 : Storage.ledger_fs) (D : string) (S T : list Path) :
  Storage.mark_bronze_files_processed fs D S = Ok fs1 →
  Storage.mark_bronze_files_processed fs1 D T = Ok fs2 →
  Storage.mark_bronze_files_processed fs D (S ++ T) = Ok fs2
  ∧ Storage.mark_bronze_files_processed fs1 D S = Ok fs1.
Proof.
  intros H1 H2.
  destruct (load_after_commit fs fs1 D S H1) as (before & Hbefore & Hafter).
  apply mark_bronze_files_processed_spec in H1 as (? & Hb & Hfs1).
  rewrite Hbefore in Hb. injection Hb as <-.
  apply mark_bronze_files_processed_spec in H2 as (? & Hb & ->).
  rewrite Hafter in Hb. injection Hb as <-.
  unfold Storage.mark_bronze_files_processed. rewrite Hbefore, Hafter.
  cbn [mbind result_bind]. subst fs1.
  unfold Storage._save_processed_state. cbn [Storage.bronze_csv Storage.state_files].
  rewrite !insert_insert_eq.
  assert ((before ∪ list_to_set (str <$> S ++ T) : gset string)
          = before ∪ list_to_set (str <$> S) ∪ list_to_set (str <$> T)) as ->.
  { apply set_eq. intros x.
    rewrite fmap_app, list_to_set_app_L, !elem_of_union. tauto. }
  assert ((before ∪ list_to_set (str <$> S) ∪ list_to_set (str <$> S) : gset string)
          = before ∪ list_to_set (str <$> S)) as ->.
  { apply set_eq. intros x. rewrite !elem_of_union. tauto. }
  done.
Qed.

Lemma commit_twice_witness :
  ∃ fs1 fs2,
    Storage.mark_bronze_files_processed two_batches "sales" [batch_a] = Ok fs1
    ∧ Storage.mark_bronze_files_processed fs1 "sales" [batch_b] = Ok fs2
    ∧ Storage.mark_bronze_files_processed two_batches "sales" ([batch_a] ++ [batch_b])
      = Ok fs2
    ∧ Storage.mark_bronze_files_processed fs1 "sales" [batch_a] = Ok fs1.
Proof.
  eexists _, _. split; [reflexivity|]. split; [reflexivity|].
  apply (commit_twice two_batches _ _ "sales" [batch_a] [batch_b]); reflexivity.
Defined.

Lemma commit_frame
    (fs fs' : Storage.ledger_fs) (D D' : string) (S : list Path) :
  D ≠ D' →
  Storage.mark_bronze_files_processed fs D S = Ok fs' →
  Storage.state_files fs' !! D' = Storage.state_files fs !! D'
  ∧ Storage._load_processed_state fs' D' = Storage._load_processed_state fs D'
  ∧ Storage.get_unprocessed_bronze_files fs' D'
    = Storage.get_unprocessed_bronze_files fs D'.
Proof.
  intros Hne (before & _ & ->)%mark_bronze_files_processed_spec.
  assert (Storage.state_files
            (Storage._save_processed_state fs D (before ∪ list_to_set (str <$> S))) !! D'
          = Storage.state_files fs !! D') as Hstate.
  { unfold Storage._save_processed_state. simpl. by rewrite lookup_insert_ne. }
  assert (Storage._load_processed_state
            (Storage._save_processed_state fs D (before ∪ list_to_set (str <$> S))) D'
          = Storage._load_processed_state fs D') as Hload.
  { unfold Storage._load_processed_state. by rewrite Hstate. }
  split; [done|]. split; [done|].
  unfold Storage.get_unprocessed_bronze_files. by rewrite bronze_csv_save, Hload.
Qed.

(** X4. A commit for one domain leaves the state file, the loaded set and
    the unprocessed files of every other domain as they were. *)
Theorem commit_other_domain_untouched
    (fs fs' : Storage.ledger_fs) (D D' : string) (S : list Path) :
  D ≠ D' →
  Storage.mark_bronze_files_processed fs D S = Ok fs' →
  Storage.state_files fs' !! D' = Storage.state_files fs !! D'
  ∧ Storage._load_processed_state fs' D' = Storage._load_processed_state fs D'
  ∧ Storage.get_unprocessed_bronze_files fs' D'
    = Storage.get_unprocessed_bronze_files fs D'.
Proof. apply commit_frame. Qed.

Lemma commit_other_domain_untouched_witness :
  ∃ fs', Storage.mark_bronze_files_processed two_batches "sales" [batch_a] = Ok fs'
         ∧ Storage.state_files fs' !! "inventory"
           = Storage.state_files two_batches !! "inventory"
         ∧ Storage._load_processed_state fs' "inventory"
           = Storage._load_processed_state two_batches "inventory"
         ∧ Storage.get_unprocessed_bronze_files fs' "inventory"
           = Storage.get_unprocessed_bronze_files two_batches "inventory".
Proof.
  eexists; split; [reflexivity|].
  apply (commit_other_domain_untouched two_batches _ "sales" "inventory" [batch_a]).
  - discriminate.
  - reflexivity.
Defined.

(** ** The ledger: listing *)

(** X5. The list of unprocessed files is in ascending path order and holds
    exactly the files of the domain's bronze directory whose string is not
    in the ledger. *)
Theorem unprocessed_sorted_and_exact (fs : Storage.ledger_fs) (D : string) (l : list Path) :
  Storage.get_unprocessed_bronze_files fs D = Ok l →
  StronglySorted path_le l
  ∧ ∀ f, f ∈ l ↔ ∃ found processed,
                   Storage.bronze_csv fs !! D = Some found
                   ∧ Storage._load_processed_state fs D = Ok processed
                   ∧ f ∈ found ∧ str f ∉ processed.
Proof.
  unfold Storage.get_unprocessed_bronze_files.
  destruct (Storage.bronze_csv fs !! D) as [found|].
  - destruct (Storage._load_processed_state fs D) as [processed|e];
      cbn [mbind result_bind]; [|done].
    intros [= <-]. split.
    + apply StronglySorted_filter, StronglySorted_merge_sort; apply _.
    + intros f. rewrite list_elem_of_filter, elem_of_sorted_paths. split.
      * intros [? ?]. eauto 10.
      * intros (? & ? & [= <-] & [= <-] & ? & ?). done.
  - intros [= <-]. split; [constructor|].
    intros f. split; [by intros ?%elem_of_nil|].
    by intros (? & ? & ? & _).
Qed.

Lemma unprocessed_sorted_and_exact_witness :
  ∃ l, Storage.get_unprocessed_bronze_files two_batches "sales" = Ok l
       ∧ StronglySorted path_le l
       ∧ ∀ f, f ∈ l ↔ ∃ found processed,
                        Storage.bronze_csv two_batches !! "sales" = Some found
                        ∧ Storage._load_processed_state two_batches "sales" = Ok processed
                        ∧ f ∈ found ∧ str f ∉ processed.
Proof.
  eexists; split; [reflexivity|].
  apply (unprocessed_sorted_and_exact two_batches "sales"). reflexivity.
Defined.

(** X6. The list of unprocessed files does not depend on the order in which
    [rglob] lists the directory. *)
Theorem unprocessed_independent_of_listing_order
    (fs1 fs2 : Storage.ledger_fs) (D : string) (found1 found2 : list Path) :
  Storage.bronze_csv fs1 !! D = Some found1 →
  Storage.bronze_csv fs2 !! D = Some found2 →
  found1 ≡ₚ found2 →
  Storage.state_files fs1 !! D = Storage.state_files fs2 !! D →
  Storage.get_unprocessed_bronze_files fs1 D = Storage.get_unprocessed_bronze_files fs2 D.
Proof.
  intros H1 H2 Hperm Hstate.
  unfold Storage.get_unprocessed_bronze_files, Storage._load_processed_state.
  by rewrite H1, H2, Hstate, (sorted_paths_Permutation found1 found2).
Qed.

Lemma unprocessed_independent_of_listing_order_witness :
  Storage.get_unprocessed_bronze_files two_batches "sales"
  = Storage.get_unprocessed_bronze_files two_batches_listed_otherwise "sales".
Proof.
  apply (unprocessed_independent_of_listing_order two_batches
           two_batches_listed_otherwise "sales" [batch_b; batch_a] [batch_a; batch_b]).
  - reflexivity.
  - reflexivity.
  - apply Permutation_swap.
  - reflexivity.
Defined.

(** ** The ledger: a corrupt state file *)

(** X7. With a state file that is not JSON, a commit raises; listing the
    unprocessed files and the cleaning run of the domain raise when the
    domain has a bronze directory, and return the empty list and the
    untouched lake when it has none. *)
Theorem corrupt_ledger_stops_the_run (fs : Storage.ledger_fs) (D : string) :
  Storage.state_files fs !! D = Some Storage.NotJson →
  (∀ S, Storage.mark_bronze_files_processed fs D S = Raise JSONDecodeError)
  ∧ (is_Some (Storage.bronze_csv fs !! D) →
     Storage.get_unprocessed_bronze_files fs D = Raise JSONDecodeError
     ∧ ∀ Raw Clean (process : list Raw → list Clean) read_csv dt silver,
         BronzeToSilver.run_domain process read_csv D dt fs silver
         = Raise JSONDecodeError)
  ∧ (Storage.bronze_csv fs !! D = None →
     Storage.get_unprocessed_bronze_files fs D = Ok []
     ∧ ∀ Raw Clean (process : list Raw → list Clean) read_csv dt silver,
         BronzeToSilver.run_domain process read_csv D dt fs silver
         = Ok (fs, silver)).
Proof.
  intros Hstate.
  assert (Storage._load_processed_state fs D = Raise JSONDecodeError) as Hload
    by (unfold Storage._load_processed_state; by rewrite Hstate).
  split; [|split].
  - intros S. unfold Storage.mark_bronze_files_processed. by rewrite Hload.
  - intros [found Hfound].
    assert (Storage.get_unprocessed_bronze_files fs D = Raise JSONDecodeError) as Hget
      by (unfold Storage.get_unprocessed_bronze_files; by rewrite Hfound, Hload).
    split; [done|]. intros. unfold BronzeToSilver.run_domain. by rewrite Hget.
  - intros Hnone.
    assert (Storage.get_unprocessed_bronze_files fs D = Ok []) as Hget
      by (unfold Storage.get_unprocessed_bronze_files; by rewrite Hnone).
    split; [done|]. intros. unfold BronzeToSilver.run_domain. by rewrite Hget.
Qed.

Lemma corrupt_ledger_stops_the_run_witness :
  Storage.mark_bronze_files_processed corrupt_state "sales" [batch_a]
  = Raise JSONDecodeError
  ∧ Storage.get_unprocessed_bronze_files corrupt_state "sales" = Raise JSONDecodeError.
Proof.
  destruct (corrupt_ledger_stops_the_run corrupt_state "sales" eq_refl)
    as (Hmark & Hdir & _).
  split; [apply Hmark|]. apply Hdir. by eexists.
Defined.

(** ** Upload to bronze *)

Lemma load_same_state (fs1 fs2 : Storage.ledger_fs) (D : string) :
  Storage.state_files fs1 = Storage.state_files fs2 →
  Storage._load_processed_state fs1 D = Storage._load_processed_state fs2 D.
Proof. unfold Storage._load_processed_state. by intros ->. Qed.

(** X8. After [save_to_bronze] has copied a file whose name ends in [.csv],
    the unprocessed files of the domain are the destination and the files
    that were there, less those whose string is in the ledger: an upload
    under a name the ledger already holds is not returned. *)
Theorem uploaded_batch_is_listed_unless_recorded (is_file : Path → bool)
    (fs fs' : Storage.ledger_fs) (D : string) (dt : datetime)
    (source_file dest : Path) (name : string) (processed : gset string) :
  Storage.save_to_bronze is_file fs D dt source_file = (Some dest, fs') →
  last source_file = Some name →
  Storage.is_csv name = true →
  Storage._load_processed_state fs D = Ok processed →
  dest = Storage._hive_path (DATALAKE_DIR ++ ["bronze"]) D dt ++ [name]
  ∧ ∃ l, Storage.get_unprocessed_bronze_files fs' D = Ok l
         ∧ ∀ f, f ∈ l ↔ ((str f ∉ processed)
                         ∧ (f = dest ∨ f ∈ default [] (Storage.bronze_csv fs !! D))).
Proof.
  unfold Storage.save_to_bronze. intros Hsave Hname Hcsv Hload.
  rewrite Hname, Hcsv in Hsave.
  destruct (is_file source_file); [|done].
  injection Hsave as <- <-. split; [done|].
  set (dest := Storage._hive_path (DATALAKE_DIR ++ ["bronze"]) D dt ++ [name]).
  set (found := default [] (Storage.bronze_csv fs !! D)).
  unfold Storage.get_unprocessed_bronze_files.
  cbn [Storage.bronze_csv]. rewrite lookup_insert_eq.
  rewrite (load_same_state _ fs) by done. rewrite Hload.
  cbn [mbind result_bind]. eexists. split; [done|].
  intros f. rewrite list_elem_of_filter, elem_of_sorted_paths.
  destruct (decide (dest ∈ found)) as [Hin|Hout].
  - rewrite bool_decide_eq_false_2 by (by intros Hn). cbn [andb].
    split; [tauto|]. intros [? [->|?]]; tauto.
  - rewrite bool_decide_eq_true_2 by done. cbn [andb].
    rewrite elem_of_cons. tauto.
Qed.

Lemma uploaded_batch_is_listed_unless_recorded_witness :
  ∃ dest fs',
    Storage.save_to_bronze only_local_sales_file two_batches "sales" noon local_sales_file
    = (Some dest, fs')
    ∧ dest = Storage._hive_path (DATALAKE_DIR ++ ["bronze"]) "sales" noon
             ++ ["sales_20250101_001000.csv"]
    ∧ ∃ l, Storage.get_unprocessed_bronze_files fs' "sales" = Ok l
           ∧ ∀ f, f ∈ l ↔ ((str f ∉ (∅ : gset string))
                           ∧ (f = dest
                              ∨ f ∈ default [] (Storage.bronze_csv two_batches !! "sales"))).
Proof.
  eexists _, _. split; [reflexivity|].
  apply (uploaded_batch_is_listed_unless_recorded only_local_sales_file two_batches _
           "sales" noon local_sales_file _ "sales_20250101_001000.csv" ∅);
    reflexivity.
Defined.

(** ** Validity, field by field *)

Lemma elem_of_null_tags_inv {R} (required_cols : list (string * (R → bool))) r tag :
  tag ∈ null_tags required_cols r →
  ∃ col null, (col, null) ∈ required_cols ∧ null r = true ∧ tag = "NULL:" +:+ col.
Proof.
  unfold null_tags.
  intros ([col null] & -> & [? ?]%list_elem_of_filter)%list_elem_of_fmap. eauto.
Qed.

(** One null pattern of a row: both sides of the equivalence evaluate. *)
Ltac null_tags_case :=
  vm_compute;
  split;
  [ intros Hnil; first [discriminate Hnil | repeat apply conj; eexists; reflexivity]
  | intros Hall; first [reflexivity | exfalso; decompose [and ex] Hall; discriminate] ].

Lemma sales_null_tags_nil (r : BronzeToSilver.Sales.sale Z) :
  null_tags BronzeToSilver.Sales.required_cols r = [] ↔
  is_Some (BronzeToSilver.Sales.sale_id r)
  ∧ is_Some (BronzeToSilver.Sales.timestamp r)
  ∧ is_Some (BronzeToSilver.Sales.customer_id r)
  ∧ is_Some (BronzeToSilver.Sales.product_id r)
  ∧ is_Some (BronzeToSilver.Sales.quantity r)
  ∧ is_Some (BronzeToSilver.Sales.unit_price r)
  ∧ is_Some (BronzeToSilver.Sales.total_amount r).
Proof.
  destruct r as [sid ts cid pid pn ca q up ta pm st].
  destruct sid, ts, cid, pid, q, up, ta;
    null_tags_case.
Qed.

Lemma events_null_tags_nil (r : BronzeToSilver.Events.event Z) :
  null_tags BronzeToSilver.Events.required_cols r = [] ↔
  is_Some (BronzeToSilver.Events.event_id r)
  ∧ is_Some (BronzeToSilver.Events.timestamp r)
  ∧ is_Some (BronzeToSilver.Events.customer_id r)
  ∧ is_Some (BronzeToSilver.Events.session_id r)
  ∧ is_Some (BronzeToSilver.Events.event_type r).
Proof.
  destruct r as [eid ts cid sid ty pid url dev].
  destruct eid, ts, cid, sid, ty;
    null_tags_case.
Qed.

Lemma inventory_null_tags_nil (r : BronzeToSilver.Inventory.movement Z) :
  null_tags BronzeToSilver.Inventory.required_cols r = [] ↔
  is_Some (BronzeToSilver.Inventory.movement_id r)
  ∧ is_Some (BronzeToSilver.Inventory.timestamp r)
  ∧ is_Some (BronzeToSilver.Inventory.product_id r)
  ∧ is_Some (BronzeToSilver.Inventory.warehouse_id r)
  ∧ is_Some (BronzeToSilver.Inventory.movement_type r)
  ∧ is_Some (BronzeToSilver.Inventory.quantity r).
Proof.
  destruct r as [mid ts pid pn wid ty q uc sup].
  destruct mid, ts, pid, wid, ty, q;
    null_tags_case.
Qed.

Lemma invalid_enum_spec {T} (r : BronzeToSilver.Events.event T) :
  BronzeToSilver.Events.invalid_enum r = true ↔
  ∃ t, BronzeToSilver.Events.event_type r = Some t
       ∧ t ∉ BronzeToSilver.VALID_EVENT_TYPES.
Proof.
  unfold BronzeToSilver.Events.invalid_enum, isin, notna, isnull.
  destruct (BronzeToSilver.Events.event_type r) as [t|]; simpl.
  - rewrite andb_true_r, negb_true_iff, bool_decide_eq_false. split.
    + intros ?. by exists t.
    + by intros (? & [= <-] & ?).
  - split; [done|]. by intros (? & ? & _).
Qed.

Lemma invalid_type_spec {T} (r : BronzeToSilver.Inventory.movement T) :
  BronzeToSilver.Inventory.invalid_type r = true ↔
  ∃ t, BronzeToSilver.Inventory.movement_type r = Some t
       ∧ t ∉ BronzeToSilver.VALID_MOVEMENT_TYPES.
Proof.
  unfold BronzeToSilver.Inventory.invalid_type, isin, notna, isnull.
  destruct (BronzeToSilver.Inventory.movement_type r) as [t|]; simpl.
  - rewrite andb_true_r, negb_true_iff, bool_decide_eq_false. split.
    + intros ?. by exists t.
    + by intros (? & [= <-] & ?).
  - split; [done|]. by intros (? & ? & _).
Qed.

Lemma bad_qty_spec {T} (r : BronzeToSilver.Inventory.movement T) :
  BronzeToSilver.Inventory.bad_qty r = true ↔
  ∃ q, BronzeToSilver.Inventory.quantity r = Some (BronzeToSilver.Inventory.Number q)
       ∧ (q <= 0)%Q.
Proof.
  unfold BronzeToSilver.Inventory.bad_qty, notna, isnull.
  destruct (BronzeToSilver.Inventory.quantity r) as [[q|s]|]; simpl.
  - rewrite Qle_bool_iff. split.
    + intros ?. by exists q.
    + by intros (? & [= <-] & ?).
  - split; [done|]. by intros (? & ? & _).
  - split; [done|]. by intros (? & ? & _).
Qed.

Lemma sales_valid_fields (now : string) (r : BronzeToSilver.Sales.sale Z) :
  is_valid (BronzeToSilver.Sales.clean_row now r) = true ↔
  is_Some (BronzeToSilver.Sales.sale_id r)
  ∧ is_Some (BronzeToSilver.Sales.timestamp r)
  ∧ is_Some (BronzeToSilver.Sales.customer_id r)
  ∧ is_Some (BronzeToSilver.Sales.product_id r)
  ∧ is_Some (BronzeToSilver.Sales.quantity r)
  ∧ is_Some (BronzeToSilver.Sales.unit_price r)
  ∧ is_Some (BronzeToSilver.Sales.total_amount r).
Proof.
  destruct (sales_error_tags now r) as [_ ->].
  rewrite bool_decide_eq_true. apply sales_null_tags_nil.
Qed.

Lemma events_valid_fields (now : string) (r : BronzeToSilver.Events.event Z) :
  is_valid (BronzeToSilver.Events.clean_row now r) = true ↔
  is_Some (BronzeToSilver.Events.event_id r)
  ∧ is_Some (BronzeToSilver.Events.timestamp r)
  ∧ is_Some (BronzeToSilver.Events.customer_id r)
  ∧ is_Some (BronzeToSilver.Events.session_id r)
  ∧ ∃ t, BronzeToSilver.Events.event_type r = Some t
          ∧ t ∈ BronzeToSilver.VALID_EVENT_TYPES.
Proof.
  destruct (events_error_tags now r) as (-> & -> & _).
  rewrite bool_decide_eq_true, app_nil, events_null_tags_nil.
  destruct (BronzeToSilver.Events.invalid_enum r) eqn:Hinv; simpl.
  + apply invalid_enum_spec in Hinv as (t & Ht & Hnot). split; [by intros [_ ?]|].
    intros (_ & _ & _ & _ & t' & Ht' & Hin). congruence.
  + apply not_true_iff_false in Hinv. rewrite invalid_enum_spec in Hinv.
    split.
    * intros [(? & ? & ? & ? & [t Ht]) _]. do 4 (split; [done|]).
      exists t. split; [done|].
      destruct (decide (t ∈ BronzeToSilver.VALID_EVENT_TYPES)); [done|].
      exfalso. eauto.
    * intros (? & ? & ? & ? & t & Ht & ?). split; [|done].
      do 4 (split; [done|]). by exists t.
Qed.

Lemma inventory_valid_fields (now : string) (r : BronzeToSilver.Inventory.movement Z) :
  is_valid (BronzeToSilver.Inventory.clean_row now r) = true ↔
  is_Some (BronzeToSilver.Inventory.movement_id r)
  ∧ is_Some (BronzeToSilver.Inventory.timestamp r)
  ∧ is_Some (BronzeToSilver.Inventory.product_id r)
  ∧ is_Some (BronzeToSilver.Inventory.warehouse_id r)
  ∧ (∃ t, BronzeToSilver.Inventory.movement_type r = Some t
          ∧ t ∈ BronzeToSilver.VALID_MOVEMENT_TYPES)
  ∧ is_Some (BronzeToSilver.Inventory.quantity r)
  ∧ ∀ q, BronzeToSilver.Inventory.quantity r = Some (BronzeToSilver.Inventory.Number q) →
         (0 < q)%Q.
Proof.
  destruct (inventory_error_tags now r) as (-> & -> & _).
  rewrite bool_decide_eq_true, !app_nil, inventory_null_tags_nil.
  destruct (BronzeToSilver.Inventory.invalid_type r) eqn:Hinv; simpl.
  { apply invalid_type_spec in Hinv as (t & Ht & Hnot). split; [by intros (_ & ? & _)|].
    intros (_ & _ & _ & _ & (t' & Ht' & Hin) & _). congruence. }
  destruct (BronzeToSilver.Inventory.bad_qty r) eqn:Hbad; simpl.
  { apply bad_qty_spec in Hbad as (q & Hq & Hle). split; [by intros (_ & _ & ?)|].
    intros (_ & _ & _ & _ & _ & _ & Hpos). by apply Hpos, Qlt_not_le in Hq. }
  apply not_true_iff_false in Hinv, Hbad.
  rewrite invalid_type_spec in Hinv. rewrite bad_qty_spec in Hbad.
  split.
  + intros [(? & ? & ? & ? & [t Ht] & Hq) _]. do 4 (split; [done|]). split; [|split].
    * exists t. split; [done|].
      destruct (decide (t ∈ BronzeToSilver.VALID_MOVEMENT_TYPES)); [done|].
      exfalso. eauto.
    * done.
    * intros q Hnum. apply Qnot_le_lt. eauto.
  + intros (? & ? & ? & ? & (t & Ht & ?) & ? & ?). split; [|done].
    do 4 (split; [done|]). split; [by eexists|done].
Qed.

(** X9. A cleaned record is valid exactly when every required column is
    there and, for an event, the event type is an allowed one, and, for a
    movement, the movement type is an allowed one and the quantity, when
    it reads as a number, is positive: a quantity that is text and no
    number passes. *)
Theorem valid_iff_fields (now : string) :
  (∀ r : BronzeToSilver.Sales.sale Z,
     is_valid (BronzeToSilver.Sales.clean_row now r) = true ↔
     is_Some (BronzeToSilver.Sales.sale_id r)
     ∧ is_Some (BronzeToSilver.Sales.timestamp r)
     ∧ is_Some (BronzeToSilver.Sales.customer_id r)
     ∧ is_Some (BronzeToSilver.Sales.product_id r)
     ∧ is_Some (BronzeToSilver.Sales.quantity r)
     ∧ is_Some (BronzeToSilver.Sales.unit_price r)
     ∧ is_Some (BronzeToSilver.Sales.total_amount r))
  ∧ (∀ r : BronzeToSilver.Events.event Z,
     is_valid (BronzeToSilver.Events.clean_row now r) = true ↔
     is_Some (BronzeToSilver.Events.event_id r)
     ∧ is_Some (BronzeToSilver.Events.timestamp r)
     ∧ is_Some (BronzeToSilver.Events.customer_id r)
     ∧ is_Some (BronzeToSilver.Events.session_id r)
     ∧ ∃ t, BronzeToSilver.Events.event_type r = Some t
            ∧ t ∈ BronzeToSilver.VALID_EVENT_TYPES)
  ∧ (∀ r : BronzeToSilver.Inventory.movement Z,
     is_valid (BronzeToSilver.Inventory.clean_row now r) = true ↔
     is_Some (BronzeToSilver.Inventory.movement_id r)
     ∧ is_Some (BronzeToSilver.Inventory.timestamp r)
     ∧ is_Some (BronzeToSilver.Inventory.product_id r)
     ∧ is_Some (BronzeToSilver.Inventory.warehouse_id r)
     ∧ (∃ t, BronzeToSilver.Inventory.movement_type r = Some t
             ∧ t ∈ BronzeToSilver.VALID_MOVEMENT_TYPES)
     ∧ is_Some (BronzeToSilver.Inventory.quantity r)
     ∧ ∀ q, BronzeToSilver.Inventory.quantity r
            = Some (BronzeToSilver.Inventory.Number q) → (0 < q)%Q).
Proof.
  split; [|split]; intros r.
  - apply sales_valid_fields.
  - apply events_valid_fields.
  - apply inventory_valid_fields.
Qed.

Lemma events_null_type (r : BronzeToSilver.Events.event Z) col null :
  (col, null) ∈ BronzeToSilver.Events.required_cols →
  null r = true → col = "event_type" →
  BronzeToSilver.Events.event_type r = None.
Proof.
  intros Hcol Hnull ->. unfold BronzeToSilver.Events.required_cols in Hcol.
  repeat (apply elem_of_cons in Hcol as [Hcol|Hcol];
          [simplify_eq; simpl in Hnull;
           by destruct (BronzeToSilver.Events.event_type r)|]).
  by apply elem_of_nil in Hcol.
Qed.

Lemma inventory_null_type_or_quantity (r : BronzeToSilver.Inventory.movement Z) col null :
  (col, null) ∈ BronzeToSilver.Inventory.required_cols →
  null r = true →
  (col = "movement_type" → BronzeToSilver.Inventory.movement_type r = None)
  ∧ (col = "quantity" → BronzeToSilver.Inventory.quantity r = None).
Proof.
  intros Hcol Hnull. unfold BronzeToSilver.Inventory.required_cols in Hcol.
  repeat (apply elem_of_cons in Hcol as [Hcol|Hcol];
          [simplify_eq; simpl in Hnull; split; intros Hname;
           first [discriminate Hname
                 |by destruct (BronzeToSilver.Inventory.movement_type r)
                 |by destruct (BronzeToSilver.Inventory.quantity r)]|]).
  by apply elem_of_nil in Hcol.
Qed.

(** X10. The tag of a semantic check is there exactly when the cell is
    there and fails the check; a null cell gets its [NULL] tag and never the
    semantic one. *)
Theorem semantic_tags_only_for_present_cells (now : string) :
  (∀ r : BronzeToSilver.Events.event Z,
     let tags := error_tags (validation_errors (BronzeToSilver.Events.clean_row now r)) in
     ("INVALID_EVENT_TYPE" ∈ tags ↔
      ∃ t, BronzeToSilver.Events.event_type r = Some t
           ∧ t ∉ BronzeToSilver.VALID_EVENT_TYPES)
     ∧ ¬ ("NULL:event_type" ∈ tags ∧ "INVALID_EVENT_TYPE" ∈ tags))
  ∧ (∀ r : BronzeToSilver.Inventory.movement Z,
     let tags := error_tags (validation_errors (BronzeToSilver.Inventory.clean_row now r)) in
     ("INVALID_MOVEMENT_TYPE" ∈ tags ↔
      ∃ t, BronzeToSilver.Inventory.movement_type r = Some t
           ∧ t ∉ BronzeToSilver.VALID_MOVEMENT_TYPES)
     ∧ ("NON_POSITIVE_QUANTITY" ∈ tags ↔
        ∃ q, BronzeToSilver.Inventory.quantity r
             = Some (BronzeToSilver.Inventory.Number q) ∧ (q <= 0)%Q)
     ∧ ¬ ("NULL:movement_type" ∈ tags ∧ "INVALID_MOVEMENT_TYPE" ∈ tags)
     ∧ ¬ ("NULL:quantity" ∈ tags ∧ "NON_POSITIVE_QUANTITY" ∈ tags)).
Proof.
  split.
  - intros r tags. destruct (events_error_tags now r) as (Htags & _ & _).
    fold tags in Htags. rewrite Htags, <- invalid_enum_spec. clear Htags tags.
    assert (∀ tag, tag ∈ null_tags BronzeToSilver.Events.required_cols r
                         ++ tag_if (BronzeToSilver.Events.invalid_enum r) "INVALID_EVENT_TYPE"
                   ↔ tag ∈ null_tags BronzeToSilver.Events.required_cols r
                     ∨ (BronzeToSilver.Events.invalid_enum r = true
                        ∧ tag = "INVALID_EVENT_TYPE")) as Hin.
    { intros tag. rewrite elem_of_app.
      destruct (BronzeToSilver.Events.invalid_enum r); simpl.
      - rewrite list_elem_of_singleton. tauto.
      - rewrite elem_of_nil. split; [tauto|]. intros [?|[? _]]; [tauto|done]. }
    rewrite !Hin. split.
    + split; [|tauto].
      intros [(col & null & _ & _ & Heq)%elem_of_null_tags_inv|[? _]]; [|done].
      discriminate Heq.
    + intros [[Hnull|[_ Heq]] [Hnull'|[Hinv _]]]; try discriminate Heq.
      * apply elem_of_null_tags_inv in Hnull' as (col & null & _ & _ & Heq).
        discriminate Heq.
      * apply invalid_enum_spec in Hinv as (t & Ht & _).
        apply elem_of_null_tags_inv in Hnull as (col & null & Hcol & Hnull & Heq).
        apply (inj (String.app "NULL:")) in Heq as <-.
        by rewrite (events_null_type r _ _ Hcol Hnull eq_refl) in Ht.
  - intros r tags. destruct (inventory_error_tags now r) as (Htags & _ & _).
    fold tags in Htags. rewrite Htags, <- invalid_type_spec, <- bad_qty_spec.
    clear Htags tags.
    assert (∀ tag, tag ∈ null_tags BronzeToSilver.Inventory.required_cols r
                         ++ tag_if (BronzeToSilver.Inventory.invalid_type r)
                              "INVALID_MOVEMENT_TYPE"
                         ++ tag_if (BronzeToSilver.Inventory.bad_qty r)
                              "NON_POSITIVE_QUANTITY"
                   ↔ tag ∈ null_tags BronzeToSilver.Inventory.required_cols r
                     ∨ (BronzeToSilver.Inventory.invalid_type r = true
                        ∧ tag = "INVALID_MOVEMENT_TYPE")
                     ∨ (BronzeToSilver.Inventory.bad_qty r = true
                        ∧ tag = "NON_POSITIVE_QUANTITY")) as Hin.
    { intros tag. rewrite !elem_of_app.
      destruct (BronzeToSilver.Inventory.invalid_type r),
        (BronzeToSilver.Inventory.bad_qty r); simpl;
        rewrite ?list_elem_of_singleton, ?elem_of_nil; intuition congruence. }
    assert (∀ tag, tag ∈ null_tags BronzeToSilver.Inventory.required_cols r →
                   tag ≠ "INVALID_MOVEMENT_TYPE" ∧ tag ≠ "NON_POSITIVE_QUANTITY") as Hnot.
    { intros tag (col & null & _ & _ & ->)%elem_of_null_tags_inv. split; discriminate. }
    rewrite !Hin. split; [|split; [|split]].
    + split; [|tauto]. intros [Hn|[[? _]|[_ ?]]]; [|done|done].
      by apply Hnot in Hn as [? _].
    + split; [|tauto]. intros [Hn|[[_ ?]|[? _]]]; [|done|done].
      by apply Hnot in Hn as [_ ?].
    + intros [Hnull [Hn|[[Hinv _]|[_ ?]]]]; [by apply Hnot in Hn as [? _]| |done].
      apply invalid_type_spec in Hinv as (t & Ht & _).
      destruct Hnull as [Hnull|[[_ ?]|[_ ?]]]; [|done|done].
      apply elem_of_null_tags_inv in Hnull as (col & null & Hcol & Hnull & Heq).
      apply (inj (String.app "NULL:")) in Heq as <-.
      destruct (inventory_null_type_or_quantity r _ _ Hcol Hnull) as [Hty _].
      by rewrite Hty in Ht.
    + intros [Hnull [Hn|[[_ ?]|[Hbad _]]]]; [by apply Hnot in Hn as [_ ?]|done|].
      apply bad_qty_spec in Hbad as (q & Hq & _).
      destruct Hnull as [Hnull|[[_ ?]|[_ ?]]]; [|done|done].
      apply elem_of_null_tags_inv in Hnull as (col & null & Hcol & Hnull & Heq).
      apply (inj (String.app "NULL:")) in Heq as <-.
      destruct (inventory_null_type_or_quantity r _ _ Hcol Hnull) as [_ Hqty].
      by rewrite Hqty in Hq.
Qed.

(** ** Totals after cleaning *)

Lemma fix_total_amount_columns {T} (r : BronzeToSilver.Sales.sale T) :
  BronzeToSilver.Sales.quantity (BronzeToSilver.Sales.fix_total_amount r)
  = BronzeToSilver.Sales.quantity r
  ∧ BronzeToSilver.Sales.unit_price (BronzeToSilver.Sales.fix_total_amount r)
    = BronzeToSilver.Sales.unit_price r.
Proof.
  unfold BronzeToSilver.Sales.fix_total_amount.
  by destruct (BronzeToSilver.Sales.mismatch r).
Qed.

(** X11. In a cleaned sale that has quantity, unit price and total, the
    total is within 0.01 of the rounded product of the other two. *)
Theorem cleaned_total_within_tolerance (now : string)
    (r : BronzeToSilver.Sales.sale Z) (q p t : Q) :
  let c := row (BronzeToSilver.Sales.clean_row now r) in
  BronzeToSilver.Sales.quantity c = Some q →
  BronzeToSilver.Sales.unit_price c = Some p →
  BronzeToSilver.Sales.total_amount c = Some t →
  (Qabs (t - round2 (q * p)) <= 1 # 100)%Q.
Proof.
  intros c. unfold c, BronzeToSilver.Sales.clean_row, finalise. cbn [row].
  destruct (fix_total_amount_columns r) as [-> ->]. intros Hq Hp.
  unfold BronzeToSilver.Sales.fix_total_amount.
  destruct (BronzeToSilver.Sales.mismatch r) eqn:Hmis.
  - unfold BronzeToSilver.Sales.expected, BronzeToSilver.Sales.set_total_amount.
    cbn [BronzeToSilver.Sales.total_amount]. rewrite Hq, Hp. intros [= <-].
    setoid_replace (round2 (q * p) - round2 (q * p))%Q with 0%Q using relation Qeq
      by ring.
    by apply Qle_bool_iff.
  - intros Ht. revert Hmis.
    unfold BronzeToSilver.Sales.mismatch, BronzeToSilver.Sales.expected.
    rewrite Hq, Hp, Ht. intros Hle%negb_false_iff. by apply Qle_bool_iff.
Qed.

Lemma cleaned_total_within_tolerance_witness :
  (Qabs (30 - round2 (3 * 10)) <= 1 # 100)%Q.
Proof.
  exact (cleaned_total_within_tolerance "2025-01-01T11:30:00+00:00"
           (BronzeToSilver.Sales.parse_timestamp parse_any sale_1)
           3%Q 10%Q 30%Q eq_refl eq_refl eq_refl).
Defined.


(** ** Order and keys after deduplication *)

Section dedup_order.
Context {R K : Type} `{EqDecision K}.
Implicit Types (key : R → K) (df : list R) (seen : list K).

Lemma drop_duplicates_from_sublist key seen df :
  drop_duplicates_from key seen df `sublist_of` df.
Proof.
  revert seen. induction df as [|r df IH]; intros seen; simpl; [done|].
  destruct (decide (key r ∈ seen)).
  - by apply sublist_cons.
  - by apply sublist_skip.
Qed.

Lemma drop_duplicates_from_keys key seen df :
  NoDup (key <$> drop_duplicates_from key seen df)
  ∧ ∀ k, k ∈ key <$> drop_duplicates_from key seen df → k ∉ seen.
Proof.
  revert seen. induction df as [|r df IH]; intros seen; simpl.
  { split; [constructor|]. by intros k ?%elem_of_nil. }
  destruct (decide (key r ∈ seen)) as [Hseen|Hnew]; [apply IH|].
  destruct (IH (key r :: seen)) as [Hnodup Hfresh].
  rewrite fmap_cons. split.
  - apply NoDup_cons. split; [|done].
    intros Hin%Hfresh. apply Hin. left.
  - intros k [->|Hk]%elem_of_cons; [done|].
    apply Hfresh in Hk. intros ?. apply Hk. by right.
Qed.

Lemma drop_duplicates_from_fresh key seen df :
  NoDup (key <$> df) → (∀ r, r ∈ df → key r ∉ seen) →
  drop_duplicates_from key seen df = df.
Proof.
  revert seen. induction df as [|r df IH]; intros seen Hnodup Hfresh; simpl; [done|].
  rewrite fmap_cons in Hnodup. apply NoDup_cons in Hnodup as [Hr Hnodup].
  rewrite decide_False by (apply Hfresh; left). f_equal.
  apply IH; [done|]. intros r' Hr' [Heq|Hseen]%elem_of_cons.
  - apply Hr. rewrite <- Heq. by apply list_elem_of_fmap_2.
  - by apply (Hfresh r'); [right|].
Qed.

Lemma drop_duplicates_NoDup key df :
  NoDup (key <$> df) → drop_duplicates key df = df.
Proof.
  intros Hnodup. apply drop_duplicates_from_fresh; [done|].
  intros r _. apply not_elem_of_nil.
Qed.

End dedup_order.

Lemma fmap_key_ext {A B K} (f : A → B) (key : B → K) (key' : A → K) (l : list A) :
  (∀ a, key (f a) = key' a) → key <$> (f <$> l) = key' <$> l.
Proof.
  intros Hkey. rewrite <- list_fmap_compose. apply list_fmap_ext. intros _ a _. apply Hkey.
Qed.

Lemma fmap_fmap_pointwise {A B C} (f : A → B) (g : B → C) (l : list A) :
  (λ a, g (f a)) <$> l = g <$> (f <$> l).
Proof. apply (list_fmap_compose f g). Qed.

Lemma sales_clean_row_key now (r : BronzeToSilver.Sales.sale Z) :
  BronzeToSilver.Sales.sale_id (row (BronzeToSilver.Sales.clean_row now r))
  = BronzeToSilver.Sales.sale_id r.
Proof.
  unfold BronzeToSilver.Sales.clean_row, finalise,
    BronzeToSilver.Sales.fix_total_amount. simpl.
  by destruct (BronzeToSilver.Sales.mismatch r).
Qed.

(** X13. The output of a processor has no two records with the same key,
    and its records are, in the order of the input, cleaned rows of the
    input. *)
Theorem processors_keep_order_and_distinct_keys
    (to_datetime : string → option Z) (now : string) :
  (∀ df,
     let out := BronzeToSilver.Sales._process_sales to_datetime now df in
     NoDup ((λ c, BronzeToSilver.Sales.sale_id (row c)) <$> out)
     ∧ out `sublist_of`
         ((λ r, BronzeToSilver.Sales.clean_row now
                  (BronzeToSilver.Sales.parse_timestamp to_datetime r)) <$> df))
  ∧ (∀ df,
     let out := BronzeToSilver.Events._process_customer_events to_datetime now df in
     NoDup ((λ c, BronzeToSilver.Events.event_id (row c)) <$> out)
     ∧ out `sublist_of`
         ((λ r, BronzeToSilver.Events.clean_row now
                  (BronzeToSilver.Events.parse_timestamp to_datetime r)) <$> df))
  ∧ (∀ df,
     let out := BronzeToSilver.Inventory._process_inventory to_datetime now df in
     NoDup ((λ c, BronzeToSilver.Inventory.movement_id (row c)) <$> out)
     ∧ out `sublist_of`
         ((λ r, BronzeToSilver.Inventory.clean_row now
                  (BronzeToSilver.Inventory.parse_timestamp to_datetime r)) <$> df)).
Proof.
  split; [|split]; intros df out; unfold out; clear out.
  - unfold BronzeToSilver.Sales._process_sales. split.
    + rewrite (fmap_key_ext _ _ BronzeToSilver.Sales.sale_id)
        by apply sales_clean_row_key.
      apply drop_duplicates_from_keys.
    + rewrite (fmap_fmap_pointwise (BronzeToSilver.Sales.parse_timestamp to_datetime)).
      apply fmap_sublist, drop_duplicates_from_sublist.
  - unfold BronzeToSilver.Events._process_customer_events. split.
    + rewrite (fmap_key_ext _ _ BronzeToSilver.Events.event_id) by done.
      apply drop_duplicates_from_keys.
    + rewrite (fmap_fmap_pointwise (BronzeToSilver.Events.parse_timestamp to_datetime)).
      apply fmap_sublist, drop_duplicates_from_sublist.
  - unfold BronzeToSilver.Inventory._process_inventory. split.
    + rewrite (fmap_key_ext _ _ BronzeToSilver.Inventory.movement_id) by done.
      apply drop_duplicates_from_keys.
    + rewrite (fmap_fmap_pointwise (BronzeToSilver.Inventory.parse_timestamp to_datetime)).
      apply fmap_sublist, drop_duplicates_from_sublist.
Qed.

(** X14. On a frame whose keys are pairwise different a processor drops
    nothing: the output is the cleaned rows of the input, valid or not, one
    for one. *)
Theorem distinct_keys_nothing_dropped (to_datetime : string → option Z) (now : string) :
  (∀ df, NoDup (BronzeToSilver.Sales.sale_id <$> df) →
         BronzeToSilver.Sales._process_sales to_datetime now df
         = (λ r, BronzeToSilver.Sales.clean_row now
                   (BronzeToSilver.Sales.parse_timestamp to_datetime r)) <$> df)
  ∧ (∀ df, NoDup (BronzeToSilver.Events.event_id <$> df) →
           BronzeToSilver.Events._process_customer_events to_datetime now df
           = (λ r, BronzeToSilver.Events.clean_row now
                     (BronzeToSilver.Events.parse_timestamp to_datetime r)) <$> df)
  ∧ (∀ df, NoDup (BronzeToSilver.Inventory.movement_id <$> df) →
           BronzeToSilver.Inventory._process_inventory to_datetime now df
           = (λ r, BronzeToSilver.Inventory.clean_row now
                     (BronzeToSilver.Inventory.parse_timestamp to_datetime r)) <$> df).
Proof.
  split; [|split]; intros df Hnodup.
  - unfold BronzeToSilver.Sales._process_sales.
    rewrite drop_duplicates_NoDup; [symmetry; apply fmap_fmap_pointwise|].
    by rewrite (fmap_key_ext _ _ BronzeToSilver.Sales.sale_id).
  - unfold BronzeToSilver.Events._process_customer_events.
    rewrite drop_duplicates_NoDup; [symmetry; apply fmap_fmap_pointwise|].
    by rewrite (fmap_key_ext _ _ BronzeToSilver.Events.event_id).
  - unfold BronzeToSilver.Inventory._process_inventory.
    rewrite drop_duplicates_NoDup; [symmetry; apply fmap_fmap_pointwise|].
    by rewrite (fmap_key_ext _ _ BronzeToSilver.Inventory.movement_id).
Qed.

Lemma distinct_keys_nothing_dropped_witness :
  BronzeToSilver.Sales._process_sales parse_none "2025-01-01T12:00:00+00:00"
    two_distinct_sales
  = (λ r, BronzeToSilver.Sales.clean_row "2025-01-01T12:00:00+00:00"
            (BronzeToSilver.Sales.parse_timestamp parse_none r)) <$> two_distinct_sales.
Proof.
  apply (proj1 (distinct_keys_nothing_dropped parse_none "2025-01-01T12:00:00+00:00")).
  apply (bool_decide_unpack _). vm_compute. exact I.
Defined.

(** ** Running the cleaning stage again *)

Lemma get_unprocessed_ext (fs1 fs2 : Storage.ledger_fs) (D : string) :
  Storage.bronze_csv fs1 !! D = Storage.bronze_csv fs2 !! D →
  Storage.state_files fs1 !! D = Storage.state_files fs2 !! D →
  Storage.get_unprocessed_bronze_files fs1 D = Storage.get_unprocessed_bronze_files fs2 D.
Proof.
  intros Hb Hs.
  unfold Storage.get_unprocessed_bronze_files, Storage._load_processed_state.
  by rewrite Hb, Hs.
Qed.

(** A run of one domain leaves the bronze listing and the state files of
    the other domains as they were. *)
Lemma run_domain_frame {Raw Clean} (process : list Raw → list Clean)
    (read_csv : Path → option (list Raw)) D dt fs silver fs' silver' :
  BronzeToSilver.run_domain process read_csv D dt fs silver = Ok (fs', silver') →
  Storage.bronze_csv fs' = Storage.bronze_csv fs
  ∧ ∀ D', D ≠ D' → Storage.state_files fs' !! D' = Storage.state_files fs !! D'.
Proof.
  unfold BronzeToSilver.run_domain.
  destruct (Storage.get_unprocessed_bronze_files fs D) as [files|e];
    cbn [mbind result_bind]; [|done].
  destruct files as [|f files]; [by intros [= <- <-]|].
  destruct (omap read_csv (f :: files)) as [|df dfs]; [by intros [= <- <-]|].
  destruct (Storage.mark_bronze_files_processed fs D (f :: files)) as [fs1|e] eqn:Hmark;
    cbn [mbind result_bind]; [|done].
  intros [= <- <-]. split.
  - by apply mark_bronze_files_processed_spec in Hmark as (? & _ & ->).
  - intros D' Hne. by destruct (commit_frame fs fs1 D D' _ Hne Hmark).
Qed.

(** Once a run of a domain has returned, a further run of that domain, on a
    lake with the same bronze listing and state file for the domain, reads
    nothing, writes nothing and commits nothing. *)
Lemma run_domain_again {Raw Clean Clean2}
    (process : list Raw → list Clean) (process2 : list Raw → list Clean2)
    (read_csv : Path → option (list Raw)) D dt dt2 fs silver fs' silver' fs2 silver2 :
  BronzeToSilver.run_domain process read_csv D dt fs silver = Ok (fs', silver') →
  Storage.bronze_csv fs2 !! D = Storage.bronze_csv fs' !! D →
  Storage.state_files fs2 !! D = Storage.state_files fs' !! D →
  BronzeToSilver.run_domain process2 read_csv D dt2 fs2 silver2 = Ok (fs2, silver2).
Proof.
  intros Hrun Hb Hs.
  pose proof (get_unprocessed_ext fs2 fs' D Hb Hs) as Hsame.
  destruct (Storage.get_unprocessed_bronze_files fs D) as [files|e] eqn:Hfiles;
    [|by unfold BronzeToSilver.run_domain in Hrun; rewrite Hfiles in Hrun].
  destruct (omap read_csv files) as [|df dfs] eqn:Hdfs.
  - rewrite (run_domain_nothing_parsed _ _ _ _ _ _ _ Hfiles Hdfs) in Hrun.
    injection Hrun as <- <-.
    apply (run_domain_nothing_parsed _ _ _ _ _ _ files); [|done].
    by rewrite Hsame.
  - eapply run_domain_commits_every_listed_file in Hrun as [_ Hnone];
      [|exact Hfiles|by rewrite Hdfs].
    apply (run_domain_nothing_parsed _ _ _ _ _ _ []); [|done].
    by rewrite Hsame.
Qed.

(** X15. When [run] has returned, running it again with no new bronze file
    returns the same lake: no partition is written and no ledger changes,
    whatever the clock reads. *)
Theorem cleaning_run_twice_changes_nothing (to_datetime : string → option Z)
    (clock clock2 : string → string * datetime)
    (csv : BronzeToSilver.bronze_content) (lk lk' : BronzeToSilver.lake) :
  BronzeToSilver.run to_datetime clock csv lk = Ok lk' →
  BronzeToSilver.run to_datetime clock2 csv lk' = Ok lk'.
Proof.
  unfold BronzeToSilver.run.
  destruct (BronzeToSilver.run_domain _ (BronzeToSilver.csv_sales csv) "sales" _ _ _)
    as [[fs1 s]|e] eqn:H1; cbn [mbind result_bind]; [|done].
  destruct (BronzeToSilver.run_domain _ (BronzeToSilver.csv_events csv)
              "customer_events" _ fs1 _)
    as [[fs2 ev]|e] eqn:H2; cbn [mbind result_bind]; [|done].
  destruct (BronzeToSilver.run_domain _ (BronzeToSilver.csv_inventory csv)
              "inventory" _ fs2 _)
    as [[fs3 i]|e] eqn:H3; cbn [mbind result_bind]; [|done].
  intros [= <-]. cbn [BronzeToSilver.ledger BronzeToSilver.silver_sales
                        BronzeToSilver.silver_events BronzeToSilver.silver_inventory].
  destruct (run_domain_frame _ _ _ _ _ _ _ _ H2) as [Hb2 Hs2].
  destruct (run_domain_frame _ _ _ _ _ _ _ _ H3) as [Hb3 Hs3].
  rewrite (run_domain_again _ _ _ _ _ _ _ _ _ _ fs3 s H1); cycle 1.
  { by rewrite Hb3, Hb2. }
  { rewrite Hs3, Hs2; done. }
  cbn [mbind result_bind].
  rewrite (run_domain_again _ _ _ _ _ _ _ _ _ _ fs3 ev H2); cycle 1.
  { by rewrite Hb3. }
  { by rewrite Hs3. }
  cbn [mbind result_bind].
  by rewrite (run_domain_again _ _ _ _ _ _ _ _ _ _ fs3 i H3).
Qed.

Lemma cleaning_run_twice_changes_nothing_witness :
  ∃ lk', BronzeToSilver.run parse_any clock_domains_noon bronze_two_batches lake_two_batches
         = Ok lk'
         ∧ BronzeToSilver.run parse_any clock_domains_later bronze_two_batches lk' = Ok lk'.
Proof.
  eexists. split; [reflexivity|].
  apply (cleaning_run_twice_changes_nothing parse_any clock_domains_noon
           clock_domains_later bronze_two_batches lake_two_batches).
  reflexivity.
Defined.

(** ** From the cleaning run to the aggregation *)

Lemma silver_file_below_domain (domain : string) (dt : datetime) (name : string) :
  (DATALAKE_DIR ++ ["silver"; domain])
    `prefix_of` (Storage._hive_path (DATALAKE_DIR ++ ["silver"]) domain dt ++ [name]).
Proof. eexists. reflexivity. Qed.

(** X16. Every record a cleaning run of a domain produces is in the frame
    [read_from_silver] reads for that domain afterwards. *)
Theorem cleaned_records_reach_aggregation {Raw Clean}
    (process : list Raw → list Clean) (read_csv : Path → option (list Raw))
    (D : string) (dt : datetime) (fs fs' : Storage.ledger_fs)
    (silver silver' : gmap Path (list Clean)) (files : list Path) :
  BronzeToSilver.run_domain process read_csv D dt fs silver = Ok (fs', silver') →
  Storage.get_unprocessed_bronze_files fs D = Ok files →
  omap read_csv files ≠ [] →
  ∀ c, c ∈ process (mjoin (omap read_csv files)) →
       c ∈ Storage.read_from_silver D silver'.
Proof.
  intros Hrun Hfiles Hsome c Hc.
  destruct (omap read_csv files) as [|df dfs] eqn:Hdfs; [done|].
  destruct (run_domain_some_parsed process read_csv D dt fs silver files df dfs
              Hfiles Hdfs) as (fs1 & _ & Hrun').
  rewrite Hrun' in Hrun. injection Hrun as _ <-.
  apply elem_of_read_from_silver. unfold Storage.save_to_silver. cbn [snd].
  eexists _, _. split; [apply silver_file_below_domain|].
  split; [apply lookup_insert_eq|done].
Qed.

Lemma cleaned_records_reach_aggregation_witness :
  ∃ fs' silver',
    BronzeToSilver.run_domain
      (BronzeToSilver.Sales._process_sales parse_any "2025-01-01T12:00:00+00:00")
      csv_a_ok_b_malformed "sales" noon two_batches ∅ = Ok (fs', silver')
    ∧ ∀ c, c ∈ BronzeToSilver.Sales._process_sales parse_any "2025-01-01T12:00:00+00:00"
                 (mjoin (omap csv_a_ok_b_malformed [batch_a; batch_b])) →
           c ∈ Storage.read_from_silver "sales" silver'.
Proof.
  eexists _, _. split; [reflexivity|].
  eapply (cleaned_records_reach_aggregation
            (BronzeToSilver.Sales._process_sales parse_any "2025-01-01T12:00:00+00:00")
            csv_a_ok_b_malformed "sales" noon two_batches _ ∅ _ [batch_a; batch_b]).
  - reflexivity.
  - vm_compute. reflexivity.
  - discriminate.
Defined.

(** ** Writing and reading silver partitions *)

Lemma silver_file_not_below_other_domain (D D' : string) (dt : datetime) (name : string) :
  (DATALAKE_DIR ++ ["silver"; D'])
    `prefix_of` (Storage._hive_path (DATALAKE_DIR ++ ["silver"]) D dt ++ [name]) →
  D' = D.
Proof.
  intros [k Hk]. unfold Storage._hive_path, DATALAKE_DIR, BASE_DIR in Hk.
  cbn [app] in Hk. by injection Hk.
Qed.

Lemma read_from_silver_single {R} (D : string) (dt : datetime) (df : list R) :
  Storage.read_from_silver D (Storage.save_to_silver D dt df ∅).2 = df.
Proof.
  unfold Storage.save_to_silver. cbn [fst snd].
  set (dest := Storage._hive_path (DATALAKE_DIR ++ ["silver"]) D dt
               ++ [D +:+ "_" +:+ strftime_Ymd_HMS dt +:+ ".parquet"]).
  unfold Storage.read_from_silver, Storage.rglob, Storage.concat_frames.
  rewrite insert_empty, dom_singleton_L, elements_singleton.
  rewrite filter_cons, decide_True by apply silver_file_below_domain.
  rewrite filter_nil. cbn [sorted_paths].
  change (sorted_paths [dest]) with [dest].
  cbn [omap list_omap]. rewrite lookup_singleton_eq. cbn [mjoin list_join].
  apply app_nil_r.
Qed.

(** X17. After [save_to_silver] the frame read for the domain holds the
    rows written and the rows of the other files below the domain's
    directory; the frames read for other domains hold what they held; on an
    empty layer the frame read is the frame written. *)
Theorem silver_write_then_read {R} (D : string) (dt : datetime) (df : list R)
    (files : gmap Path (list R)) :
  let written := Storage.save_to_silver D dt df files in
  (∀ c, c ∈ Storage.read_from_silver D written.2 ↔
        c ∈ df ∨ ∃ f part, f ≠ written.1
                           ∧ (DATALAKE_DIR ++ ["silver"; D]) `prefix_of` f
                           ∧ files !! f = Some part ∧ c ∈ part)
  ∧ (∀ D' c, D' ≠ D →
       c ∈ Storage.read_from_silver D' written.2 ↔ c ∈ Storage.read_from_silver D' files)
  ∧ (files = ∅ → Storage.read_from_silver D written.2 = df).
Proof.
  unfold Storage.save_to_silver. cbn [fst snd].
  set (dest := Storage._hive_path (DATALAKE_DIR ++ ["silver"]) D dt
               ++ [D +:+ "_" +:+ strftime_Ymd_HMS dt +:+ ".parquet"]).
  split; [|split].
  - intros c. rewrite elem_of_read_from_silver. split.
    + intros (f & part & Hprefix & Hpart & Hc).
      destruct (decide (f = dest)) as [->|Hne].
      * rewrite lookup_insert_eq in Hpart. injection Hpart as <-. by left.
      * rewrite lookup_insert_ne in Hpart by done. right. eauto 10.
    + intros [Hc|(f & part & Hne & Hprefix & Hpart & Hc)].
      * exists dest, df. split; [apply silver_file_below_domain|].
        by rewrite lookup_insert_eq.
      * exists f, part. by rewrite lookup_insert_ne.
  - intros D' c Hne. rewrite !elem_of_read_from_silver.
    split; intros (f & part & Hprefix & Hpart & Hc); exists f, part.
    + rewrite lookup_insert_ne in Hpart; [done|].
      intros <-. by apply silver_file_not_below_other_domain in Hprefix.
    + rewrite lookup_insert_ne; [done|].
      intros <-. by apply silver_file_not_below_other_domain in Hprefix.
  - intros ->. apply (read_from_silver_single D dt df).
Qed.

(** X18. Two calls of [save_to_silver] for one domain within one second
    write the same file: the layer keeps the second frame only, and on a
    layer that was empty the frame read back is the second frame. *)
Theorem silver_same_second_replaces {R} (D : string) (y mo d h mi s us1 us2 : Z)
    (df1 df2 : list R) (files : gmap Path (list R)) :
  let save1 := Storage.save_to_silver D (mkDatetime y mo d h mi s us1) df1 files in
  let save2 := Storage.save_to_silver D (mkDatetime y mo d h mi s us2) df2 save1.2 in
  save2.1 = save1.1
  ∧ save2.2 !! save1.1 = Some df2
  ∧ dom save2.2 = dom save1.2
  ∧ (files = ∅ → Storage.read_from_silver D save2.2 = df2).
Proof.
  intros save1 save2.
  assert (save2.2 = (Storage.save_to_silver D (mkDatetime y mo d h mi s us2) df2 files).2)
    as Hsame.
  { unfold save2, save1, Storage.save_to_silver. cbn [snd].
    apply insert_insert_eq. }
  split; [done|]. split; [|split].
  - unfold save2, save1, Storage.save_to_silver. cbn [fst snd]. apply lookup_insert_eq.
  - unfold save2, save1, Storage.save_to_silver. cbn [fst snd].
    change (strftime_Ymd_HMS (mkDatetime y mo d h mi s us2))
      with (strftime_Ymd_HMS (mkDatetime y mo d h mi s us1)).
    by rewrite insert_insert_eq, !dom_insert_L.
  - intros ->. rewrite Hsame. apply read_from_silver_single.
Qed.

(** ** What an aggregation run writes *)

Lemma write_lookup clock table df gold f :
  SilverToGold.write clock table df gold !! f
  = if decide (Storage.gold_file table (clock table).2 = f) then Some df else gold !! f.
Proof.
  unfold SilverToGold.write, Storage.save_to_gold. cbn [snd].
  destruct (decide (Storage.gold_file table (clock table).2 = f)) as [<-|Hne].
  - apply lookup_insert_eq.
  - by apply lookup_insert_ne.
Qed.

Lemma write_lookup_other clock table df gold f :
  table ∈ GOLD_TABLES →
  (∀ t, t ∈ GOLD_TABLES → Storage.gold_file t (clock t).2 ≠ f) →
  SilverToGold.write clock table df gold !! f = gold !! f.
Proof. intros Hin Hf. rewrite write_lookup, decide_False; [done|]. by apply Hf. Qed.

Lemma write_is_Some clock table df gold f :
  is_Some (gold !! f) → is_Some (SilverToGold.write clock table df gold !! f).
Proof. intros ?. rewrite write_lookup. by destruct (decide _). Qed.

Lemma elem_of_GOLD_TABLES :
  Forall (λ t, t ∈ GOLD_TABLES) GOLD_TABLES.
Proof. apply Forall_forall. auto. Qed.

(** X19. A builder whose frame has no valid record writes nothing, and a
    run over a lake with no valid record in any domain returns the gold
    layer as it was. *)
Theorem aggregation_without_valid_rows_writes_nothing
    (clock : string → string * datetime) (gold : gmap Path SilverToGold.gold_table) :
  (∀ df, SilverToGold.valid_rows df = [] →
         SilverToGold._build_daily_sales_summary clock df gold = gold)
  ∧ (∀ df, SilverToGold.valid_rows df = [] →
           SilverToGold._build_customer_activity_summary clock df gold = gold)
  ∧ (∀ df, SilverToGold.valid_rows df = [] →
           SilverToGold._build_inventory_summary clock df gold = gold)
  ∧ (∀ lk,
       SilverToGold.valid_rows
         (Storage.read_from_silver "sales" (BronzeToSilver.silver_sales lk)) = [] →
       SilverToGold.valid_rows
         (Storage.read_from_silver "customer_events" (BronzeToSilver.silver_events lk)) = [] →
       SilverToGold.valid_rows
         (Storage.read_from_silver "inventory" (BronzeToSilver.silver_inventory lk)) = [] →
       SilverToGold.run clock lk gold = gold).
Proof.
  split; [|split; [|split]].
  - intros df Hnone. by rewrite build_sales_valid_only, Hnone.
  - intros df Hnone. by rewrite build_events_valid_only, Hnone.
  - intros df Hnone. by rewrite build_inventory_valid_only, Hnone.
  - intros lk Hs He Hi. rewrite run_unfold.
    by rewrite build_inventory_valid_only, build_events_valid_only,
      build_sales_valid_only, Hs, He, Hi.
Qed.

Lemma aggregation_without_valid_rows_writes_nothing_witness :
  SilverToGold.run clock_noon lake_one_invalid ∅ = ∅.
Proof.
  apply (proj2 (proj2 (proj2
           (aggregation_without_valid_rows_writes_nothing clock_noon ∅)))).
  - vm_compute. reflexivity.
  - vm_compute. reflexivity.
  - vm_compute. reflexivity.
Defined.

Lemma snapshots_lookup_other clock f gold :
  (∀ t, t ∈ GOLD_TABLES → Storage.gold_file t (clock t).2 ≠ f) →
  (∀ valid, SilverToGold.sales_snapshots clock valid gold !! f = gold !! f)
  ∧ (∀ valid, SilverToGold.events_snapshots clock valid gold !! f = gold !! f)
  ∧ (∀ valid, SilverToGold.inventory_snapshots clock valid gold !! f = gold !! f).
Proof.
  intros Hf. pose proof elem_of_GOLD_TABLES as Htables.
  unfold GOLD_TABLES in Htables at 2.
  repeat (apply Forall_cons in Htables as [? Htables]).
  unfold SilverToGold.sales_snapshots, SilverToGold.events_snapshots,
    SilverToGold.inventory_snapshots.
  split; [|split]; intros valid; by rewrite !write_lookup_other.
Qed.

Lemma snapshots_is_Some clock f gold :
  is_Some (gold !! f) →
  (∀ valid, is_Some (SilverToGold.sales_snapshots clock valid gold !! f))
  ∧ (∀ valid, is_Some (SilverToGold.events_snapshots clock valid gold !! f))
  ∧ (∀ valid, is_Some (SilverToGold.inventory_snapshots clock valid gold !! f)).
Proof.
  intros Hf.
  unfold SilverToGold.sales_snapshots, SilverToGold.events_snapshots,
    SilverToGold.inventory_snapshots.
  split; [|split]; intros valid; by repeat apply write_is_Some.
Qed.

Lemma run_as_snapshots clock lk gold :
  SilverToGold.run clock lk gold
  = snapshots_of (SilverToGold.inventory_snapshots clock)
      (SilverToGold.valid_rows
         (Storage.read_from_silver "inventory" (BronzeToSilver.silver_inventory lk)))
      (snapshots_of (SilverToGold.events_snapshots clock)
         (SilverToGold.valid_rows
            (Storage.read_from_silver "customer_events" (BronzeToSilver.silver_events lk)))
         (snapshots_of (SilverToGold.sales_snapshots clock)
            (SilverToGold.valid_rows
               (Storage.read_from_silver "sales" (BronzeToSilver.silver_sales lk)))
            gold)).
Proof.
  rewrite run_unfold.
  by rewrite build_inventory_valid_only, build_events_valid_only, build_sales_valid_only.
Qed.

Lemma snapshots_of_is_Some {R}
    (snaps : list R → gmap Path SilverToGold.gold_table → gmap Path SilverToGold.gold_table)
    (valid : list R) (gold : gmap Path SilverToGold.gold_table) (f : Path) :
  (∀ v g, is_Some (g !! f) → is_Some (snaps v g !! f)) →
  is_Some (gold !! f) → is_Some (snapshots_of snaps valid gold !! f).
Proof. intros Hs Hf. destruct valid; [done|]. by apply Hs. Qed.

Lemma snapshots_of_lookup_other {R}
    (snaps : list R → gmap Path SilverToGold.gold_table → gmap Path SilverToGold.gold_table)
    (valid : list R) (gold : gmap Path SilverToGold.gold_table) (f : Path) :
  (∀ v g, snaps v g !! f = g !! f) →
  snapshots_of snaps valid gold !! f = gold !! f.
Proof. intros Hs. destruct valid; [done|]. apply Hs. Qed.

Lemma run_keeps_files (clock : string → string * datetime)
    (lk : BronzeToSilver.lake) (gold : gmap Path SilverToGold.gold_table) (f : Path) :
  is_Some (gold !! f) → is_Some (SilverToGold.run clock lk gold !! f).
Proof.
  rewrite run_as_snapshots. intros Hf.
  apply snapshots_of_is_Some;
    [intros v g Hg; by apply (snapshots_is_Some clock f g)|].
  apply snapshots_of_is_Some;
    [intros v g Hg; by apply (snapshots_is_Some clock f g)|].
  apply snapshots_of_is_Some;
    [intros v g Hg; by apply (snapshots_is_Some clock f g)|].
  done.
Qed.

Lemma run_lookup_other (clock : string → string * datetime)
    (lk : BronzeToSilver.lake) (gold : gmap Path SilverToGold.gold_table) (f : Path) :
  (∀ t, t ∈ GOLD_TABLES → Storage.gold_file t (clock t).2 ≠ f) →
  SilverToGold.run clock lk gold !! f = gold !! f.
Proof.
  rewrite run_as_snapshots. intros Hf.
  rewrite snapshots_of_lookup_other
    by (intros v g; apply (snapshots_lookup_other clock f g Hf)).
  rewrite snapshots_of_lookup_other
    by (intros v g; apply (snapshots_lookup_other clock f g Hf)).
  rewrite snapshots_of_lookup_other
    by (intros v g; apply (snapshots_lookup_other clock f g Hf)).
  done.
Qed.

(** X20. An aggregation run deletes no gold file, and a gold file whose
    path is not the name the run gives one of the seven tables holds after
    the run what it held before. *)
Theorem aggregation_keeps_other_snapshots (clock : string → string * datetime)
    (lk : BronzeToSilver.lake) (gold : gmap Path SilverToGold.gold_table) (f : Path) :
  (is_Some (gold !! f) → is_Some (SilverToGold.run clock lk gold !! f))
  ∧ ((∀ t, t ∈ GOLD_TABLES → Storage.gold_file t (clock t).2 ≠ f) →
     SilverToGold.run clock lk gold !! f = gold !! f).
Proof. split; [apply run_keeps_files|apply run_lookup_other]. Qed.

(** ** The rows of the gold tables *)

Lemma bind_pair_Some {A B} (a : option A) (b : option B) (x : A) (y : B) :
  (d ← a; c ← b; Some (d, c)) = Some (x, y) ↔ a = Some x ∧ b = Some y.
Proof.
  split.
  - destruct a as [a'|]; [|done]. destruct b as [b'|]; [|done]. simpl.
    by intros [= -> ->].
  - by intros [-> ->].
Qed.

Lemma groupby_pair_is_Some {R A B} `{Countable A, Countable B}
    (a : R → option A) (b : R → option B) (df : list R) (x : A) (y : B) :
  is_Some (groupby (λ r, d ← a r; c ← b r; Some (d, c)) df !! (x, y))
  ↔ ∃ r, r ∈ df ∧ a r = Some x ∧ b r = Some y.
Proof.
  rewrite groupby_is_Some. split.
  - intros (r & Hr & Hkey). apply bind_pair_Some in Hkey. eauto.
  - intros (r & Hr & Hkey). exists r. split; [done|]. by apply bind_pair_Some.
Qed.

Section pivot_rows.
Variable clock : string → string * datetime.
Variable valid : list (cleaned (BronzeToSilver.Inventory.movement Z)).

Let cells : gmap (SilverToGold.net_key * string) Q :=
  agg_sum SilverToGold.numeric_quantity
    <$> groupby SilverToGold.type_key valid.
Let index : gset SilverToGold.net_key := set_map fst (dom cells).

(** The net-position table has a row for the index keys and for nothing
    else. *)
Lemma net_position_table_is_Some k :
  is_Some (SilverToGold.net_position_table clock valid !! k)
  ↔ ∃ r t, r ∈ valid ∧ SilverToGold.type_key r = Some (k, t).
Proof.
  rewrite <- (elem_of_index valid k).
  unfold SilverToGold.net_position_table. cbn [foldl].
  destruct (ensure_column_ok valid "inbound" _ (pivot_table_ok valid)) as (Hok1 & _ & _).
  destruct (ensure_column_ok valid "outbound" _ Hok1) as (Hok2 & _ & _).
  destruct (ensure_column_ok valid "adjustment" _ Hok2) as ([_ Hrows] & _ & _).
  specialize (Hrows k). rewrite lookup_fmap, fmap_is_Some.
  destruct (decide (k ∈ set_map fst (dom (agg_sum _ <$> groupby _ valid)))) as [Hin|Hout].
  - destruct Hrows as (cols & -> & _). split; [done|]. by eexists.
  - rewrite Hrows. split; [by intros [? ?]|done].
Qed.

End pivot_rows.

(** X21. Each of the seven gold tables has a row for a group key exactly
    when some valid record of the frame has that key, with every column of
    the key present. *)
Theorem gold_rows_are_the_groups_of_valid_rows (clock : string → string * datetime) :
  (∀ valid d,
     is_Some (SilverToGold.daily clock valid !! d)
     ↔ ∃ r, r ∈ valid ∧ SilverToGold.sale_date r = Some d)
  ∧ (∀ valid d c,
       is_Some (SilverToGold.cat clock valid !! (d, c))
       ↔ ∃ r, r ∈ valid ∧ SilverToGold.sale_date r = Some d
              ∧ BronzeToSilver.Sales.category (row r) = Some c)
  ∧ (∀ valid d m,
       is_Some (SilverToGold.pay clock valid !! (d, m))
       ↔ ∃ r, r ∈ valid ∧ SilverToGold.sale_date r = Some d
              ∧ BronzeToSilver.Sales.payment_method (row r) = Some m)
  ∧ (∀ valid d t,
       is_Some (SilverToGold.events clock valid !! (d, t))
       ↔ ∃ r, r ∈ valid ∧ SilverToGold.event_date r = Some d
              ∧ BronzeToSilver.Events.event_type (row r) = Some t)
  ∧ (∀ valid d t,
       is_Some (SilverToGold.devices clock valid !! (d, t))
       ↔ ∃ r, r ∈ valid ∧ SilverToGold.event_date r = Some d
              ∧ BronzeToSilver.Events.device_type (row r) = Some t)
  ∧ (∀ valid k t,
       is_Some (SilverToGold.movement clock valid !! (k, t))
       ↔ ∃ r, r ∈ valid ∧ SilverToGold.index_key r = Some k
              ∧ BronzeToSilver.Inventory.movement_type (row r) = Some t)
  ∧ (∀ valid k,
       is_Some (SilverToGold.net_position_table clock valid !! k)
       ↔ ∃ r t, r ∈ valid ∧ SilverToGold.index_key r = Some k
                ∧ BronzeToSilver.Inventory.movement_type (row r) = Some t).
Proof.
  repeat apply conj.
  - intros valid d. unfold SilverToGold.daily.
    by rewrite lookup_fmap, fmap_is_Some, groupby_is_Some.
  - intros valid d c. unfold SilverToGold.cat.
    by rewrite lookup_fmap, fmap_is_Some, groupby_pair_is_Some.
  - intros valid d m. unfold SilverToGold.pay.
    by rewrite lookup_fmap, fmap_is_Some, groupby_pair_is_Some.
  - intros valid d t. unfold SilverToGold.events.
    by rewrite lookup_fmap, fmap_is_Some, groupby_pair_is_Some.
  - intros valid d t. unfold SilverToGold.devices.
    by rewrite lookup_fmap, fmap_is_Some, groupby_pair_is_Some.
  - intros valid k t. unfold SilverToGold.movement, SilverToGold.type_key.
    by rewrite lookup_fmap, fmap_is_Some, groupby_pair_is_Some.
  - intros valid k. rewrite net_position_table_is_Some. split.
    + intros (r & t & Hr & Hkey). apply bind_pair_Some in Hkey. eauto.
    + intros (r & t & Hr & Hkey). exists r, t. split; [done|].
      by apply bind_pair_Some.
Qed.

Lemma sales_clean_row_timestamp now (r : BronzeToSilver.Sales.sale Z) :
  BronzeToSilver.Sales.timestamp (row (BronzeToSilver.Sales.clean_row now r))
  = BronzeToSilver.Sales.timestamp r.
Proof.
  unfold BronzeToSilver.Sales.clean_row, finalise,
    BronzeToSilver.Sales.fix_total_amount. simpl.
  by destruct (BronzeToSilver.Sales.mismatch r).
Qed.

(** X22. No valid record is lost on the way into the tables keyed by
    required columns: a valid cleaned sale has a row for its day in the
    daily table, a valid cleaned event a row for its day and event type in
    the activity table, and a valid cleaned movement with a product name a
    row in the movement table and one in the net-position table. *)
Theorem valid_records_are_aggregated (clock : string → string * datetime)
    (now : string) :
  (∀ (r : BronzeToSilver.Sales.sale Z) valid,
     is_valid (BronzeToSilver.Sales.clean_row now r) = true →
     BronzeToSilver.Sales.clean_row now r ∈ valid →
     ∃ ts, BronzeToSilver.Sales.timestamp r = Some ts
           ∧ is_Some (SilverToGold.daily clock valid !! SilverToGold.date_of ts))
  ∧ (∀ (r : BronzeToSilver.Events.event Z) valid,
       is_valid (BronzeToSilver.Events.clean_row now r) = true →
       BronzeToSilver.Events.clean_row now r ∈ valid →
       ∃ ts t, BronzeToSilver.Events.timestamp r = Some ts
               ∧ BronzeToSilver.Events.event_type r = Some t
               ∧ is_Some (SilverToGold.events clock valid !! (SilverToGold.date_of ts, t)))
  ∧ (∀ (r : BronzeToSilver.Inventory.movement Z) valid n,
       is_valid (BronzeToSilver.Inventory.clean_row now r) = true →
       BronzeToSilver.Inventory.clean_row now r ∈ valid →
       BronzeToSilver.Inventory.product_name r = Some n →
       ∃ ts p w t,
         BronzeToSilver.Inventory.timestamp r = Some ts
         ∧ BronzeToSilver.Inventory.product_id r = Some p
         ∧ BronzeToSilver.Inventory.warehouse_id r = Some w
         ∧ BronzeToSilver.Inventory.movement_type r = Some t
         ∧ is_Some (SilverToGold.movement clock valid
                      !! ((SilverToGold.date_of ts, p, n, w), t))
         ∧ is_Some (SilverToGold.net_position_table clock valid
                      !! (SilverToGold.date_of ts, p, n, w))).
Proof.
  split; [|split].
  - intros r valid Hvalid Hin.
    apply sales_valid_fields in Hvalid as (_ & [ts Hts] & _).
    exists ts. split; [done|].
    unfold SilverToGold.daily. rewrite lookup_fmap, fmap_is_Some, groupby_is_Some.
    eexists. split; [exact Hin|].
    unfold SilverToGold.sale_date. by rewrite sales_clean_row_timestamp, Hts.
  - intros r valid Hvalid Hin.
    apply events_valid_fields in Hvalid as (_ & [ts Hts] & _ & _ & t & Ht & _).
    exists ts, t. do 2 (split; [done|]).
    unfold SilverToGold.events.
    rewrite lookup_fmap, fmap_is_Some, groupby_pair_is_Some.
    eexists. split; [exact Hin|].
    unfold SilverToGold.event_date, BronzeToSilver.Events.clean_row, finalise.
    cbn [row]. by rewrite Hts, Ht.
  - intros r valid n Hvalid Hin Hname.
    apply inventory_valid_fields in Hvalid
      as (_ & [ts Hts] & [p Hp] & [w Hw] & (t & Ht & _) & _).
    exists ts, p, w, t. do 4 (split; [done|]).
    assert (SilverToGold.type_key (BronzeToSilver.Inventory.clean_row now r)
            = Some ((SilverToGold.date_of ts, p, n, w), t)) as Hkey.
    { unfold SilverToGold.type_key, SilverToGold.index_key,
        SilverToGold.movement_date, BronzeToSilver.Inventory.clean_row, finalise.
      cbn [row]. by rewrite Hts, Hp, Hname, Hw, Ht. }
    split.
    + unfold SilverToGold.movement.
      rewrite lookup_fmap, fmap_is_Some, groupby_is_Some. eauto.
    + apply net_position_table_is_Some. eauto.
Qed.

Lemma valid_records_are_aggregated_witness :
  ∃ ts, BronzeToSilver.Sales.timestamp
          (BronzeToSilver.Sales.parse_timestamp parse_any sale_1) = Some ts
        ∧ is_Some (SilverToGold.daily clock_noon [cleaned_sale_1]
                     !! SilverToGold.date_of ts).
Proof.
  apply (proj1 (valid_records_are_aggregated clock_noon "2025-01-01T11:30:00+00:00")).
  - vm_compute. reflexivity.
  - apply list_elem_of_here.
Defined.

Lemma groupby_filter_key {R K} `{Countable K} (key : R → option K)
    (P : R → Prop) `{∀ r, Decision (P r)} (df : list R) :
  (∀ r, is_Some (key r) → P r) →
  groupby key (filter P df) = groupby key df.
Proof.
  intros HP. induction df as [|r df IH]; [done|].
  rewrite filter_cons. destruct (decide (P r)) as [Hr|Hr]; simpl.
  - by rewrite IH.
  - rewrite IH. destruct (key r) as [k|] eqn:Hkey; [|done].
    exfalso. apply Hr, HP. by rewrite Hkey.
Qed.

Lemma is_Some_bind_pair_r {A B} (a : option A) (b : option B) :
  is_Some (d ← a; c ← b; Some (d, c)) → is_Some b.
Proof. destruct a, b; simpl; try done; by intros [? ?]. Qed.

(** X23. A record with a null in a group column that is not a required
    column contributes to no row of the table grouped by it: a sale without
    category or payment method, an event without device type, a movement
    without product name.  The tables are those of the frame without these
    records. *)
Theorem records_without_group_column_are_left_out
    (clock : string → string * datetime) :
  (∀ valid,
     SilverToGold.cat clock valid
     = SilverToGold.cat clock
         (filter (λ r, is_Some (BronzeToSilver.Sales.category (row r))) valid))
  ∧ (∀ valid,
       SilverToGold.pay clock valid
       = SilverToGold.pay clock
           (filter (λ r, is_Some (BronzeToSilver.Sales.payment_method (row r))) valid))
  ∧ (∀ valid,
       SilverToGold.devices clock valid
       = SilverToGold.devices clock
           (filter (λ r, is_Some (BronzeToSilver.Events.device_type (row r))) valid))
  ∧ (∀ valid,
       SilverToGold.movement clock valid
       = SilverToGold.movement clock
           (filter (λ r, is_Some (BronzeToSilver.Inventory.product_name (row r))) valid))
  ∧ (∀ valid,
       SilverToGold.net_position_table clock valid
       = SilverToGold.net_position_table clock
           (filter (λ r, is_Some (BronzeToSilver.Inventory.product_name (row r))) valid)).
Proof.
  assert (∀ r : cleaned (BronzeToSilver.Inventory.movement Z),
            is_Some (SilverToGold.type_key r) →
            is_Some (BronzeToSilver.Inventory.product_name (row r))) as Hname.
  { intros r. unfold SilverToGold.type_key, SilverToGold.index_key.
    destruct (SilverToGold.movement_date r); [|by intros [? ?]].
    destruct (BronzeToSilver.Inventory.product_id (row r)); [|by intros [? ?]].
    destruct (BronzeToSilver.Inventory.product_name (row r)); [done|by intros [? ?]]. }
  repeat apply conj; intros valid.
  - unfold SilverToGold.cat. rewrite groupby_filter_key; [done|].
    intros r. apply is_Some_bind_pair_r.
  - unfold SilverToGold.pay. rewrite groupby_filter_key; [done|].
    intros r. apply is_Some_bind_pair_r.
  - unfold SilverToGold.devices. rewrite groupby_filter_key; [done|].
    intros r. apply is_Some_bind_pair_r.
  - unfold SilverToGold.movement. by rewrite groupby_filter_key.
  - unfold SilverToGold.net_position_table, SilverToGold.pivot_table.
    by rewrite groupby_filter_key.
Qed.

(** ** The names of the gold snapshots *)

Lemma string_length_app (s t : string) :
  String.length (s +:+ t) = (String.length s + String.length t)%nat.
Proof. induction s as [|a s IH]; simpl; [done|]. by rewrite IH. Qed.

Lemma string_app_inj_length (s1 s2 t1 t2 : string) :
  String.length s1 = String.length s2 →
  s1 +:+ t1 = s2 +:+ t2 → s1 = s2 ∧ t1 = t2.
Proof.
  revert s2. induction s1 as [|a s1 IH]; intros [|b s2] Hlen Heq; simpl in *;
    try done.
  injection Hlen as Hlen. injection Heq as -> Heq.
  destruct (IH s2 Hlen Heq) as [-> ->]. done.
Qed.

Lemma zfill_length (w : nat) (n : Z) : String.length (zfill w n) = w.
Proof.
  revert n. induction w as [|w IH]; intros n; simpl; [done|].
  rewrite string_length_app, IH. simpl. lia.
Qed.

Lemma digit_inj (a b : Z) : digit a = digit b → a mod 10 = b mod 10.
Proof.
  unfold digit. intros [= Heq].
  pose proof (Z.mod_pos_bound a 10 eq_refl) as Ha.
  pose proof (Z.mod_pos_bound b 10 eq_refl) as Hb.
  apply (f_equal Ascii.N_of_ascii) in Heq.
  rewrite !Ascii.N_ascii_embedding in Heq by lia. lia.
Qed.

Lemma zfill_inj (w : nat) (n m : Z) :
  0 ≤ n < 10 ^ Z.of_nat w → 0 ≤ m < 10 ^ Z.of_nat w →
  zfill w n = zfill w m → n = m.
Proof.
  revert n m. induction w as [|w IH]; intros n m Hn Hm Heq.
  - simpl in Hn, Hm. lia.
  - rewrite Nat2Z.inj_succ, Z.pow_succ_r in Hn, Hm by lia.
    simpl in Heq.
    apply string_app_inj_length in Heq as [Hhigh Hlow];
      [|by rewrite !zfill_length].
    apply digit_inj in Hlow.
    apply IH in Hhigh; [|split; [apply Z.div_pos; lia|apply Z.div_lt_upper_bound; lia]..].
    rewrite (Z.div_mod n 10), (Z.div_mod m 10) by lia. lia.
Qed.

Lemma strftime_length (dt : datetime) :
  String.length (strftime_Ymd_HMS dt) = 15%nat.
Proof.
  unfold strftime_Ymd_HMS. rewrite !string_length_app, !zfill_length. done.
Qed.

(** The formatted time determines the time, to the second. *)
Lemma strftime_inj (d1 d2 : datetime) :
  datetime_ok d1 → datetime_ok d2 →
  strftime_Ymd_HMS d1 = strftime_Ymd_HMS d2 → to_second d1 = to_second d2.
Proof.
  intros (? & ? & ? & ? & ? & ? & _) (? & ? & ? & ? & ? & ? & _) Heq.
  unfold strftime_Ymd_HMS in Heq.
  apply string_app_inj_length in Heq as [Hy Heq]; [|by rewrite !zfill_length].
  apply string_app_inj_length in Heq as [Hmo Heq]; [|by rewrite !zfill_length].
  apply string_app_inj_length in Heq as [Hd Heq]; [|by rewrite !zfill_length].
  apply string_app_inj_length in Heq as [_ Heq]; [|done].
  apply string_app_inj_length in Heq as [Hh Heq]; [|by rewrite !zfill_length].
  apply string_app_inj_length in Heq as [Hmi Hs]; [|by rewrite !zfill_length].
  apply zfill_inj in Hy, Hmo, Hd, Hh, Hmi, Hs;
    try (change (10 ^ Z.of_nat 4) with 10000); try (change (10 ^ Z.of_nat 2) with 100);
    try lia.
  unfold to_second. congruence.
Qed.

Lemma gold_file_inj (t1 t2 : string) (d1 d2 : datetime) :
  Storage.gold_file t1 d1 = Storage.gold_file t2 d2 →
  t1 = t2 ∧ strftime_Ymd_HMS d1 = strftime_Ymd_HMS d2.
Proof.
  unfold Storage.gold_file. cbn [app DATALAKE_DIR BASE_DIR].
  intros [= -> Hname]. split; [done|].
  apply string_app_inj_length in Hname as [_ Hname]; [|done].
  apply string_app_inj_length in Hname as [_ Hname]; [|done].
  apply string_app_inj_length in Hname as [Hname _]; [done|].
  by rewrite !strftime_length.
Qed.

Lemma gold_file_eq_iff (t1 t2 : string) (d1 d2 : datetime) :
  datetime_ok d1 → datetime_ok d2 →
  Storage.gold_file t1 d1 = Storage.gold_file t2 d2
  ↔ t1 = t2 ∧ to_second d1 = to_second d2.
Proof.
  intros Hd1 Hd2. split.
  - intros [-> Hname]%gold_file_inj. split; [done|]. by apply strftime_inj.
  - intros [-> Hsec]. unfold to_second in Hsec. injection Hsec as Hy Hmo Hd Hh Hmi Hs.
    unfold Storage.gold_file, strftime_Ymd_HMS. by rewrite Hy, Hmo, Hd, Hh, Hmi, Hs.
Qed.

(** X24. Two snapshots get the same file exactly when they are of the same
    table and are saved within the same second; saved in different seconds,
    or for different tables, both remain. *)
Theorem snapshots_collide_only_within_a_second {F} (t1 t2 : string)
    (d1 d2 : datetime) (df1 df2 : F) (gold : gmap Path F) :
  datetime_ok d1 → datetime_ok d2 →
  let save1 := Storage.save_to_gold t1 d1 df1 gold in
  let save2 := Storage.save_to_gold t2 d2 df2 save1.2 in
  (save1.1 = save2.1 ↔ t1 = t2 ∧ to_second d1 = to_second d2)
  ∧ save2.2 !! save2.1 = Some df2
  ∧ (¬ (t1 = t2 ∧ to_second d1 = to_second d2) → save2.2 !! save1.1 = Some df1).
Proof.
  intros Hd1 Hd2 save1 save2. unfold save2, save1, Storage.save_to_gold.
  cbn [fst snd]. split; [by apply gold_file_eq_iff|].
  split; [apply lookup_insert_eq|].
  intros Hne. rewrite lookup_insert_ne, lookup_insert_eq; [done|].
  intros Heq. apply Hne. by apply (gold_file_eq_iff t1 t2 d1 d2).
Qed.

Lemma snapshots_collide_only_within_a_second_witness :
  let save1 := Storage.save_to_gold "daily_sales_summary" noon 1%nat ∅ in
  let save2 := Storage.save_to_gold "daily_sales_summary"
                 (mkDatetime 2025 1 1 12 0 1 0) 2%nat save1.2 in
  (save1.1 = save2.1
   ↔ "daily_sales_summary" = "daily_sales_summary"
     ∧ to_second noon = to_second (mkDatetime 2025 1 1 12 0 1 0))
  ∧ save2.2 !! save2.1 = Some 2%nat
  ∧ (¬ ("daily_sales_summary" = "daily_sales_summary"
        ∧ to_second noon = to_second (mkDatetime 2025 1 1 12 0 1 0)) →
     save2.2 !! save1.1 = Some 1%nat).
Proof.
  apply (snapshots_collide_only_within_a_second
           "daily_sales_summary" "daily_sales_summary" noon
           (mkDatetime 2025 1 1 12 0 1 0) 1%nat 2%nat ∅).
  - unfold datetime_ok. simpl. lia.
  - unfold datetime_ok. simpl. lia.
Defined.

(** X25. A second aggregation run whose clock readings for a table fall in
    another second than the first run's leaves the first run's snapshot of
    that table as it was. *)
Theorem runs_in_distinct_seconds_keep_both
    (clock1 clock2 : string → string * datetime)
    (lk1 lk2 : BronzeToSilver.lake) (gold : gmap Path SilverToGold.gold_table)
    (t : string) :
  (∀ t', t' ∈ GOLD_TABLES → datetime_ok (clock1 t').2 ∧ datetime_ok (clock2 t').2) →
  t ∈ GOLD_TABLES →
  to_second (clock1 t).2 ≠ to_second (clock2 t).2 →
  let first_run := SilverToGold.run clock1 lk1 gold in
  SilverToGold.run clock2 lk2 first_run !! Storage.gold_file t (clock1 t).2
  = first_run !! Storage.gold_file t (clock1 t).2.
Proof.
  intros Hok Ht Hsec first_run. apply run_lookup_other.
  intros t' Ht' Heq.
  destruct (Hok t' Ht') as [_ Hok2]. destruct (Hok t Ht) as [Hok1 _].
  apply gold_file_eq_iff in Heq as [-> Heq]; [|done..].
  by apply Hsec.
Qed.

Lemma runs_in_distinct_seconds_keep_both_witness :
  let first_run := SilverToGold.run clock_noon lake_one_sale ∅ in
  SilverToGold.run clock_noon_next_second lake_one_sale first_run
    !! Storage.gold_file "daily_sales_summary" (clock_noon "daily_sales_summary").2
  = first_run !! Storage.gold_file "daily_sales_summary" (clock_noon "daily_sales_summary").2.
Proof.
  apply (runs_in_distinct_seconds_keep_both clock_noon clock_noon_next_second
           lake_one_sale lake_one_sale ∅ "daily_sales_summary").
  - intros t' _. unfold datetime_ok. simpl. lia.
  - apply list_elem_of_here.
  - discriminate.
Defined.

(** ** A sale that reaches silver twice *)

Lemma agg_nunique_repeated {R} (col : R → option string) (r r' : R) (g : list R) :
  r' ∈ g → col r = col r' → agg_nunique col (r :: g) = agg_nunique col g.
Proof.
  intros Hin Hcol. unfold agg_nunique. f_equal. simpl.
  destruct (col r) as [i|] eqn:Hi; [|done].
  rewrite list_to_set_cons. apply subseteq_union_1_L, singleton_subseteq_l.
  apply elem_of_list_to_set, list_elem_of_omap. exists r'. by rewrite <- Hcol.
Qed.

(** X26. Duplicates are dropped within one cleaning run only, so the frame
    the aggregation reads can hold two valid sales with one sale id.  The
    daily table then counts the order once and adds both totals to the
    revenue. *)
Theorem repeated_sale_counted_once_summed_twice
    (clock : string → string * datetime)
    (valid : list (cleaned (BronzeToSilver.Sales.sale Z)))
    (r r' : cleaned (BronzeToSilver.Sales.sale Z)) (d : Z) (t : Q) :
  r' ∈ valid →
  SilverToGold.sale_date r' = Some d →
  SilverToGold.sale_date r = Some d →
  BronzeToSilver.Sales.sale_id (row r) = BronzeToSilver.Sales.sale_id (row r') →
  BronzeToSilver.Sales.total_amount (row r) = Some t →
  let day := filter (λ x, SilverToGold.sale_date x = Some d) valid in
  ∃ before after,
    SilverToGold.daily clock valid !! d = Some before
    ∧ SilverToGold.daily clock (r :: valid) !! d = Some after
    ∧ SilverToGold.order_count after = SilverToGold.order_count before
    ∧ SilverToGold.total_revenue before
      = round2 (agg_sum (λ x, BronzeToSilver.Sales.total_amount (row x)) day)
    ∧ SilverToGold.total_revenue after
      = round2 (t + agg_sum (λ x, BronzeToSilver.Sales.total_amount (row x)) day).
Proof.
  intros Hin Hd' Hd Hid Ht day.
  assert (r' ∈ day) as Hday by (by apply list_elem_of_filter).
  assert (groupby SilverToGold.sale_date valid !! d = Some day) as Hbefore.
  { apply groupby_lookup_Some. split; [done|]. intros Hnil. rewrite Hnil in Hday.
    by apply elem_of_nil in Hday. }
  assert (groupby SilverToGold.sale_date (r :: valid) !! d = Some (r :: day)) as Hafter.
  { apply groupby_lookup_Some. split; [|done].
    by rewrite filter_cons, decide_True. }
  unfold SilverToGold.daily. rewrite !lookup_fmap, Hbefore, Hafter.
  eexists _, _. split; [done|]. split; [done|]. cbn [SilverToGold.order_count
    SilverToGold.total_revenue]. split; [|split; [done|]].
  - by apply (agg_nunique_repeated _ r r').
  - unfold agg_sum. cbn [omap list_omap]. by rewrite Ht.
Qed.

Lemma repeated_sale_counted_once_summed_twice_witness :
  let again := BronzeToSilver.Sales.clean_row "2025-01-01T11:35:00+00:00"
                 (BronzeToSilver.Sales.parse_timestamp parse_any sale_1_again) in
  let d := SilverToGold.date_of 1735689600000000000 in
  let day := filter (λ x, SilverToGold.sale_date x = Some d) [cleaned_sale_1] in
  ∃ before after,
    SilverToGold.daily clock_noon [cleaned_sale_1] !! d = Some before
    ∧ SilverToGold.daily clock_noon [again; cleaned_sale_1] !! d = Some after
    ∧ SilverToGold.order_count after = SilverToGold.order_count before
    ∧ SilverToGold.total_revenue before
      = round2 (agg_sum (λ x, BronzeToSilver.Sales.total_amount (row x)) day)
    ∧ SilverToGold.total_revenue after
      = round2 (99 + agg_sum (λ x, BronzeToSilver.Sales.total_amount (row x)) day).
Proof.
  apply (repeated_sale_counted_once_summed_twice clock_noon [cleaned_sale_1]
           _ cleaned_sale_1).
  - apply list_elem_of_here.
  - vm_compute. reflexivity.
  - vm_compute. reflexivity.
  - vm_compute. reflexivity.
  - vm_compute. reflexivity.
Defined.

(** * The rollups of an aggregation run *)

(** A snapshot is found under its own name, and writing one table leaves
    the files of the other tables alone. *)
Lemma write_lookup_same clock (t : string) df gold :
  SilverToGold.write clock t df gold !! Storage.gold_file t (clock t).2 = Some df.
Proof. by rewrite write_lookup, decide_True. Qed.

Lemma write_lookup_other_table clock (t t' : string) (dt : datetime) df gold :
  t ≠ t' →
  SilverToGold.write clock t df gold !! Storage.gold_file t' dt
  = gold !! Storage.gold_file t' dt.
Proof.
  intros Hne. rewrite write_lookup, decide_False; [done|].
  by intros [? _]%gold_file_inj.
Qed.

Ltac other_tables :=
  intros;
  unfold SilverToGold.sales_snapshots, SilverToGold.events_snapshots,
    SilverToGold.inventory_snapshots; cbv zeta;
  rewrite ?write_lookup_other_table by discriminate;
  rewrite ?write_lookup_same; reflexivity.

(** The table made of the groups of a frame is the rollup of the frame. *)
Lemma rollup_groupby {R K Row} `{Countable K} (key : R → option K)
    (f : list R → Row) (metrics : K → list R → Row → Prop) (valid : list R) :
  (∀ k g, metrics k g (f g)) →
  rollup key metrics valid (f <$> groupby key valid).
Proof.
  intros Hm k. unfold group. rewrite lookup_fmap, groupby_lookup.
  destruct (filter (λ r, key r = Some k) valid) as [|r g]; [done|].
  eexists. split; [done|]. apply Hm.
Qed.

Lemma rollup_net_position clock
    (valid : list (cleaned (BronzeToSilver.Inventory.movement Z))) :
  rollup (λ r, fst <$> SilverToGold.type_key r)
         (λ k _, net_metrics (clock "inventory_net_position").1 valid k)
         valid (SilverToGold.net_position_table clock valid).
Proof.
  intros k. unfold group.
  destruct (filter (λ r, fst <$> SilverToGold.type_key r = Some k) valid)
    as [|r g] eqn:Hgroup.
  - apply eq_None_not_Some. intros (r & t & Hr & Hkey)%net_position_table_is_Some.
    assert (r ∈ filter (λ r, fst <$> SilverToGold.type_key r = Some k) valid) as Hin.
    { apply list_elem_of_filter. split; [|done]. by rewrite Hkey. }
    rewrite Hgroup in Hin. by apply elem_of_nil in Hin.
  - assert (r ∈ filter (λ r, fst <$> SilverToGold.type_key r = Some k) valid) as Hin
      by (rewrite Hgroup; left).
    apply list_elem_of_filter in Hin as [Hkey Hr].
    destruct (SilverToGold.type_key r) as [[k' t]|] eqn:Htype; [|done].
    injection Hkey as ->.
    destruct (net_position_table_lookup clock valid k) as (cols & Hrow & Hin & Hout & Hadj).
    { apply elem_of_index. eauto. }
    eexists. split; [exact Hrow|]. unfold net_metrics. cbn.
    unfold SilverToGold.column. by rewrite Hin, Hout.
Qed.

Lemma read_from_silver_concatenation {R} (domain : string)
    (files : gmap Path (list R)) :
  concatenation_of (DATALAKE_DIR ++ ["silver"; domain]) files
    (Storage.read_from_silver domain files).
Proof.
  exists (sorted_paths (Storage.rglob (DATALAKE_DIR ++ ["silver"; domain]) files)).
  split; [apply StronglySorted_merge_sort; apply _|].
  split; [|split; [|done]].
  - unfold sorted_paths. rewrite merge_sort_Permutation.
    apply NoDup_filter, NoDup_elements.
  - intros f. rewrite elem_of_sorted_paths. unfold Storage.rglob.
    by rewrite list_elem_of_filter, elem_of_elements, elem_of_dom.
Qed.

(** C9. The frame a run aggregates for a domain is the concatenation of
    every Parquet file below the domain's silver directory, all partitions
    and all runs, restricted to the records with [is_valid = true].  When
    that frame is not empty, each table the run writes for the domain is
    the rollup of it: a row for every group key of its records and for no
    other, with every metric the reduction over the records of the frame
    with that key; so no record with [is_valid = false] contributes to a
    row or to a metric.  When the frame is empty the domain's files are
    left as they were.  Two lakes with the same valid records give the same
    gold layer. *)
Theorem rollups_over_all_valid_cleaned (clock : string → string * datetime)
    (lk : BronzeToSilver.lake) (gold : gmap Path SilverToGold.gold_table) :
  let sales := SilverToGold.valid_rows
                 (Storage.read_from_silver "sales" (BronzeToSilver.silver_sales lk)) in
  let events := SilverToGold.valid_rows
                  (Storage.read_from_silver "customer_events" (BronzeToSilver.silver_events lk)) in
  let inventory := SilverToGold.valid_rows
                     (Storage.read_from_silver "inventory" (BronzeToSilver.silver_inventory lk)) in
  let out := SilverToGold.run clock lk gold in
  let file := λ table, Storage.gold_file table (clock table).2 in
  let generated_at := λ table, (clock table).1 in
  ((∃ df, concatenation_of (DATALAKE_DIR ++ ["silver"; "sales"])
            (BronzeToSilver.silver_sales lk) df
          ∧ sales = filter (λ c, is_valid c = true) df)
   ∧ (∃ df, concatenation_of (DATALAKE_DIR ++ ["silver"; "customer_events"])
              (BronzeToSilver.silver_events lk) df
            ∧ events = filter (λ c, is_valid c = true) df)
   ∧ (∃ df, concatenation_of (DATALAKE_DIR ++ ["silver"; "inventory"])
              (BronzeToSilver.silver_inventory lk) df
            ∧ inventory = filter (λ c, is_valid c = true) df))
  ∧ ((∀ c, c ∈ sales ↔
         is_valid c = true
         ∧ ∃ f part, (DATALAKE_DIR ++ ["silver"; "sales"]) `prefix_of` f
                     ∧ BronzeToSilver.silver_sales lk !! f = Some part ∧ c ∈ part)
   ∧ (∀ c, c ∈ events ↔
           is_valid c = true
           ∧ ∃ f part, (DATALAKE_DIR ++ ["silver"; "customer_events"]) `prefix_of` f
                       ∧ BronzeToSilver.silver_events lk !! f = Some part ∧ c ∈ part)
   ∧ (∀ c, c ∈ inventory ↔
           is_valid c = true
           ∧ ∃ f part, (DATALAKE_DIR ++ ["silver"; "inventory"]) `prefix_of` f
                       ∧ BronzeToSilver.silver_inventory lk !! f = Some part ∧ c ∈ part))
  ∧ (sales ≠ [] →
     ∃ daily cat pay,
       out !! file "daily_sales_summary" = Some (SilverToGold.DailySalesSummary daily)
       ∧ rollup SilverToGold.sale_date
                (λ _, daily_metrics (generated_at "daily_sales_summary")) sales daily
       ∧ out !! file "category_sales_summary"
         = Some (SilverToGold.CategorySalesSummary cat)
       ∧ rollup (key2 SilverToGold.sale_date (λ r, BronzeToSilver.Sales.category (row r)))
                (λ _, category_metrics (generated_at "category_sales_summary")) sales cat
       ∧ out !! file "payment_method_summary"
         = Some (SilverToGold.PaymentMethodSummary pay)
       ∧ rollup (key2 SilverToGold.sale_date
                      (λ r, BronzeToSilver.Sales.payment_method (row r)))
                (λ _, payment_metrics (generated_at "payment_method_summary")) sales pay)
  ∧ (events ≠ [] →
     ∃ activity devices,
       out !! file "customer_activity_summary"
       = Some (SilverToGold.CustomerActivitySummary activity)
       ∧ rollup (key2 SilverToGold.event_date
                      (λ r, BronzeToSilver.Events.event_type (row r)))
                (λ _, activity_metrics (generated_at "customer_activity_summary"))
                events activity
       ∧ out !! file "device_usage_summary"
         = Some (SilverToGold.DeviceUsageSummary devices)
       ∧ rollup (key2 SilverToGold.event_date
                      (λ r, BronzeToSilver.Events.device_type (row r)))
                (λ _, device_metrics (generated_at "device_usage_summary"))
                events devices)
  ∧ (inventory ≠ [] →
     ∃ movement net,
       out !! file "inventory_movement_summary"
       = Some (SilverToGold.InventoryMovementSummary movement)
       ∧ rollup SilverToGold.type_key
                (λ _, movement_metrics (generated_at "inventory_movement_summary"))
                inventory movement
       ∧ out !! file "inventory_net_position"
         = Some (SilverToGold.InventoryNetPosition net)
       ∧ rollup (λ r, fst <$> SilverToGold.type_key r)
                (λ k _, net_metrics (generated_at "inventory_net_position") inventory k)
                inventory net)
  ∧ ((sales = [] →
      ∀ table, table ∈ ["daily_sales_summary"; "category_sales_summary";
                        "payment_method_summary"] →
               out !! file table = gold !! file table)
     ∧ (events = [] →
        ∀ table, table ∈ ["customer_activity_summary"; "device_usage_summary"] →
                 out !! file table = gold !! file table)
     ∧ (inventory = [] →
        ∀ table, table ∈ ["inventory_movement_summary"; "inventory_net_position"] →
                 out !! file table = gold !! file table))
  ∧ (∀ lk',
       SilverToGold.valid_rows
         (Storage.read_from_silver "sales" (BronzeToSilver.silver_sales lk')) = sales →
       SilverToGold.valid_rows
         (Storage.read_from_silver "customer_events" (BronzeToSilver.silver_events lk'))
       = events →
       SilverToGold.valid_rows
         (Storage.read_from_silver "inventory" (BronzeToSilver.silver_inventory lk'))
       = inventory →
       SilverToGold.run clock lk' gold = out).
Proof.
  intros sales events inventory out file generated_at.
  assert (out = snapshots_of (SilverToGold.inventory_snapshots clock) inventory
                  (snapshots_of (SilverToGold.events_snapshots clock) events
                     (snapshots_of (SilverToGold.sales_snapshots clock) sales gold)))
    as Hout by apply run_as_snapshots.
  split; [|split; [|split; [|split; [|split; [|split]]]]].
  - split; [|split]; eexists; (split; [apply read_from_silver_concatenation|done]).
  - split; [|split]; intros c.
    + unfold sales. by rewrite elem_of_valid_rows, elem_of_read_from_silver.
    + unfold events. by rewrite elem_of_valid_rows, elem_of_read_from_silver.
    + unfold inventory. by rewrite elem_of_valid_rows, elem_of_read_from_silver.
  - intros Hsales.
    exists (SilverToGold.daily clock sales), (SilverToGold.cat clock sales),
      (SilverToGold.pay clock sales).
    assert (∀ f, snapshots_of (SilverToGold.sales_snapshots clock) sales gold !! f
                 = SilverToGold.sales_snapshots clock sales gold !! f) as Hwritten.
    { intros f. by destruct sales. }
    rewrite Hout. unfold file.
    rewrite !(snapshots_of_lookup_other (SilverToGold.inventory_snapshots clock))
      by other_tables.
    rewrite !(snapshots_of_lookup_other (SilverToGold.events_snapshots clock))
      by other_tables.
    rewrite !Hwritten.
    split; [other_tables|]. split; [by apply rollup_groupby|].
    split; [other_tables|]. split; [by apply rollup_groupby|].
    split; [other_tables|]. by apply rollup_groupby.
  - intros Hevents.
    exists (SilverToGold.events clock events), (SilverToGold.devices clock events).
    assert (∀ g f, snapshots_of (SilverToGold.events_snapshots clock) events g !! f
                   = SilverToGold.events_snapshots clock events g !! f) as Hwritten.
    { intros g f. by destruct events. }
    rewrite Hout. unfold file.
    rewrite !(snapshots_of_lookup_other (SilverToGold.inventory_snapshots clock))
      by other_tables.
    rewrite !Hwritten.
    split; [other_tables|]. split; [by apply rollup_groupby|].
    split; [other_tables|]. by apply rollup_groupby.
  - intros Hinventory.
    exists (SilverToGold.movement clock inventory),
      (SilverToGold.net_position_table clock inventory).
    assert (∀ g f, snapshots_of (SilverToGold.inventory_snapshots clock) inventory g !! f
                   = SilverToGold.inventory_snapshots clock inventory g !! f) as Hwritten.
    { intros g f. by destruct inventory. }
    rewrite Hout. unfold file. rewrite !Hwritten.
    split; [other_tables|]. split; [by apply rollup_groupby|].
    split; [other_tables|]. apply rollup_net_position.
  - rewrite Hout. unfold file. split; [|split].
    + intros -> table Htable.
      rewrite !(snapshots_of_lookup_other (SilverToGold.inventory_snapshots clock));
        [|repeat (apply elem_of_cons in Htable as [->|Htable]; [other_tables|]);
          by apply elem_of_nil in Htable].
      rewrite !(snapshots_of_lookup_other (SilverToGold.events_snapshots clock));
        [done|].
      repeat (apply elem_of_cons in Htable as [->|Htable]; [other_tables|]).
      by apply elem_of_nil in Htable.
    + intros -> table Htable.
      rewrite !(snapshots_of_lookup_other (SilverToGold.inventory_snapshots clock));
        [|repeat (apply elem_of_cons in Htable as [->|Htable]; [other_tables|]);
          by apply elem_of_nil in Htable].
      cbn [snapshots_of].
      apply snapshots_of_lookup_other.
      repeat (apply elem_of_cons in Htable as [->|Htable]; [other_tables|]).
      by apply elem_of_nil in Htable.
    + intros -> table Htable. cbn [snapshots_of].
      rewrite !(snapshots_of_lookup_other (SilverToGold.events_snapshots clock));
        [|repeat (apply elem_of_cons in Htable as [->|Htable]; [other_tables|]);
          by apply elem_of_nil in Htable].
      apply snapshots_of_lookup_other.
      repeat (apply elem_of_cons in Htable as [->|Htable]; [other_tables|]).
      by apply elem_of_nil in Htable.
  - intros lk' Hs He Hi. by rewrite Hout, run_as_snapshots, Hs, He, Hi.
Qed.

(** A partition with one valid and one invalid sale: the daily table the
    run writes has, for the day of the valid sale, one order and the
    revenue of that sale alone. *)
Lemma rollups_over_all_valid_cleaned_witness :
  ∃ daily kpis,
    SilverToGold.run clock_noon lake_one_valid_one_invalid ∅
      !! Storage.gold_file "daily_sales_summary" noon
    = Some (SilverToGold.DailySalesSummary daily)
    ∧ daily !! SilverToGold.date_of 1735689600000000000 = Some kpis
    ∧ (SilverToGold.total_revenue kpis == 30)%Q
    ∧ SilverToGold.order_count kpis = 1%nat.
Proof.
  pose proof (rollups_over_all_valid_cleaned clock_noon lake_one_valid_one_invalid ∅)
    as Hrollups.
  cbv beta zeta in Hrollups.
  assert (SilverToGold.valid_rows
            (Storage.read_from_silver "sales"
               (BronzeToSilver.silver_sales lake_one_valid_one_invalid))
          = [cleaned_sale_1]) as Hsales by (vm_compute; reflexivity).
  rewrite Hsales in Hrollups.
  destruct Hrollups as (_ & _ & Hwritten & _).
  destruct Hwritten as (daily & cat & pay & Hfile & Hdaily & _); [done|].
  specialize (Hdaily (SilverToGold.date_of 1735689600000000000)).
  assert (group SilverToGold.sale_date [cleaned_sale_1]
            (SilverToGold.date_of 1735689600000000000)
          = [cleaned_sale_1]) as Hgroup by (vm_compute; reflexivity).
  rewrite Hgroup in Hdaily.
  destruct Hdaily as (kpis & Hrow & Hrevenue & Hcount & _).
  exists daily, kpis. split; [exact Hfile|]. split; [exact Hrow|]. split.
  - rewrite Hrevenue. vm_compute. reflexivity.
  - rewrite Hcount. vm_compute. reflexivity.
Defined.
